(** * reword.py: the text formatter bot

    A shallow embedding of [TextFormatterBot] (src/reword.py): the task
    registry, the retrying remote call of [format_text], the history file
    written by [save_to_history], the figures computed by
    [display_statistics], the dialogue of [get_multiline_input] and
    [get_task_choice], and the main loop of [run].

    Modelling conventions.
    - A Python [str] is a [string]: a sequence of code points below 256.
      [len] is [String.length].
    - A Python [int] is a [Z].
    - A Python [float] is an IEEE 754 binary64 number, a [spec_float] of the
      Standard Library; true division of two ints and multiplication round
      to the nearest float, ties to even.
    - The outside world (the history file, the clock, the remote endpoint,
      the diagnostic log) is an explicit [World] threaded through every
      operation; an operation returns a [result] and the new world.
    - [json.dump] and [json.load] are modelled on the text of the file, for
      JSON documents without floating-point numbers and with strings of code
      points below 256; [Json.decodable] tells of any text whether
      [json.load] accepts it at all. *)

From Stdlib Require Import String Ascii List ZArith NArith QArith Lia Bool.
From Stdlib Require Import DecimalString DecimalFacts DecimalN DecimalZ.
From Stdlib Require Import Qabs Qpower Lqa SpecFloat.
Import ListNotations.

Set Warnings "-register-all".

Local Open Scope string_scope.
Local Open Scope Z_scope.

(* ================================================================== *)
(** ** Python strings *)

Module PyStr.

Definition code (c : ascii) : N := N_of_ascii c.

(** [str.isspace] on the code points a [string] holds, those below 256:
    TAB..CR, FS..US, space, NEL (0x85) and NBSP (0xA0).  Beyond them Python
    counts as whitespace U+1680, U+2000 to U+200A, U+2028, U+2029, U+202F,
    U+205F and U+3000 as well; a text with such a character is not a
    [string], and what is proved of [strip] is proved of the texts made of
    code points below 256. *)
Definition isspace (c : ascii) : bool :=
  let n := code c in
  ((9 <=? n) && (n <=? 13) || (28 <=? n) && (n <=? 32)
   || (n =? 133) || (n =? 160))%N.

Fixpoint lstrip (s : string) : string :=
  match s with
  | EmptyString => EmptyString
  | String c r => if isspace c then lstrip r else s
  end.

Fixpoint rstrip (s : string) : string :=
  match s with
  | EmptyString => EmptyString
  | String c r =>
      match rstrip r with
      | EmptyString => if isspace c then EmptyString else String c EmptyString
      | r' => String c r'
      end
  end.

(** [s.strip()] *)
Definition strip (s : string) : string := rstrip (lstrip s).

(** Truth value of a [str]: non-empty. *)
Definition truthy (s : string) : bool :=
  match s with EmptyString => false | _ => true end.

Fixpoint all_space (s : string) : bool :=
  match s with
  | EmptyString => true
  | String c r => isspace c && all_space r
  end.

Definition len (s : string) : Z := Z.of_nat (String.length s).

End PyStr.

(* ================================================================== *)
(** ** Exceptions and results *)

(** The exception classes the program can meet.  [APIError] stands for
    [openai.APIError] and its subclasses; [PlainException] for a bare
    [Exception(...)]; [KeyboardInterrupt] derives from [BaseException]
    only. *)
Inductive exn_class :=
| ValueError | KeyError | IndexError | TypeError | AttributeError
| OSError | JSONDecodeError | ZeroDivisionError
| APIError | PlainException | KeyboardInterrupt.

(** An exception object: class, message, and [__context__], the exception
    that was being handled when this one was raised. *)
Inductive exn := Exn (cls : exn_class) (msg : string) (context : option exn).

Definition exn_cls (e : exn) : exn_class := let 'Exn c _ _ := e in c.
Definition exn_msg (e : exn) : string := let 'Exn _ m _ := e in m.
Definition exn_context (e : exn) : option exn := let 'Exn _ _ x := e in x.

(** [isinstance(e, openai.APIError)] *)
Definition is_api_error (e : exn) : bool :=
  match exn_cls e with APIError => true | _ => false end.

(** [isinstance(e, Exception)] *)
Definition is_exception (e : exn) : bool :=
  match exn_cls e with KeyboardInterrupt => false | _ => true end.

(** [raise new] executed inside the handler of [cur]: Python chains the
    exception under way as [__context__]. *)
Definition raised_while_handling (cur : exn) (cls : exn_class) (msg : string) : exn :=
  Exn cls msg (Some cur).

Inductive result (A : Type) : Type :=
| Return (a : A)
| Raise (e : exn).
Arguments Return {A} a.
Arguments Raise {A} e.

(* ================================================================== *)
(** ** JSON documents and the [json] module *)

Module Json.

Inductive json :=
| JNull
| JBool (b : bool)
| JInt (z : Z)
| JStr (s : string)
| JList (l : list json)
| JDict (d : list (string * json)).

Definition dquote : ascii := "034"%char.
Definition backslash : ascii := "092"%char.
Definition newline : ascii := "010"%char.

(** *** Encoding: [json.dump(obj, f, indent=2)] *)

Definition hex_digit (n : N) : ascii :=
  if (n <? 10)%N then ascii_of_N (48 + n) else ascii_of_N (87 + n).

(** [ESCAPE_DCT] and the [\uXXXX] fallback of [py_encode_basestring_ascii]
    ([ensure_ascii] is left at its default, [True]). *)
Definition escape_char (c : ascii) : string :=
  let n := PyStr.code c in
  if (n =? 34)%N then String backslash (String dquote EmptyString)
  else if (n =? 92)%N then String backslash (String backslash EmptyString)
  else if (n =? 10)%N then String backslash "n"
  else if (n =? 13)%N then String backslash "r"
  else if (n =? 9)%N then String backslash "t"
  else if (n =? 8)%N then String backslash "b"
  else if (n =? 12)%N then String backslash "f"
  else if ((32 <=? n) && (n <=? 126))%N then String c EmptyString
  else String backslash
         (String "u" (String "0" (String "0"
            (String (hex_digit (n / 16)) (String (hex_digit (n mod 16)) EmptyString))))).

Fixpoint escape (s : string) : string :=
  match s with
  | EmptyString => EmptyString
  | String c r => escape_char c ++ escape r
  end.

Definition encode_str (s : string) : string :=
  String dquote (escape s ++ String dquote EmptyString).

(** [int.__repr__] *)
Definition encode_int (z : Z) : string := NilZero.string_of_int (Z.to_int z).

Fixpoint spaces (n : nat) : string :=
  match n with O => EmptyString | S m => String " " (spaces m) end.

(** The separator before an item at nesting level [k]: a line break and
    [2 * k] spaces. *)
Definition newline_indent (k : nat) : string := String newline (spaces (2 * k)).

Fixpoint join (sep : string) (l : list string) : string :=
  match l with
  | [] => EmptyString
  | [x] => x
  | x :: xs => x ++ sep ++ join sep xs
  end.

Fixpoint encode (k : nat) (v : json) {struct v} : string :=
  match v with
  | JNull => "null"
  | JBool true => "true"
  | JBool false => "false"
  | JInt z => encode_int z
  | JStr s => encode_str s
  | JList l =>
      match l with
      | [] => "[]"
      | _ => "[" ++ newline_indent (S k)
             ++ join ("," ++ newline_indent (S k)) (map (encode (S k)) l)
             ++ newline_indent k ++ "]"
      end
  | JDict d =>
      match d with
      | [] => "{}"
      | _ => "{" ++ newline_indent (S k)
             ++ join ("," ++ newline_indent (S k))
                  (map (fun kv => let '(key, x) := kv in
                                  encode_str key ++ ": " ++ encode (S k) x) d)
             ++ newline_indent k ++ "}"
      end
  end.

Definition dumps (v : json) : string := encode 0 v.

(** *** Decoding: [json.load(f)] *)

(** [WHITESPACE_STR]: space, TAB, LF, CR. *)
Definition is_ws (c : ascii) : bool :=
  let n := PyStr.code c in
  ((n =? 32) || (n =? 9) || (n =? 10) || (n =? 13))%N.

Fixpoint skip_ws (s : string) : string :=
  match s with
  | EmptyString => EmptyString
  | String c r => if is_ws c then skip_ws r else s
  end.

Definition is_digit (c : ascii) : bool :=
  let n := PyStr.code c in ((48 <=? n) && (n <=? 57))%N.

Definition hex_value (c : ascii) : option N :=
  let n := PyStr.code c in
  if ((48 <=? n) && (n <=? 57))%N then Some (n - 48)%N
  else if ((97 <=? n) && (n <=? 102))%N then Some (n - 87)%N
  else if ((65 <=? n) && (n <=? 70))%N then Some (n - 55)%N
  else None.

Definition decode_uXXXX (h1 h2 h3 h4 : ascii) : option N :=
  match hex_value h1, hex_value h2, hex_value h3, hex_value h4 with
  | Some a, Some b, Some c, Some d => Some (((a * 16 + b) * 16 + c) * 16 + d)%N
  | _, _, _, _ => None
  end.

(** The [BACKSLASH] table of the decoder. *)
Definition unescape_simple (c : ascii) : option ascii :=
  let n := PyStr.code c in
  if (n =? 34)%N then Some dquote
  else if (n =? 92)%N then Some backslash
  else if (n =? 47)%N then Some "/"%char
  else if (n =? 98)%N then Some "008"%char
  else if (n =? 102)%N then Some "012"%char
  else if (n =? 110)%N then Some "010"%char
  else if (n =? 114)%N then Some "013"%char
  else if (n =? 116)%N then Some "009"%char
  else None.

(** [scanstring], strict: the text after the opening quote, up to and
    including the closing quote.  [None] is [JSONDecodeError]; an escape
    denoting a code point of 256 or more is outside the string model and is
    reported the same way. *)
Fixpoint scanstring (s : string) : option (string * string) :=
  match s with
  | EmptyString => None
  | String c r =>
      if (PyStr.code c =? 34)%N then Some (EmptyString, r)
      else if (PyStr.code c =? 92)%N then
        match r with
        | EmptyString => None
        | String e r1 =>
            if (PyStr.code e =? 117)%N then
              match r1 with
              | String h1 (String h2 (String h3 (String h4 r2))) =>
                  match decode_uXXXX h1 h2 h3 h4 with
                  | Some n =>
                      if (n <? 256)%N then
                        match scanstring r2 with
                        | Some (t, rest) => Some (String (ascii_of_N n) t, rest)
                        | None => None
                        end
                      else None
                  | None => None
                  end
              | _ => None
              end
            else
              match unescape_simple e with
              | Some x =>
                  match scanstring r1 with
                  | Some (t, rest) => Some (String x t, rest)
                  | None => None
                  end
              | None => None
              end
        end
      else if (PyStr.code c <? 32)%N then None
      else
        match scanstring r with
        | Some (t, rest) => Some (String c t, rest)
        | None => None
        end
  end.

Fixpoint span_digits (s : string) : string * string :=
  match s with
  | EmptyString => (EmptyString, EmptyString)
  | String c r =>
      if is_digit c then let '(d, r') := span_digits r in (String c d, r')
      else (EmptyString, s)
  end.

Definition starts_with_digit (s : string) : bool :=
  match s with String c _ => is_digit c | EmptyString => false end.

(** Does the text continue the number with a fraction (a dot and a digit) or
    an exponent (e or E, an optional sign, a digit)?  Then the literal is a
    float. *)
Definition continues_as_float (s : string) : bool :=
  match s with
  | String c r =>
      let n := PyStr.code c in
      if (n =? 46)%N then starts_with_digit r
      else if ((n =? 101) || (n =? 69))%N then
        match r with
        | String sg r' =>
            if ((PyStr.code sg =? 43) || (PyStr.code sg =? 45))%N
            then starts_with_digit r' else is_digit sg
        | EmptyString => false
        end
      else false
  | EmptyString => false
  end.

(** [int(lexeme)] for a lexeme of decimal digits. *)
Definition int_of_digits (lexeme : string) : option Z :=
  match NilZero.uint_of_string lexeme with
  | Some d => Some (Z.of_N (N.of_uint d))
  | None => None
  end.

(** [NUMBER_RE]: an optional minus sign, then a single zero or a non-zero
    digit followed by digits; an optional fraction and an optional exponent.
    Integers only: a float literal is outside the model and yields [None]. *)
Definition match_unsigned (s : string) : option (Z * string) :=
  match s with
  | EmptyString => None
  | String c r =>
      if (PyStr.code c =? 48)%N then
        if continues_as_float r then None else Some (0, r)
      else if is_digit c then
        let '(ds, rest) := span_digits r in
        if continues_as_float rest then None
        else match int_of_digits (String c ds) with
             | Some z => Some (z, rest)
             | None => None
             end
      else None
  end.

Definition match_number (s : string) : option (Z * string) :=
  match s with
  | String c r =>
      if (PyStr.code c =? 45)%N then
        match match_unsigned r with
        | Some (z, rest) => Some (- z, rest)
        | None => None
        end
      else match_unsigned s
  | EmptyString => None
  end.

(** [s[idx:idx+n] == w] *)
Fixpoint strip_prefix (w s : string) : option string :=
  match w with
  | EmptyString => Some s
  | String a w' =>
      match s with
      | String b s' => if Ascii.eqb a b then strip_prefix w' s' else None
      | EmptyString => None
      end
  end.

(** [dict[key] = v] on an insertion-ordered dict. *)
Fixpoint dict_set (d : list (string * json)) (key : string) (v : json)
  : list (string * json) :=
  match d with
  | [] => [(key, v)]
  | (k, x) :: d' =>
      if String.eqb k key then (k, v) :: d' else (k, x) :: dict_set d' key v
  end.

(** [dict(pairs)] *)
Definition dict_of_pairs (pairs : list (string * json)) : list (string * json) :=
  fold_left (fun d kv => dict_set d (fst kv) (snd kv)) pairs [].

(** [scan_once], [JSONArray] and [JSONObject].  The recursion of the three is
    bounded by [fuel]; [array_items] and [object_items] are the bodies of the
    two [while True] loops, entered at the position of the next value, resp.
    just after the opening quote of the next key. *)
Fixpoint scan_once (fuel : nat) (s : string) {struct fuel} : option (json * string) :=
  match fuel with
  | O => None
  | S f =>
      match s with
      | EmptyString => None
      | String c r =>
          let n := PyStr.code c in
          if (n =? 34)%N then
            match scanstring r with
            | Some (t, rest) => Some (JStr t, rest)
            | None => None
            end
          else if (n =? 123)%N then
            match skip_ws r with
            | String c1 r1 =>
                if (PyStr.code c1 =? 125)%N then Some (JDict [], r1)
                else if (PyStr.code c1 =? 34)%N then
                  match object_items f r1 with
                  | Some (pairs, rest) => Some (JDict (dict_of_pairs pairs), rest)
                  | None => None
                  end
                else None
            | EmptyString => None
            end
          else if (n =? 91)%N then
            match skip_ws r with
            | String c1 r1 =>
                if (PyStr.code c1 =? 93)%N then Some (JList [], r1)
                else
                  match array_items f (String c1 r1) with
                  | Some (values, rest) => Some (JList values, rest)
                  | None => None
                  end
            | EmptyString => None
            end
          else
            match strip_prefix "null" s, strip_prefix "true" s, strip_prefix "false" s with
            | Some rest, _, _ => Some (JNull, rest)
            | _, Some rest, _ => Some (JBool true, rest)
            | _, _, Some rest => Some (JBool false, rest)
            | _, _, _ =>
                match match_number s with
                | Some (z, rest) => Some (JInt z, rest)
                | None => None
                end
            end
      end
  end

with array_items (fuel : nat) (s : string) {struct fuel} : option (list json * string) :=
  match fuel with
  | O => None
  | S f =>
      match scan_once f s with
      | Some (value, s1) =>
          match skip_ws s1 with
          | String c r =>
              if (PyStr.code c =? 93)%N then Some ([value], r)
              else if (PyStr.code c =? 44)%N then
                match array_items f (skip_ws r) with
                | Some (values, rest) => Some (value :: values, rest)
                | None => None
                end
              else None
          | EmptyString => None
          end
      | None => None
      end
  end

with object_items (fuel : nat) (s : string) {struct fuel}
  : option (list (string * json) * string) :=
  match fuel with
  | O => None
  | S f =>
      match scanstring s with
      | Some (key, s1) =>
          match skip_ws s1 with
          | String c r =>
              if (PyStr.code c =? 58)%N then
                match scan_once f (skip_ws r) with
                | Some (value, s2) =>
                    match skip_ws s2 with
                    | String c2 r2 =>
                        if (PyStr.code c2 =? 125)%N then Some ([(key, value)], r2)
                        else if (PyStr.code c2 =? 44)%N then
                          match skip_ws r2 with
                          | String c3 r3 =>
                              if (PyStr.code c3 =? 34)%N then
                                match object_items f r3 with
                                | Some (pairs, rest) => Some ((key, value) :: pairs, rest)
                                | None => None
                                end
                              else None
                          | EmptyString => None
                          end
                        else None
                    | EmptyString => None
                    end
                | None => None
                end
              else None
          | EmptyString => None
          end
      | None => None
      end
  end.

(** [JSONDecoder.decode]: leading whitespace, one value, trailing whitespace,
    end of text.  The text is longer than the nesting of any document in it. *)
Definition loads (s : string) : option json :=
  match scan_once (S (String.length s)) (skip_ws s) with
  | Some (v, rest) =>
      match skip_ws rest with
      | EmptyString => Some v
      | _ => None
      end
  | None => None
  end.

(** *** The texts [json.load] accepts

    [json.load] reads more than [loads] does: numbers with a fraction or an
    exponent, the constants [NaN], [Infinity] and [-Infinity], and escapes
    [\uXXXX] of any value.  [decodable] follows the same scanner over all of
    them and tells whether a text is a JSON document at all; where it says
    no, [json.load] raises [JSONDecodeError]. *)










(** *** Documents a Python program can hold

    A decoded object is a [dict]: its keys are pairwise distinct. *)
Fixpoint wf (v : json) : Prop :=
  match v with
  | JList l => (fix all l := match l with [] => True | x :: r => wf x /\ all r end) l
  | JDict d =>
      NoDup (map fst d)
      /\ (fix all d := match d with [] => True | (_, x) :: r => wf x /\ all r end) d
  | _ => True
  end.

(** The number of values, array items and object members of a document: a
    bound on the depth of the recursion that decodes it. *)
Fixpoint weight (v : json) : nat :=
  match v with
  | JList l =>
      S ((fix sum l := match l with [] => O | x :: r => S (weight x + sum r) end) l)
  | JDict d =>
      S ((fix sum d := match d with [] => O | (_, x) :: r => S (weight x + sum r) end) d)
  | _ => 1%nat
  end.

(** A text that may follow an encoded value: the end of the text, a comma or
    a line break. *)
Definition value_end (rest : string) : bool :=
  match rest with
  | EmptyString => true
  | String c _ => ((PyStr.code c =? 44) || (PyStr.code c =? 10))%N
  end.

End Json.

(* ================================================================== *)
(** ** The outside world *)

(** One role-tagged message of a conversation. *)
Record Message := mkMessage { role : string; content : string }.

(** The keyword arguments of [client.chat.completions.create]. *)
Record Request := mkRequest {
  req_model : string;
  req_messages : list Message;
  req_max_tokens : Z;
  req_temperature : Q }.

(** The part of a completion the program reads: for every choice its
    [message.content], which the remote library types as an optional
    string. *)
Record ChatCompletion := mkChatCompletion { choices : list (option string) }.

(** A configured remote client.  [create n req] is what the [n]-th call made
    through it (counting from 0) does when given [req]: it returns a
    completion or raises. *)
Record Client := mkClient { create : nat -> Request -> result ChatCompletion }.

(** Faults the file system may inject when the history file is used:
    opening it for reading fails; opening it for writing fails (before the
    file is touched); the device fails once [k] characters have been
    written. *)
Record IOFaults := mkIOFaults {
  read_fault : bool;
  open_write_fault : bool;
  write_fault : option nat }.

Definition no_faults : IOFaults := mkIOFaults false false None.

(** Records of the diagnostic log ([logging.error]). *)
Inductive LogRecord :=
| LogApiError (attempt max_retries : Z) (e : exn)
| LogUnexpected (e : exn)
| LogSaveFailed (e : exn)
| LogStatsError (e : exn).

Record World := mkWorld {
  history_text : option string;   (* formatting_history.json; [None]: no such file *)
  faults : IOFaults;
  clock : Z;                      (* seconds *)
  strftime : Z -> string;         (* local time as YYYY-MM-DD HH:MM:SS *)
  sleeps : list Z;                (* arguments of [time.sleep], oldest first *)
  requests : list Request;        (* calls of the remote endpoint, oldest first *)
  error_log : list LogRecord;
  divisions : list (Z * Z) }.     (* true divisions performed: dividend, divisor *)

Definition set_history_text (t : option string) (w : World) : World :=
  mkWorld t (faults w) (clock w) (strftime w) (sleeps w) (requests w)
          (error_log w) (divisions w).

Definition logging_error (r : LogRecord) (w : World) : World :=
  mkWorld (history_text w) (faults w) (clock w) (strftime w) (sleeps w)
          (requests w) (error_log w ++ [r]) (divisions w).

Definition time_sleep (d : Z) (w : World) : World :=
  mkWorld (history_text w) (faults w) (clock w + d) (strftime w)
          (sleeps w ++ [d]) (requests w) (error_log w) (divisions w).

Definition record_request (r : Request) (w : World) : World :=
  mkWorld (history_text w) (faults w) (clock w) (strftime w) (sleeps w)
          (requests w ++ [r]) (error_log w) (divisions w).

Definition record_division (a b : Z) (w : World) : World :=
  mkWorld (history_text w) (faults w) (clock w) (strftime w) (sleeps w)
          (requests w) (error_log w) (divisions w ++ [(a, b)]).

(** A computation: from a world to a result and the world after it. *)
Definition M (A : Type) : Type := World -> result A * World.

Definition ret {A} (a : A) : M A := fun w => (Return a, w).
Definition throw {A} (e : exn) : M A := fun w => (Raise e, w).
Definition bind {A B} (m : M A) (f : A -> M B) : M B :=
  fun w => match m w with
           | (Return a, w') => f a w'
           | (Raise e, w') => (Raise e, w')
           end.

Notation "x <- m ;; k" := (bind m (fun x => k))
  (at level 61, m at next level, right associativity).

(** [try: m  except Exception as e: h e] *)
Definition try_except_Exception {A} (m : M A) (h : exn -> M A) : M A :=
  fun w => match m w with
           | (Raise e, w') => if is_exception e then h e w' else (Raise e, w')
           | r => r
           end.

(** [open(history_file, 'r')] followed by [json.load]. *)
Definition read_history : M Json.json :=
  fun w =>
    match history_text w with
    | None => (Raise (Exn OSError "No such file or directory" None), w)
    | Some text =>
        if read_fault (faults w)
        then (Raise (Exn OSError "cannot open the history file for reading" None), w)
        else match Json.loads text with
             | Some v => (Return v, w)
             | None => (Raise (Exn JSONDecodeError "invalid JSON document" None), w)
             end
    end.

(** [open(history_file, 'w')] followed by [json.dump(obj, f, indent=2)]:
    opening truncates the file; the text is then written from its start. *)
Definition write_history (obj : Json.json) : M unit :=
  fun w =>
    if open_write_fault (faults w)
    then (Raise (Exn OSError "cannot open the history file for writing" None), w)
    else
      let text := Json.dumps obj in
      match write_fault (faults w) with
      | Some k =>
          if (k <? String.length text)%nat
          then (Raise (Exn OSError "write failed" None),
                set_history_text (Some (substring 0 k text)) w)
          else (Return tt, set_history_text (Some text) w)
      | None => (Return tt, set_history_text (Some text) w)
      end.

(* ================================================================== *)
(** ** The bot *)

Record TaskConfig := mkTaskConfig {
  name : string;
  description : string;
  instruction : string;
  max_tokens : Z;
  temperature : Q }.

(** The dataclass defaults. *)
Definition default_max_tokens : Z := 500.
Definition default_temperature : Q := 7 # 10.

Record TextFormatterBot := mkBot {
  model_name : string;
  tasks : list (string * TaskConfig);
  client : option Client }.

Definition formal_config : TaskConfig :=
  mkTaskConfig "formal" "Professional and polished format"
    "Please rewrite the following text in a professional, clear, and well-structured format, fixing any typos or grammatical errors."
    default_max_tokens default_temperature.

Definition bullet_config : TaskConfig :=
  mkTaskConfig "bullet" "Convert to organized bullet points"
    "Please convert the following text into organized bullet points, fixing any typos or grammatical errors."
    default_max_tokens default_temperature.

Definition summarize_config : TaskConfig :=
  mkTaskConfig "summarize" "Create a clear summary"
    "Please provide a clear, organized summary of the following text, fixing any typos or grammatical errors."
    300 default_temperature.

(** [TextFormatterBot.__init__] *)
Definition init : TextFormatterBot :=
  mkBot "gpt-4-1106-preview"
        [("formal", formal_config); ("bullet", bullet_config);
         ("summarize", summarize_config)]
        None.

(** The bot once [load_config] has stored a client. *)
Definition configured (c : Client) : TextFormatterBot :=
  mkBot (model_name init) (tasks init) (Some c).

(** [d.get(key)] on an insertion-ordered dict with string keys. *)
Fixpoint dict_get {A} (d : list (string * A)) (key : string) : option A :=
  match d with
  | [] => None
  | (k, x) :: d' => if String.eqb k key then Some x else dict_get d' key
  end.

(** The entry [save_to_history] appends. *)
Definition history_entry (timestamp task : string) (input_length output_length : Z)
  : Json.json :=
  Json.JDict [("timestamp", Json.JStr timestamp); ("task", Json.JStr task);
              ("input_length", Json.JInt input_length);
              ("output_length", Json.JInt output_length)].

(** The body of the [try] of [save_to_history].  [output_text] is what
    [format_text] passes on: the content of the first choice, possibly
    [None]. *)
Definition save_to_history_body (input_text task : string) (output_text : option string)
  : M unit :=
  fun w =>
    let loaded :=
      match history_text w with
      | None => (Return (Json.JList []), w)
      | Some _ => read_history w
      end in
    match loaded with
    | (Raise e, w1) => (Raise e, w1)
    | (Return history, w1) =>
        match history with
        | Json.JList l =>
            match output_text with
            | None => (Raise (Exn TypeError "object of type 'NoneType' has no len()" None), w1)
            | Some out =>
                let entry := history_entry (strftime w1 (clock w1)) task
                               (PyStr.len input_text) (PyStr.len out) in
                write_history (Json.JList (l ++ [entry])) w1
            end
        | _ => (Raise (Exn AttributeError "object has no attribute 'append'" None), w1)
        end
    end.

Definition save_to_history (input_text task : string) (output_text : option string)
  : M unit :=
  try_except_Exception
    (save_to_history_body input_text task output_text)
    (fun e w => (Return tt, logging_error (LogSaveFailed e) w)).

Definition max_retries : Z := 3.

(** [range(n)] *)
Definition range (n : Z) : list Z := map Z.of_nat (seq 0 (Z.to_nat n)).

Definition build_request (self : TextFormatterBot) (task_config : TaskConfig)
  (input_text : string) : Request :=
  mkRequest (model_name self)
            [mkMessage "system" (instruction task_config);
             mkMessage "user" input_text]
            (max_tokens task_config) (temperature task_config).

(** The body of the [try] inside the loop of [format_text]. *)
Definition attempt_body (self : TextFormatterBot) (c : Client)
  (task_config : TaskConfig) (input_text task : string) : M (option string) :=
  fun w =>
    let req := build_request self task_config input_text in
    let w1 := record_request req w in
    match create c (length (requests w)) req with
    | Raise e => (Raise e, w1)
    | Return response =>
        match choices response with
        | [] => (Raise (Exn IndexError "list index out of range" None), w1)
        | formatted_text :: _ =>
            match save_to_history input_text task formatted_text w1 with
            | (Raise e, w2) => (Raise e, w2)
            | (Return _, w2) => (Return formatted_text, w2)
            end
        end
    end.

(** The [for attempt in range(max_retries)] loop with its two handlers; the
    local [retry_delay] is threaded through.  A loop that runs out of
    attempts without returning makes the function return [None]. *)
Fixpoint attempt_loop (self : TextFormatterBot) (c : Client)
  (task_config : TaskConfig) (input_text task : string)
  (attempts : list Z) (retry_delay : Z) (w : World)
  : result (option string) * World :=
  match attempts with
  | [] => (Return None, w)
  | attempt :: rest =>
      match attempt_body self c task_config input_text task w with
      | (Return r, w1) => (Return r, w1)
      | (Raise e, w1) =>
          if is_api_error e then
            let w2 := logging_error (LogApiError (attempt + 1) max_retries e) w1 in
            if attempt <? max_retries - 1 then
              attempt_loop self c task_config input_text task rest
                           (retry_delay * 2) (time_sleep retry_delay w2)
            else
              (Raise (raised_while_handling e PlainException
                        "Failed to format text after multiple attempts"), w2)
          else if is_exception e then
            (Raise e, logging_error (LogUnexpected e) w1)
          else (Raise e, w1)
      end
  end.

Definition format_text (self : TextFormatterBot) (input_text task : string)
  : M (option string) :=
  fun w =>
    if negb (PyStr.truthy (PyStr.strip input_text))
    then (Raise (Exn ValueError "Input text cannot be empty" None), w)
    else
      match client self with
      | None => (Raise (Exn ValueError "OpenAI client not initialized" None), w)
      | Some c =>
          match dict_get (tasks self) task with
          | None => (Raise (Exn KeyError task None), w)
          | Some task_config =>
              attempt_loop self c task_config input_text task
                           (range max_retries) 1 w
          end
      end.

(* ================================================================== *)
(** ** Python floats *)

(** A Python [float] is an IEEE 754 binary64 number: [spec_float] with a
    precision of 53 bits and exponents below 1024.  The operations are those
    of [SpecFloat], which round to the nearest float, ties to even. *)
Module PyFloat.

Definition prec : Z := 53.
Definition emax : Z := 1024.

Definition float : Type := spec_float.

(** An int as the operand of a division: its sign and its magnitude, as a
    mantissa with exponent 0. *)
Definition operand (z : Z) : float :=
  match z with
  | Z0 => S754_zero false
  | Zpos p => S754_finite false p 0
  | Zneg p => S754_finite true p 0
  end.

(** [a / b] for two ints, [b] not 0: the quotient of the two integers,
    rounded once.  Where the quotient leaves the range of a float CPython
    raises [OverflowError]; that takes a quotient of [2 ^ 1024] or more, and
    the result here is then an infinity. *)
Definition int_truediv (a b : Z) : float := SFdiv prec emax (operand a) (operand b).

(** [float(n)] *)
Definition of_int (n : Z) : float := binary_normalize prec emax n 0 false.

(** [x * y] *)
Definition mul (x y : float) : float := SFmul prec emax x y.

Definition is_finite (x : float) : bool :=
  match x with
  | S754_zero _ | S754_finite _ _ _ => true
  | _ => false
  end.

(** The number a finite float stands for. *)
Definition value (x : float) : Q :=
  match x with
  | S754_finite s m e =>
      ((if s then - inject_Z (Zpos m) else inject_Z (Zpos m)) * 2 ^ e)%Q
  | _ => 0%Q
  end.

End PyFloat.

(** Notions used in the statements about the rounding of floats. *)
Module FloatAux.

(** Where the remainder [r] of a division by [den] lies in its unit. *)
Definition loc_of (r den : Z) : location :=
  if r =? 0 then loc_Exact else loc_Inexact (2 * r ?= den).

(** The record [mrs] holds the integer part of [num / den] and tells where
    the remainder lies. *)
Definition holds (mrs : shr_record) (num den : Z) : Prop :=
  exists r, num = shr_m mrs * den + r /\ 0 <= r < den /\ 0 <= shr_m mrs
            /\ loc_of_shr_record mrs = loc_of r den.

(** The float of sign [sx] and magnitude [z * 2 ^ e], for [z] up to
    [2 ^ 53]. *)
Definition pack (sx : bool) (z e : Z) : spec_float :=
  if z <? 2 ^ 53 then
    match z with
    | Zpos m => if e <=? 971 then S754_finite sx m e else S754_infinity sx
    | Z0 => S754_zero sx
    | Zneg _ => S754_nan
    end
  else if e + 1 <=? 971 then S754_finite sx 4503599627370496 (e + 1)
       else S754_infinity sx.

Definition fexp : Z -> Z := SpecFloat.fexp 53 1024.

(** [1] or [-1] *)
Definition sgn (s : bool) : Q := if s then (- 1)%Q else 1%Q.

End FloatAux.

(* ================================================================== *)
(** ** Statistics *)

Module Stats.
Import Json.

(** Truth value of a decoded document ([not history]). *)
Definition py_truthy (v : json) : bool :=
  match v with
  | JNull => false
  | JBool b => b
  | JInt z => negb (z =? 0)
  | JStr s => PyStr.truthy s
  | JList l => match l with [] => false | _ => true end
  | JDict d => match d with [] => false | _ => true end
  end.

(** [len(v)] *)
Definition py_len (v : json) : result Z :=
  match v with
  | JStr s => Return (PyStr.len s)
  | JList l => Return (Z.of_nat (length l))
  | JDict d => Return (Z.of_nat (length d))
  | _ => Raise (Exn TypeError "object has no len()" None)
  end.

Fixpoint chars (s : string) : list json :=
  match s with
  | EmptyString => []
  | String c r => JStr (String c EmptyString) :: chars r
  end.

(** The items [for entry in v] runs over. *)
Definition py_iter (v : json) : result (list json) :=
  match v with
  | JList l => Return l
  | JDict d => Return (map (fun kv => JStr (fst kv)) d)
  | JStr s => Return (chars s)
  | _ => Raise (Exn TypeError "object is not iterable" None)
  end.

(** [entry[key]] for a string [key]. *)
Definition getitem (entry : json) (key : string) : result json :=
  match entry with
  | JDict d =>
      match dict_get d key with
      | Some x => Return x
      | None => Raise (Exn KeyError key None)
      end
  | _ => Raise (Exn TypeError "indices must be integers, or object is not subscriptable" None)
  end.

Definition hashable (v : json) : bool :=
  match v with JList _ | JDict _ => false | _ => true end.

(** The int a value counts as in arithmetic, if any ([bool] is an [int]). *)
Definition as_int (v : json) : option Z :=
  match v with
  | JInt z => Some z
  | JBool true => Some 1
  | JBool false => Some 0
  | _ => None
  end.

(** Equality of two dict keys. *)
Definition key_eq (a b : json) : bool :=
  match a, b with
  | JNull, JNull => true
  | JStr s, JStr t => String.eqb s t
  | _, _ =>
      match as_int a, as_int b with
      | Some x, Some y => x =? y
      | _, _ => false
      end
  end.

(** [task_counts[task] = task_counts.get(task, 0) + 1] *)
Fixpoint counts_incr (task_counts : list (json * Z)) (task : json) : list (json * Z) :=
  match task_counts with
  | [] => [(task, 0 + 1)]
  | (k, n) :: rest =>
      if key_eq k task then (k, n + 1) :: rest
      else (k, n) :: counts_incr rest task
  end.

(** The three accumulators of the loop over the history. *)
Record Tally := mkTally {
  task_counts : list (json * Z);
  total_input_length : Z;
  total_output_length : Z }.

(** [acc += v] for an int accumulator. *)
Definition add_to (acc : Z) (v : json) : result Z :=
  match as_int v with
  | Some z => Return (acc + z)
  | None => Raise (Exn TypeError "unsupported operand type(s) for +=" None)
  end.

(** One pass of the body of [for entry in history]. *)
Definition tally_entry (t : Tally) (entry : json) : result Tally :=
  match getitem entry "task" with
  | Raise e => Raise e
  | Return task =>
      if negb (hashable task) then Raise (Exn TypeError "unhashable type" None)
      else
        let counts := counts_incr (task_counts t) task in
        match getitem entry "input_length" with
        | Raise e => Raise e
        | Return i =>
            match add_to (total_input_length t) i with
            | Raise e => Raise e
            | Return ti =>
                match getitem entry "output_length" with
                | Raise e => Raise e
                | Return o =>
                    match add_to (total_output_length t) o with
                    | Raise e => Raise e
                    | Return to => Return (mkTally counts ti to)
                    end
                end
            end
        end
  end.

Fixpoint tally (t : Tally) (entries : list json) : result Tally :=
  match entries with
  | [] => Return t
  | entry :: rest =>
      match tally_entry t entry with
      | Raise e => Raise e
      | Return t' => tally t' rest
      end
  end.

(** [a / b] on two ints: the division is recorded, then performed. *)
Definition truediv (a b : Z) : M PyFloat.float :=
  fun w =>
    let w' := record_division a b w in
    if b =? 0 then (Raise (Exn ZeroDivisionError "division by zero" None), w')
    else (Return (PyFloat.int_truediv a b), w').

(** The loop [for task, count in task_counts.items()]: count and percentage
    of every task, in insertion order. *)
Fixpoint task_usage_of (counts : list (json * Z)) (total_uses : Z)
  : M (list (json * Z * PyFloat.float)) :=
  match counts with
  | [] => ret []
  | (task, count) :: rest =>
      q <- truediv count total_uses ;;
      usage <- task_usage_of rest total_uses ;;
      ret ((task, count, PyFloat.mul q (PyFloat.of_int 100)) :: usage)
  end.

(** The figures [display_statistics] prints. *)
Record Statistics := mkStatistics {
  total_uses : Z;
  task_usage : list (json * Z * PyFloat.float);
  avg_input_length : PyFloat.float;
  avg_output_length : PyFloat.float }.

(** What [display_statistics] shows: the notice that there is no history
    yet, the statistics, or the notice that loading them failed. *)
Inductive Display :=
| NoHistory
| Shown (st : Statistics)
| LoadError (e : exn).

Definition lift {A} (r : result A) : M A := fun w => (r, w).

(** The body of the [try] of [display_statistics]. *)
Definition display_statistics_body : M Display :=
  history <- read_history ;;
  if negb (py_truthy history) then ret NoHistory
  else
    total <- lift (py_len history) ;;
    entries <- lift (py_iter history) ;;
    t <- lift (tally (mkTally [] 0 0) entries) ;;
    usage <- task_usage_of (task_counts t) total ;;
    avg_in <- truediv (total_input_length t) total ;;
    avg_out <- truediv (total_output_length t) total ;;
    ret (Shown (mkStatistics total usage avg_in avg_out)).

Definition display_statistics : M Display :=
  fun w =>
    match history_text w with
    | None => (Return NoHistory, w)
    | Some _ =>
        try_except_Exception display_statistics_body
          (fun e w' => (Return (LoadError e), logging_error (LogStatsError e) w')) w
    end.

End Stats.

(* ================================================================== *)
(** ** Histories of well-formed entries *)

Record HistoryEntry := mkEntry {
  timestamp : string;
  task : string;
  input_length : Z;
  output_length : Z }.

Definition entry_json (e : HistoryEntry) : Json.json :=
  history_entry (timestamp e) (task e) (input_length e) (output_length e).

Definition history_json (h : list HistoryEntry) : Json.json :=
  Json.JList (map entry_json h).

(** The text of the history file that holds [h]. *)
Definition persist (h : list HistoryEntry) : string := Json.dumps (history_json h).

(** Decoding a loaded document back into entries; [None] when the document
    is not a list of entries. *)
Definition entry_of_json (v : Json.json) : option HistoryEntry :=
  match v with
  | Json.JDict [(k1, Json.JStr ts); (k2, Json.JStr tk);
                (k3, Json.JInt i); (k4, Json.JInt o)] =>
      if (String.eqb k1 "timestamp" && String.eqb k2 "task"
          && String.eqb k3 "input_length" && String.eqb k4 "output_length")%bool
      then Some (mkEntry ts tk i o) else None
  | _ => None
  end.

Fixpoint entries_of_json (l : list Json.json) : option (list HistoryEntry) :=
  match l with
  | [] => Some []
  | v :: r =>
      match entry_of_json v, entries_of_json r with
      | Some e, Some es => Some (e :: es)
      | _, _ => None
      end
  end.

(** Reloading the history file: its text decoded into entries. *)
Definition reload (text : string) : option (list HistoryEntry) :=
  match Json.loads text with
  | Some (Json.JList l) => entries_of_json l
  | _ => None
  end.

(* ================================================================== *)
(** ** Notions used in the proofs about the JSON codec *)

Module JsonAux.
Import Json.

(** A decimal numeral that starts with a non-zero digit. *)

Definition lead_nonzero (d : Decimal.uint) : Prop :=
  match d with Decimal.Nil | Decimal.D0 _ => False | _ => True end.

Fixpoint list_weight (l : list json) : nat :=
  match l with [] => O | x :: r => S (weight x + list_weight r) end.

Fixpoint dict_weight (d : list (string * json)) : nat :=
  match d with [] => O | (_, x) :: r => S (weight x + dict_weight r) end.

Fixpoint list_wf (l : list json) : Prop :=
  match l with [] => True | x :: r => wf x /\ list_wf r end.

Fixpoint dict_wf (d : list (string * json)) : Prop :=
  match d with [] => True | (_, x) :: r => wf x /\ dict_wf r end.

Definition item_sep (k : nat) : string := "," ++ newline_indent (S k).

Definition items_text (k : nat) (l : list json) : string :=
  join (item_sep k) (map (encode (S k)) l).

Definition member_text (k : nat) (kv : string * json) : string :=
  let '(key, x) := kv in encode_str key ++ ": " ++ encode (S k) x.

Definition members_text (k : nat) (d : list (string * json)) : string :=
  join (item_sep k) (map (member_text k) d).


Definition decodes_values (fuel : nat) : Prop :=
  forall v k rest,
    wf v -> (weight v <= fuel)%nat -> value_end rest = true ->
    scan_once fuel (encode k v ++ rest) = Some (v, rest).

Definition decodes_items (fuel : nat) : Prop :=
  forall x xs k rest,
    list_wf (x :: xs) -> (list_weight (x :: xs) <= fuel)%nat ->
    array_items fuel (items_text k (x :: xs) ++ newline_indent k ++ "]" ++ rest)
    = Some (x :: xs, rest).

Definition decodes_members (fuel : nat) : Prop :=
  forall kv d k rest r,
    dict_wf (kv :: d) -> (dict_weight (kv :: d) <= fuel)%nat ->
    members_text k (kv :: d) ++ newline_indent k ++ "}" ++ rest = String dquote r ->
    object_items fuel r = Some (kv :: d, rest).

(** With [fuel], the decoder yields documents a Python program can hold. *)
Definition decodes_wf (fuel : nat) : Prop :=
  (forall s v rest, scan_once fuel s = Some (v, rest) -> wf v)
  /\ (forall s l rest, array_items fuel s = Some (l, rest) -> list_wf l)
  /\ (forall s d rest, object_items fuel s = Some (d, rest) -> dict_wf d).

End JsonAux.

(* ================================================================== *)
(** ** Notions used in the statements about the bot *)

(** [w'] differs from [w] in the history file and the diagnostic log at
    most. *)
Definition same_but_file_and_log (w w' : World) : Prop :=
  faults w' = faults w /\ clock w' = clock w /\ strftime w' = strftime w
  /\ sleeps w' = sleeps w /\ requests w' = requests w /\ divisions w' = divisions w.

(** The history file of [w] holds the entries [h]; a missing file holds
    none. *)
Definition prior_history (w : World) (h : list HistoryEntry) : Prop :=
  (history_text w = None /\ h = [])
  \/ (exists text, history_text w = Some text /\ reload text = Some h).

(** The entry [save_to_history] builds in world [w]. *)
Definition new_entry (w : World) (input_text task output_text : string) : HistoryEntry :=
  mkEntry (strftime w (clock w)) task (PyStr.len input_text) (PyStr.len output_text).



(* ================================================================== *)
(** ** Notions used in the statements about the statistics *)

Module StatsAux.
Import Json Stats.

(** [w] with the divisions [ds] recorded after its own. *)
Definition add_divisions (ds : list (Z * Z)) (w : World) : World :=
  mkWorld (history_text w) (faults w) (clock w) (strftime w) (sleeps w)
          (requests w) (error_log w) (divisions w ++ ds).

(** The sum of the counts of a table of counts. *)
Definition counts_total (counts : list (json * Z)) : Z :=
  fold_right (fun kc acc => snd kc + acc) 0 counts.

(** The sum of the counts of the usage lines. *)
Definition sum_counts (usage : list (json * Z * PyFloat.float)) : Z :=
  fold_right (fun u acc => snd (fst u) + acc) 0 usage.

(** The sum of the percentages of the usage lines: of the numbers the floats
    stand for. *)
Definition sum_percentages (usage : list (json * Z * PyFloat.float)) : Q :=
  fold_right (fun u acc => (PyFloat.value (snd u) + acc)%Q) 0%Q usage.

(** [(count / total) * 100] *)
Definition percentage (count total : Z) : PyFloat.float :=
  PyFloat.mul (PyFloat.int_truediv count total) (PyFloat.of_int 100).

(** The recorded lengths of an entry are in the range of a float.  Beyond
    it the averages leave that range, and CPython raises [OverflowError]. *)
Definition in_float_range (e : HistoryEntry) : Prop :=
  Z.abs (input_length e) < 2 ^ 1023 /\ Z.abs (output_length e) < 2 ^ 1023.

Definition sum_input (h : list HistoryEntry) : Z :=
  fold_right (fun e acc => input_length e + acc) 0 h.

Definition sum_output (h : list HistoryEntry) : Z :=
  fold_right (fun e acc => output_length e + acc) 0 h.

(** The usage line of a count, given the total. *)
Definition usage_line (total : Z) (kc : json * Z) : json * Z * PyFloat.float :=
  (fst kc, snd kc, PyFloat.mul (PyFloat.int_truediv (snd kc) total) (PyFloat.of_int 100)).

(** The number of entries of [h] whose task is [t]. *)
Definition uses_of (t : string) (h : list HistoryEntry) : Z :=
  Z.of_nat (length (filter (fun e => String.eqb (task e) t) h)).

(** The count the table holds for task [t]; 0 when it holds none. *)
Fixpoint count_of (counts : list (json * Z)) (t : string) : Z :=
  match counts with
  | [] => 0
  | (k, n) :: rest => if key_eq k (JStr t) then n else count_of rest t
  end.

(** An exception that is an [Exception] and not a division error. *)
Definition benign (e : exn) : Prop :=
  exn_cls e <> ZeroDivisionError /\ is_exception e = true.

End StatsAux.

(* ================================================================== *)
(** ** Sample worlds and clients *)

Module Sample.

Definition stamp : Z -> string := fun _ => "2024-01-01 10:00:00".

(** No history file, nothing logged, no faults. *)
Definition fresh : World := mkWorld None no_faults 0 stamp [] [] [] [].

Definition hello : ChatCompletion := mkChatCompletion [Some "Hello."].

Definition rate_limit : exn := Exn APIError "rate limit reached" None.

(** Answers every call. *)
Definition steady : Client := mkClient (fun _ _ => Return hello).

(** Fails on its first two calls, answers from the third on. *)
Definition flaky : Client :=
  mkClient (fun n _ => if (n <? 2)%nat then Raise rate_limit else Return hello).

(** Fails on its first call only. *)
Definition hiccup : Client :=
  mkClient (fun n _ => if (n <? 1)%nat then Raise rate_limit else Return hello).

(** Never answers. *)
Definition down : Client := mkClient (fun _ _ => Raise rate_limit).

Definition one_entry : list HistoryEntry :=
  [mkEntry "2023-12-31 09:00:00" "formal" 8 6].

Definition three_entries : list HistoryEntry :=
  [mkEntry "2023-12-31 09:00:00" "formal" 8 6;
   mkEntry "2023-12-31 09:05:00" "bullet" 12 6;
   mkEntry "2023-12-31 09:10:00" "formal" 2 6].

(** The history file holds [h]. *)
Definition holding (h : list HistoryEntry) : World :=
  mkWorld (Some (persist h)) no_faults 0 stamp [] [] [] [].


End Sample.

(* ================================================================== *)
(** ** Notions used in the further statements *)

(** The delays of [k] consecutive retries that start at [d]: [d], [2 d],
    [4 d], ... *)
Fixpoint backoff (d : Z) (k : nat) : list Z :=
  match k with
  | O => []
  | S k' => d :: backoff (d * 2) k'
  end.

Definition total (l : list Z) : Z := fold_right Z.add 0 l.

(** The strings of [l] that are not in [seen], each once, in the order of
    their first occurrence. *)
Fixpoint first_seen (seen l : list string) : list string :=
  match l with
  | [] => []
  | t :: r =>
      if existsb (String.eqb t) seen then first_seen seen r
      else t :: first_seen (seen ++ [t]) r
  end.

(** The tasks of a history, each once, in the order of their first use. *)
Definition distinct_tasks (h : list HistoryEntry) : list string :=
  first_seen [] (map task h).

(** The table of counts with the given keys and counts. *)
Definition table (keys : list string) (c : string -> Z) : list (Json.json * Z) :=
  map (fun t => (Json.JStr t, c t)) keys.

(* ================================================================== *)
(** ** The terminal session

    [input] hands out the lines the operator types, one per call; the
    operator may also interrupt (Ctrl-C), and the input may end.  What the
    program prints is kept as a sequence of messages, one per [print] that
    matters to the dialogue; colour codes, banners and the lists of commands
    are left out. *)

Module Console.

Inductive InputEvent :=
| Line (s : string)     (* [input] returns [s] *)
| CtrlC.                (* [input] raises [KeyboardInterrupt] *)

(** What a function that reads from the terminal does: it returns, or an
    exception of [input] leaves it, [KeyboardInterrupt] or, when the input has
    ended, [EOFError]. *)
Inductive outcome (A : Type) : Type :=
| Got (a : A)
| KeyboardInterruptRaised
| EOFErrorRaised.
Arguments Got {A} a.
Arguments KeyboardInterruptRaised {A}.
Arguments EOFErrorRaised {A}.

Inductive Printed :=
| NoTextEntered                    (* "No text entered. Please enter some text or '/cancel'" *)
| InputCleared                     (* "Input cleared" *)
| CurrentInput (text : string)     (* "Current input:" and the lines typed so far *)
| NoInputYet                       (* "No input yet" *)
| TaskMenu (names : list string)   (* the numbered list of tasks *)
| InvalidChoice                    (* "Invalid choice. Please select a number ..." *)
| NoUsageHistory                   (* "No usage history available yet." *)
| UsageStatistics (st : Stats.Statistics)
| ErrorLoadingStatistics           (* "Error loading statistics" *)
| FormattingResult (task text : string)   (* the task, shown in capitals, and the text *)
| OperationCancelled               (* "Operation cancelled by user." *)
| ErrorMessage                     (* "Error: ..." *)
| ThankYou                         (* "Thank you for using Text Formatter Bot!" *)
| FatalError.                      (* "Fatal error: ..." *)

(** [str.lower] on the code points below 256: the letters A to Z and the
    accented capitals 0xC0 to 0xDE, the multiplication sign 0xD7 apart, move
    up by 32. *)
Definition lower_char (c : ascii) : ascii :=
  let n := PyStr.code c in
  if ((65 <=? n) && (n <=? 90) || (192 <=? n) && (n <=? 222) && negb (n =? 215))%N
  then ascii_of_N (n + 32) else c.

Fixpoint lower (s : string) : string :=
  match s with
  | EmptyString => EmptyString
  | String c r => String (lower_char c) (lower r)
  end.

(** ['\n'.join(lines)] *)
Fixpoint join_lines (lines : list string) : string :=
  match lines with
  | [] => EmptyString
  | [x] => x
  | x :: rest => x ++ String Json.newline (join_lines rest)
  end.

(** [get_multiline_input]: the [while True] loop, with the local [lines];
    the events still to come are threaded through, and the messages printed
    are appended to [out]. *)
Fixpoint get_multiline_input (lines : list string) (stdin : list InputEvent)
  (out : list Printed) {struct stdin}
  : outcome (option string) * list InputEvent * list Printed :=
  match stdin with
  | [] => (EOFErrorRaised, [], out)
  | CtrlC :: rest => (Got None, rest, out)
  | Line raw :: rest =>
      let line := PyStr.strip raw in
      if String.eqb (lower line) "/done" then
        match lines with
        | [] => get_multiline_input lines rest (out ++ [NoTextEntered])
        | _ => (Got (Some (join_lines lines)), rest, out)
        end
      else if String.eqb (lower line) "/cancel" then (Got None, rest, out)
      else if String.eqb (lower line) "/clear" then
        get_multiline_input [] rest (out ++ [InputCleared])
      else if String.eqb (lower line) "/preview" then
        match lines with
        | [] => get_multiline_input lines rest (out ++ [NoInputYet])
        | _ => get_multiline_input lines rest (out ++ [CurrentInput (join_lines lines)])
        end
      else get_multiline_input (lines ++ [line]) rest out
  end.

(** [str.isdigit] on one code point below 256: the decimal digits and the
    superscripts one, two and three. *)
Definition isdigit_char (c : ascii) : bool :=
  let n := PyStr.code c in
  ((48 <=? n) && (n <=? 57) || (n =? 178) || (n =? 179) || (n =? 185))%N.

Fixpoint all_chars (p : ascii -> bool) (s : string) : bool :=
  match s with
  | EmptyString => true
  | String c r => p c && all_chars p r
  end.

(** [s.isdigit()] *)
Definition isdigit (s : string) : bool := PyStr.truthy s && all_chars isdigit_char s.

(** [int(s)] for a string that passed [isdigit]: the value when every
    character is a decimal digit, [None] for [ValueError] (a superscript
    digit). *)
Definition int_of_digit_string (s : string) : option Z :=
  if all_chars Json.is_digit s then Json.int_of_digits s else None.

(** The [try] block of [get_task_choice]: the task a numeric choice
    designates, if any; [ValueError] is swallowed. *)
Definition numeric_choice (self : TextFormatterBot) (choice : string) : option string :=
  if isdigit choice then
    match int_of_digit_string choice with
    | Some n =>
        let index := n - 1 in
        if (0 <=? index) && (index <? Z.of_nat (length (tasks self)))
        then nth_error (map fst (tasks self)) (Z.to_nat index)
        else None
    | None => None
    end
  else None.

(** [choice in self.tasks] *)
Definition is_task (self : TextFormatterBot) (choice : string) : bool :=
  match dict_get (tasks self) choice with Some _ => true | None => false end.

(** [get_task_choice]: every pass of the loop prints the menu and reads one
    line; an invalid choice is followed by [time.sleep(1)]. *)
Fixpoint get_task_choice (self : TextFormatterBot) (stdin : list InputEvent)
  (out : list Printed) (w : World) {struct stdin}
  : outcome (option string) * list InputEvent * list Printed * World :=
  let out1 := (out ++ [TaskMenu (map fst (tasks self))])%list in
  match stdin with
  | [] => (EOFErrorRaised, [], out1, w)
  | CtrlC :: rest => (KeyboardInterruptRaised, rest, out1, w)
  | Line raw :: rest =>
      let choice := lower (PyStr.strip raw) in
      if String.eqb choice "cancel" then (Got None, rest, out1, w)
      else
        match numeric_choice self choice with
        | Some name => (Got (Some name), rest, out1, w)
        | None =>
            if is_task self choice then (Got (Some choice), rest, out1, w)
            else get_task_choice self rest (out1 ++ [InvalidChoice]) (time_sleep 1 w)
        end
  end.

(** [load_config]: [api_key] is what [os.getenv("OPENAI_API_KEY")] returns
    once the [.env] file is loaded, [connect] what [openai.OpenAI] builds from
    a key. *)
Definition load_config (connect : string -> Client) (api_key : option string)
  (self : TextFormatterBot) : result TextFormatterBot :=
  match api_key with
  | Some key =>
      if PyStr.truthy key
      then Return (mkBot (model_name self) (tasks self) (Some (connect key)))
      else Raise (Exn ValueError "OPENAI_API_KEY not found in environment variables" None)
  | None => Raise (Exn ValueError "OPENAI_API_KEY not found in environment variables" None)
  end.

End Console.

(** The four commands of the text input mode, in any letter case. *)
Definition is_command (line : string) : bool :=
  String.eqb (Console.lower line) "/done" || String.eqb (Console.lower line) "/cancel"
  || String.eqb (Console.lower line) "/clear" || String.eqb (Console.lower line) "/preview".

(** A line as [get_multiline_input] keeps it: stripped, and not a command. *)
Definition kept_line (stdin : list Console.InputEvent) (line : string) : Prop :=
  PyStr.strip line = line /\ is_command line = false
  /\ exists raw, In (Console.Line raw) stdin /\ line = PyStr.strip raw.

(* ================================================================== *)
(** ** The main loop

    A session is made of what the operator does at the prompt: a line typed,
    an interrupt (Ctrl-C) while [input] waits, the end of the input.  An
    interrupt that strikes while the program is busy elsewhere is not an
    event of a session.  One is caught like an interrupt at the prompt when
    it strikes inside the [try] of the loop; one that strikes inside the
    handler [except Exception], during its [time.sleep(2)], is caught by
    nothing: it leaves [run] as a [KeyboardInterrupt], and [run] returns no
    exit code.  What is proved of a [run] that returns is proved of the
    source whatever interrupts strike; what is proved of a [run] that goes
    on is proved of the sessions as described here. *)

Module Run.
Import Console.

(** An [Exception] caught by the main loop: one of the bot's, or the
    [EOFError] of [input]. *)
Inductive Failure :=
| Failed (e : exn)
| EndOfInput.

(** What [run] itself writes to the diagnostic log. *)
Inductive RunLog :=
| FormattingError (f : Failure)   (* logging.error("Error during text formatting: ...") *)
| Fatal (e : exn).                (* logging.critical("Fatal error: ...") *)

(** The state of a session: the world of the bot, the input still to come,
    the messages printed and the records [run] has logged. *)
Record Session := mkSession {
  world : World;
  stdin : list InputEvent;
  stdout : list Printed;
  run_log : list RunLog }.

(** The handler [except KeyboardInterrupt]. *)
Definition cancelled (w : World) (rest : list InputEvent) (out : list Printed)
  (log : list RunLog) : Session :=
  mkSession w rest (out ++ [OperationCancelled]) log.

(** The handler [except Exception as e]: log, report, [time.sleep(2)]. *)
Definition failed (f : Failure) (w : World) (rest : list InputEvent)
  (out : list Printed) (log : list RunLog) : Session :=
  mkSession (time_sleep 2 w) rest (out ++ [ErrorMessage]) (log ++ [FormattingError f]).

(** What [display_statistics] prints. *)
Definition show (d : Stats.Display) : Printed :=
  match d with
  | Stats.NoHistory => NoUsageHistory
  | Stats.Shown st => UsageStatistics st
  | Stats.LoadError _ => ErrorLoadingStatistics
  end.

(** Where an exception that leaves the [try] of the loop goes. *)
Definition handle (e : exn) (w : World) (rest : list InputEvent)
  (out : list Printed) (log : list RunLog) : Session :=
  if is_exception e then failed (Failed e) w rest out log
  else cancelled w rest out log.

(** One pass of the [while True] of [run]: [true] when the loop is left by
    [break]. *)
Definition iteration (self : TextFormatterBot) (s : Session) : bool * Session :=
  let w := world s in
  let out := stdout s in
  let log := run_log s in
  match stdin s with
  | [] => (false, failed EndOfInput w [] out log)
  | CtrlC :: rest => (false, cancelled w rest out log)
  | Line raw :: rest =>
      let command := lower (PyStr.strip raw) in
      if String.eqb command "exit" then
        (true, mkSession w rest (out ++ [ThankYou]) log)
      else if String.eqb command "stats" then
        match Stats.display_statistics w with
        | (Return d, w1) => (false, mkSession w1 rest (out ++ [show d]) log)
        | (Raise e, w1) => (false, handle e w1 rest out log)
        end
      else
        match get_multiline_input [] rest out with
        | (EOFErrorRaised, rest1, out1) => (false, failed EndOfInput w rest1 out1 log)
        | (KeyboardInterruptRaised, rest1, out1) => (false, cancelled w rest1 out1 log)
        | (Got None, rest1, out1) => (false, mkSession w rest1 out1 log)
        | (Got (Some user_input), rest1, out1) =>
            if negb (PyStr.truthy user_input) then (false, mkSession w rest1 out1 log)
            else
              match get_task_choice self rest1 out1 w with
              | (EOFErrorRaised, rest2, out2, w2) =>
                  (false, failed EndOfInput w2 rest2 out2 log)
              | (KeyboardInterruptRaised, rest2, out2, w2) =>
                  (false, cancelled w2 rest2 out2 log)
              | (Got None, rest2, out2, w2) => (false, mkSession w2 rest2 out2 log)
              | (Got (Some task_type), rest2, out2, w2) =>
                  if negb (PyStr.truthy task_type)
                  then (false, mkSession w2 rest2 out2 log)
                  else
                    match format_text self user_input task_type w2 with
                    | (Return (Some formatted_output), w3) =>
                        (false, mkSession w3 rest2
                                  (out2 ++ [FormattingResult task_type formatted_output])
                                  log)
                    | (Return None, w3) =>
                        (* Style.BRIGHT + None *)
                        (false, failed (Failed (Exn TypeError
                                  "can only concatenate str (not NoneType) to str" None))
                                  w3 rest2 out2 log)
                    | (Raise e, w3) => (false, handle e w3 rest2 out2 log)
                    end
              end
        end
  end.

(** The [while True] of [run], for at most [fuel] passes: [None] when the
    loop is still running after them. *)
Fixpoint run_loop (fuel : nat) (self : TextFormatterBot) (s : Session) : option Session :=
  match fuel with
  | O => None
  | S f =>
      match iteration self s with
      | (true, s') => Some s'
      | (false, s') => run_loop f self s'
      end
  end.

(** [run] on the freshly built bot: the exit code and the session at the
    end. *)
Definition run (fuel : nat) (connect : string -> Client) (api_key : option string)
  (s : Session) : option (Z * Session) :=
  match load_config connect api_key init with
  | Raise e =>
      Some (1, mkSession (world s) (stdin s) (stdout s ++ [FatalError])
                         (run_log s ++ [Fatal e]))
  | Return self =>
      match run_loop fuel self s with
      | Some s' => Some (0, s')
      | None => None
      end
  end.

End Run.

(** A request [format_text] may send for the bot [self]: built from a task of
    the registry and a text that is not blank. *)
Definition proper_request (self : TextFormatterBot) (req : Request) : Prop :=
  exists name task_config text,
    dict_get (tasks self) name = Some task_config
    /\ PyStr.strip text <> EmptyString
    /\ req = build_request self task_config text.

(* ================================================================== *)
(** * Properties *)

(** ** The JSON codec *)

Module JsonFacts.
Import Json JsonAux.

Lemma append_assoc (a b c : string) : (a ++ b) ++ c = a ++ (b ++ c).
Proof. induction a as [|x a IH]; simpl; [reflexivity | now rewrite IH]. Qed.

Lemma append_nil_r (a : string) : a ++ EmptyString = a.
Proof. induction a as [|x a IH]; simpl; [reflexivity | now rewrite IH]. Qed.

Lemma length_append (a b : string) :
  String.length (a ++ b) = (String.length a + String.length b)%nat.
Proof. induction a as [|x a IH]; simpl; [reflexivity | now rewrite IH]. Qed.

(** Whitespace *)

Lemma skip_ws_spaces n s : skip_ws (spaces n ++ s) = skip_ws s.
Proof. induction n as [|n IH]; simpl; [reflexivity | exact IH]. Qed.

Lemma skip_ws_newline_indent k s : skip_ws (newline_indent k ++ s) = skip_ws s.
Proof. unfold newline_indent. simpl append. cbn [skip_ws]. 
  change (is_ws newline) with true. cbv iota. apply skip_ws_spaces. Qed.

Lemma skip_ws_start c r : is_ws c = false -> skip_ws (String c r) = String c r.
Proof. intros H. simpl. now rewrite H. Qed.

(** Strings *)

Ltac each_char c := destruct c as [[] [] [] [] [] [] [] []].

Lemma scanstring_escape_char c s :
  scanstring (escape_char c ++ s)
  = match scanstring s with
    | Some (t, rest) => Some (String c t, rest)
    | None => None
    end.
Proof. each_char c; reflexivity. Qed.

Lemma scanstring_escape s rest :
  scanstring (escape s ++ String dquote rest) = Some (s, rest).
Proof.
  induction s as [|c s IH]; [reflexivity|].
  cbn [escape]. rewrite append_assoc, scanstring_escape_char, IH. reflexivity.
Qed.


(** Numbers *)

Lemma pos_to_uint_lead p : lead_nonzero (Pos.to_uint p).
Proof.
  pose proof (DecimalN.Unsigned.to_of (Pos.to_uint p)) as H.
  pose proof (DecimalN.Unsigned.of_to (Npos p)) as H0.
  change (N.to_uint (Npos p)) with (Pos.to_uint p) in H0.
  rewrite H0 in H. change (N.to_uint (Npos p)) with (Pos.to_uint p) in H.
  unfold Decimal.unorm in H.
  destruct (Decimal.nzhead (Pos.to_uint p)) eqn:E.
  - rewrite H in H0. discriminate H0.
  - destruct (nzhead_nonzero _ _ E).
  - rewrite H; exact I.
  - rewrite H; exact I.
  - rewrite H; exact I.
  - rewrite H; exact I.
  - rewrite H; exact I.
  - rewrite H; exact I.
  - rewrite H; exact I.
  - rewrite H; exact I.
  - rewrite H; exact I.
Qed.

Lemma span_digits_uint d rest :
  starts_with_digit rest = false ->
  span_digits (NilEmpty.string_of_uint d ++ rest) = (NilEmpty.string_of_uint d, rest).
Proof.
  intros Hr.
  induction d as [|d IH|d IH|d IH|d IH|d IH|d IH|d IH|d IH|d IH|d IH];
    try (cbn [NilEmpty.string_of_uint append span_digits];
         match goal with |- context [is_digit ?c] => change (is_digit c) with true end;
         cbv iota; rewrite IH; reflexivity).
  destruct rest as [|c r]; [reflexivity|].
  simpl in Hr. cbn [NilEmpty.string_of_uint append span_digits]. now rewrite Hr.
Qed.

Lemma match_unsigned_uint d rest :
  lead_nonzero d ->
  starts_with_digit rest = false ->
  continues_as_float rest = false ->
  match_unsigned (NilEmpty.string_of_uint d ++ rest)
  = Some (Z.of_N (N.of_uint d), rest).
Proof.
  intros Hd Hr Hf.
  destruct d as [|d|d|d|d|d|d|d|d|d|d]; try contradiction;
    cbn [NilEmpty.string_of_uint append match_unsigned];
    match goal with |- context [(PyStr.code ?c =? 48)%N] =>
      change ((PyStr.code c =? 48)%N) with false; change (is_digit c) with true end;
    cbv iota; rewrite (span_digits_uint d rest Hr), Hf;
    unfold int_of_digits;
    match goal with |- context [NilZero.uint_of_string (String ?c (NilEmpty.string_of_uint d))] =>
      match goal with |- context [N.of_uint ?u] =>
        change (String c (NilEmpty.string_of_uint d)) with (NilZero.string_of_uint u) end end;
    (rewrite NilZero.usu by discriminate); reflexivity.
Qed.


Lemma value_end_stop rest :
  value_end rest = true ->
  starts_with_digit rest = false /\ continues_as_float rest = false.
Proof.
  destruct rest as [|c r]; [now split|].
  cbn [value_end starts_with_digit continues_as_float].
  each_char c; intros H; try discriminate H; split; reflexivity.
Qed.

Lemma of_pos_to_uint p : Z.of_N (N.of_uint (Pos.to_uint p)) = Zpos p.
Proof.
  change (Pos.to_uint p) with (N.to_uint (Npos p)).
  now rewrite DecimalN.Unsigned.of_to.
Qed.

Lemma string_of_uint_lead d :
  lead_nonzero d ->
  NilZero.string_of_uint d = NilEmpty.string_of_uint d
  /\ exists c r, NilEmpty.string_of_uint d = String c r
                 /\ is_digit c = true /\ (PyStr.code c =? 45)%N = false.
Proof.
  destruct d; try contradiction; intros _; (split; [reflexivity|]);
    cbn [NilEmpty.string_of_uint]; eexists; eexists; (split; [reflexivity|now split]).
Qed.

Lemma match_number_encode_int z rest :
  value_end rest = true ->
  match_number (encode_int z ++ rest) = Some (z, rest).
Proof.
  intros Hr. destruct (value_end_stop rest Hr) as [Hd Hf].
  unfold encode_int. destruct z as [|p|p]; cbn [Z.to_int NilZero.string_of_int].
  - cbn. now rewrite Hf.
  - destruct (string_of_uint_lead _ (pos_to_uint_lead p)) as [E (c & r & Ec & Hc & Hm)].
    rewrite E. pose proof (match_unsigned_uint _ rest (pos_to_uint_lead p) Hd Hf) as H.
    rewrite of_pos_to_uint in H. rewrite Ec in *. cbn [append] in *.
    unfold match_number. rewrite Hm. exact H.
  - destruct (string_of_uint_lead _ (pos_to_uint_lead p)) as [E _].
    rewrite E. cbn [append]. unfold match_number.
    change ((PyStr.code "-" =? 45)%N) with true. cbv iota.
    rewrite (match_unsigned_uint _ rest (pos_to_uint_lead p) Hd Hf), of_pos_to_uint.
    reflexivity.
Qed.

Lemma encode_int_head z :
  exists c r, encode_int z = String c r
              /\ (is_digit c || (PyStr.code c =? 45)%N)%bool = true.
Proof.
  unfold encode_int. destruct z as [|p|p]; cbn [Z.to_int NilZero.string_of_int].
  - now exists "0"%char, EmptyString.
  - destruct (string_of_uint_lead _ (pos_to_uint_lead p)) as [E (c & r & Ec & Hc & _)].
    exists c, r. rewrite E, Ec, Hc. now split.
  - eexists; eexists; split; reflexivity.
Qed.

Lemma scan_once_number f c r :
  (is_digit c || (PyStr.code c =? 45)%N)%bool = true ->
  scan_once (S f) (String c r)
  = match match_number (String c r) with
    | Some (z, rest) => Some (JInt z, rest)
    | None => None
    end.
Proof. each_char c; intros H; try discriminate H; reflexivity. Qed.

Lemma scan_once_int f z rest :
  value_end rest = true ->
  scan_once (S f) (encode_int z ++ rest) = Some (JInt z, rest).
Proof.
  intros Hr. pose proof (match_number_encode_int z rest Hr) as H.
  destruct (encode_int_head z) as (c & r & E & Hc).
  rewrite E in *. cbn [append] in *. rewrite (scan_once_number f c _ Hc), H. reflexivity.
Qed.

Lemma scan_once_str f s rest :
  scan_once (S f) (encode_str s ++ rest) = Some (JStr s, rest).
Proof.
  unfold encode_str. cbn [append scan_once].
  change ((PyStr.code dquote =? 34)%N) with true. cbv iota.
  rewrite append_assoc. cbn [append]. now rewrite scanstring_escape.
Qed.


(** Structure of encodings *)

Lemma weight_list l : weight (JList l) = S (list_weight l).
Proof. reflexivity. Qed.

Lemma weight_dict d : weight (JDict d) = S (dict_weight d).
Proof. reflexivity. Qed.

Lemma wf_list l : wf (JList l) <-> list_wf l.
Proof. cbn [wf]. induction l as [|x r IH]; [tauto|]. cbn [list_wf]. tauto. Qed.

Lemma wf_dict d : wf (JDict d) <-> NoDup (map fst d) /\ dict_wf d.
Proof.
  cbn [wf].
  assert (H : (fix all (d0 : list (string * json)) : Prop :=
                 match d0 with [] => True | (_, x) :: r => wf x /\ all r end) d
              <-> dict_wf d).
  { induction d as [|[key x] r IH]; [tauto|]. cbn [dict_wf]. tauto. }
  tauto.
Qed.

Lemma encode_list k x xs :
  encode k (JList (x :: xs))
  = "[" ++ newline_indent (S k) ++ items_text k (x :: xs) ++ newline_indent k ++ "]".
Proof. reflexivity. Qed.

Lemma encode_dict k kv d :
  encode k (JDict (kv :: d))
  = "{" ++ newline_indent (S k) ++ members_text k (kv :: d) ++ newline_indent k ++ "}".
Proof. reflexivity. Qed.

Lemma items_text_cons k x y ys :
  items_text k (x :: y :: ys) = encode (S k) x ++ item_sep k ++ items_text k (y :: ys).
Proof. reflexivity. Qed.

Lemma members_text_cons k kv kv' d :
  members_text k (kv :: kv' :: d) = member_text k kv ++ item_sep k ++ members_text k (kv' :: d).
Proof. reflexivity. Qed.

(** Every encoding starts with a character that is neither whitespace nor a
    closing bracket. *)
Lemma encode_head k v :
  exists c r, encode k v = String c r
              /\ is_ws c = false /\ (PyStr.code c =? 93)%N = false.
Proof.
  destruct v as [|[]|z|s|[|x xs]|[|kv d]];
    try (eexists; eexists; split; [reflexivity | now split]).
  destruct (encode_int_head z) as (c & r & E & Hc).
  exists c, r. split; [exact E|].
  revert Hc. clear. each_char c; intros H; try discriminate H; now split.
Qed.

Lemma skip_ws_encode k v s : skip_ws (encode k v ++ s) = encode k v ++ s.
Proof.
  destruct (encode_head k v) as (c & r & E & Hw & _).
  rewrite E. cbn [append]. now apply skip_ws_start.
Qed.


(** The decoder, one step at a time *)

Lemma scan_once_array f s c r :
  skip_ws s = String c r -> (PyStr.code c =? 93)%N = false ->
  scan_once (S f) (String "[" s)
  = match array_items f (String c r) with
    | Some (values, rest) => Some (JList values, rest)
    | None => None
    end.
Proof.
  intros H H0. cbn [scan_once].
  change ((PyStr.code "[" =? 34)%N) with false.
  change ((PyStr.code "[" =? 123)%N) with false.
  change ((PyStr.code "[" =? 91)%N) with true. cbv iota.
  now rewrite H, H0.
Qed.

Lemma scan_once_object f s r :
  skip_ws s = String dquote r ->
  scan_once (S f) (String "{" s)
  = match object_items f r with
    | Some (pairs, rest) => Some (JDict (dict_of_pairs pairs), rest)
    | None => None
    end.
Proof.
  intros H. cbn [scan_once].
  change ((PyStr.code "{" =? 34)%N) with false.
  change ((PyStr.code "{" =? 123)%N) with true. cbv iota.
  rewrite H.
  change ((PyStr.code dquote =? 125)%N) with false.
  change ((PyStr.code dquote =? 34)%N) with true. reflexivity.
Qed.

Lemma array_items_last f s x s1 rest :
  scan_once f s = Some (x, s1) -> skip_ws s1 = String "]" rest ->
  array_items (S f) s = Some ([x], rest).
Proof. intros H H1. cbn [array_items]. now rewrite H, H1. Qed.

Lemma array_items_more f s x s1 r xs rest :
  scan_once f s = Some (x, s1) -> skip_ws s1 = String "," r ->
  array_items f (skip_ws r) = Some (xs, rest) ->
  array_items (S f) s = Some (x :: xs, rest).
Proof. intros H H1 H2. cbn [array_items]. rewrite H, H1.
  change ((PyStr.code "," =? 93)%N) with false.
  change ((PyStr.code "," =? 44)%N) with true. cbv iota. now rewrite H2. Qed.

Lemma object_items_last f s key s1 r x s2 rest :
  scanstring s = Some (key, s1) -> skip_ws s1 = String ":" r ->
  scan_once f (skip_ws r) = Some (x, s2) -> skip_ws s2 = String "}" rest ->
  object_items (S f) s = Some ([(key, x)], rest).
Proof. intros H H1 H2 H3. cbn [object_items]. rewrite H, H1.
  change ((PyStr.code ":" =? 58)%N) with true. cbv iota. now rewrite H2, H3. Qed.

Lemma object_items_more f s key s1 r x s2 r2 r3 d rest :
  scanstring s = Some (key, s1) -> skip_ws s1 = String ":" r ->
  scan_once f (skip_ws r) = Some (x, s2) -> skip_ws s2 = String "," r2 ->
  skip_ws r2 = String dquote r3 ->
  object_items f r3 = Some (d, rest) ->
  object_items (S f) s = Some ((key, x) :: d, rest).
Proof. intros H H1 H2 H3 H4 H5. cbn [object_items]. rewrite H, H1.
  change ((PyStr.code ":" =? 58)%N) with true. cbv iota. rewrite H2, H3.
  change ((PyStr.code "," =? 125)%N) with false.
  change ((PyStr.code "," =? 44)%N) with true. cbv iota. rewrite H4.
  change ((PyStr.code dquote =? 34)%N) with true. cbv iota. now rewrite H5. Qed.

(** Dicts *)

Lemma dict_set_fresh d key v :
  ~ In key (map fst d) -> dict_set d key v = (d ++ [(key, v)])%list.
Proof.
  induction d as [|[k x] d IH]; intros H; [reflexivity|].
  cbn [dict_set]. cbn [map fst In] in H.
  destruct (String.eqb_spec k key) as [E|E]; [tauto|].
  rewrite IH by tauto. reflexivity.
Qed.

Lemma dict_of_pairs_from acc l :
  NoDup (map fst (acc ++ l)%list) ->
  fold_left (fun d kv => dict_set d (fst kv) (snd kv)) l acc = (acc ++ l)%list.
Proof.
  revert acc. induction l as [|[k x] l IH]; intros acc H.
  - now rewrite List.app_nil_r.
  - cbn [fold_left fst snd].
    rewrite dict_set_fresh.
    + rewrite IH; rewrite <- List.app_assoc; [reflexivity | exact H].
    + rewrite List.map_app in H. apply NoDup_remove_2 in H.
      intros Hin. apply H. apply in_or_app. now left.
Qed.

Lemma dict_of_pairs_nodup d : NoDup (map fst d) -> dict_of_pairs d = d.
Proof. intros H. unfold dict_of_pairs. now rewrite dict_of_pairs_from. Qed.


Lemma weight_pos v : (1 <= weight v)%nat.
Proof. destruct v; cbn [weight]; lia. Qed.

Lemma items_head k x xs s :
  exists c r, items_text k (x :: xs) ++ s = String c r
              /\ is_ws c = false /\ (PyStr.code c =? 93)%N = false.
Proof.
  destruct (encode_head (S k) x) as (c & r & E & Hw & Hb).
  destruct xs as [|y ys].
  - exists c, (r ++ s). unfold items_text. cbn [map join]. rewrite E. now split.
  - exists c, ((r ++ item_sep k ++ items_text k (y :: ys)) ++ s).
    rewrite items_text_cons, E. cbn [append]. now split.
Qed.

Lemma members_head k kv d s :
  exists r, members_text k (kv :: d) ++ s = String dquote r.
Proof.
  destruct kv as [key x]. destruct d as [|kv' d].
  - unfold members_text. cbn [map join member_text]. unfold encode_str.
    cbn [append]. eexists; reflexivity.
  - rewrite members_text_cons. cbn [member_text]. unfold encode_str.
    cbn [append]. eexists; reflexivity.
Qed.

Lemma value_end_newline_indent k s : value_end (newline_indent k ++ s) = true.
Proof. reflexivity. Qed.

Lemma decodes_values_step f :
  decodes_values f -> decodes_items f -> decodes_members f -> decodes_values (S f).
Proof.
  intros A B C v k rest Hwf Hw Hr.
  destruct v as [|[]|z|s|[|x xs]|[|kv d]]; try reflexivity.
  - now apply scan_once_int.
  - apply scan_once_str.
  - rewrite encode_list. cbn [append]. rewrite !append_assoc.
    destruct (items_head k x xs (newline_indent k ++ "]" ++ rest)) as (c & r & E & Hc & Hb).
    rewrite (scan_once_array f _ c r).
    + rewrite <- E, B; [reflexivity | now apply wf_list |].
      rewrite weight_list in Hw. lia.
    + rewrite skip_ws_newline_indent, E. now apply skip_ws_start.
    + exact Hb.
  - rewrite encode_dict. cbn [append]. rewrite !append_assoc.
    destruct (members_head k kv d (newline_indent k ++ "}" ++ rest)) as (r & E).
    apply wf_dict in Hwf. destruct Hwf as [Hnd Hwf].
    rewrite (scan_once_object f _ r).
    + rewrite (C kv d k rest r Hwf); [now rewrite dict_of_pairs_nodup | | exact E].
      rewrite weight_dict in Hw. lia.
    + rewrite skip_ws_newline_indent, E. reflexivity.
Qed.

Lemma decodes_items_step f :
  decodes_values f -> decodes_items f -> decodes_items (S f).
Proof.
  intros A B x xs k rest [Hx Hxs] Hw. cbn [list_weight] in Hw.
  destruct xs as [|y ys].
  - unfold items_text. cbn [map join].
    apply array_items_last with (s1 := newline_indent k ++ "]" ++ rest).
    + apply A; [exact Hx | lia | reflexivity].
    + now rewrite skip_ws_newline_indent.
  - rewrite items_text_cons, !append_assoc.
    unfold item_sep at 1. cbn [append].
    eapply array_items_more.
    + apply A; [exact Hx | lia | reflexivity].
    + reflexivity.
    + rewrite skip_ws_newline_indent.
      match goal with |- context [skip_ws (items_text _ _ ++ ?s)] =>
        destruct (items_head k y ys s) as (c & r & E & Hc & _) end.
      rewrite E, (skip_ws_start c r Hc), <- E.
      apply (B y ys k rest Hxs). cbn [list_weight] in *; lia.
Qed.

Lemma decodes_members_step f :
  decodes_values f -> decodes_members f -> decodes_members (S f).
Proof.
  intros A C [key x] d k rest r [Hx Hd] Hw E. cbn [dict_weight] in Hw.
  destruct d as [|kv' d'].
  - unfold members_text in E. cbn [map join member_text] in E.
    unfold encode_str in E. rewrite !append_assoc in E. cbn [append] in E.
    injection E as <-. rewrite !append_assoc. cbn [append].
    eapply object_items_last.
    + apply scanstring_escape.
    + reflexivity.
    + cbn [skip_ws]. change (is_ws " ") with true. cbv iota.
      rewrite skip_ws_encode.
      apply A with (rest := newline_indent k ++ "}" ++ rest); [exact Hx | lia | reflexivity].
    + now rewrite skip_ws_newline_indent.
  - rewrite members_text_cons in E. cbn [member_text] in E.
    unfold encode_str in E. rewrite !append_assoc in E. cbn [append] in E.
    injection E as <-. rewrite !append_assoc. cbn [append].
    destruct (members_head k kv' d' (newline_indent k ++ "}" ++ rest)) as (r3 & E3).
    eapply object_items_more
      with (r2 := newline_indent (S k) ++ members_text k (kv' :: d')
                  ++ newline_indent k ++ "}" ++ rest).
    + apply scanstring_escape.
    + reflexivity.
    + cbn [skip_ws]. change (is_ws " ") with true. cbv iota.
      rewrite skip_ws_encode.
      apply A; [exact Hx | lia | reflexivity].
    + reflexivity.
    + rewrite skip_ws_newline_indent, E3. reflexivity.
    + apply (C kv' d' k rest r3 Hd); [cbn [dict_weight] in *; lia | exact E3].
Qed.

Lemma decodes_all fuel :
  decodes_values fuel /\ decodes_items fuel /\ decodes_members fuel.
Proof.
  induction fuel as [|f (A & B & C)].
  - repeat split.
    + intros v k rest _ Hw. pose proof (weight_pos v). lia.
    + intros x xs k rest _ Hw. cbn [list_weight] in Hw. lia.
    + intros [key x] d k rest r _ Hw. cbn [dict_weight] in Hw. lia.
  - repeat split.
    + now apply decodes_values_step.
    + now apply decodes_items_step.
    + now apply decodes_members_step.
Qed.


(** The fuel [loads] provides is enough: a document weighs no more than its
    text is long. *)

Lemma length_newline_indent k : (1 <= String.length (newline_indent k))%nat.
Proof. unfold newline_indent. cbn [String.length]. lia. Qed.

Lemma length_item_sep k : (2 <= String.length (item_sep k))%nat.
Proof. unfold item_sep. cbn [append String.length]. pose proof (length_newline_indent (S k)). lia. Qed.

Lemma list_weight_le n k l :
  (forall v k', (weight v <= n)%nat -> (weight v <= String.length (encode k' v))%nat) ->
  (list_weight l <= S n)%nat ->
  (list_weight l <= S (String.length (items_text k l)))%nat.
Proof.
  intros IH. induction l as [|x [|y ys] IHl]; intros H.
  - cbn. lia.
  - cbn [list_weight] in *. unfold items_text. cbn [map join].
    pose proof (IH x (S k)). lia.
  - rewrite items_text_cons, !length_append.
    cbn [list_weight] in H.
    assert (H1 : (list_weight (y :: ys) <= S n)%nat) by (cbn [list_weight]; lia).
    specialize (IHl H1). pose proof (IH x (S k)). pose proof (length_item_sep k).
    cbn [list_weight] in *. lia.
Qed.

Lemma length_encode_str s : (2 <= String.length (encode_str s))%nat.
Proof. unfold encode_str. cbn [String.length]. rewrite length_append. cbn [String.length]. lia. Qed.

Lemma dict_weight_le n k d :
  (forall v k', (weight v <= n)%nat -> (weight v <= String.length (encode k' v))%nat) ->
  (dict_weight d <= S n)%nat ->
  (dict_weight d <= S (String.length (members_text k d)))%nat.
Proof.
  intros IH. induction d as [|[key x] [|kv' d'] IHd]; intros H.
  - cbn. lia.
  - cbn [dict_weight] in *. unfold members_text. cbn [map join member_text].
    rewrite !length_append. pose proof (IH x (S k)). lia.
  - rewrite members_text_cons, !length_append. cbn [member_text].
    rewrite !length_append.
    cbn [dict_weight] in H.
    assert (H1 : (dict_weight (kv' :: d') <= S n)%nat)
      by (destruct kv'; cbn [dict_weight] in *; lia).
    specialize (IHd H1). pose proof (IH x (S k)). pose proof (length_item_sep k).
    destruct kv'. cbn [dict_weight] in *. lia.
Qed.

Lemma weight_le_length_bounded n :
  forall v k, (weight v <= n)%nat -> (weight v <= String.length (encode k v))%nat.
Proof.
  induction n as [|n IH]; intros v k H.
  - pose proof (weight_pos v). lia.
  - destruct v as [|[]|z|s|[|x xs]|[|kv d]];
      try (cbn [weight encode String.length]; lia).
    + destruct (encode_int_head z) as (c & r & E & _).
      cbn [weight encode]. rewrite E. cbn [String.length]. lia.
    + pose proof (length_encode_str s). cbn [weight encode]. lia.
    + rewrite weight_list in *. rewrite encode_list, !length_append.
      pose proof (list_weight_le n k (x :: xs) IH).
      pose proof (length_newline_indent (S k)). pose proof (length_newline_indent k).
      cbn [String.length]. lia.
    + rewrite weight_dict in *. rewrite encode_dict, !length_append.
      pose proof (dict_weight_le n k (kv :: d) IH).
      pose proof (length_newline_indent (S k)). pose proof (length_newline_indent k).
      cbn [String.length]. lia.
Qed.

Lemma weight_le_length v k : (weight v <= String.length (encode k v))%nat.
Proof. now apply (weight_le_length_bounded (weight v)). Qed.

(** Decoding the encoding of a document gives the document back. *)
Lemma loads_dumps v : wf v -> loads (dumps v) = Some v.
Proof.
  intros Hwf. unfold loads, dumps.
  pose proof (skip_ws_encode 0 v EmptyString) as Hs.
  rewrite append_nil_r in Hs. rewrite Hs.
  destruct (decodes_all (S (String.length (encode 0 v)))) as [A _].
  pose proof (A v 0%nat EmptyString Hwf) as H.
  rewrite append_nil_r in H. rewrite H; [reflexivity | | reflexivity].
  pose proof (weight_le_length v 0). lia.
Qed.

End JsonFacts.

(* ================================================================== *)
(** ** Histories *)

Lemma wf_history h : Json.wf (history_json h).
Proof.
  apply JsonFacts.wf_list. induction h as [|e h IH]; [exact I|].
  cbn [map JsonAux.list_wf]. split; [|exact IH].
  apply JsonFacts.wf_dict. split.
  - cbn. repeat constructor; cbn; intuition discriminate.
  - cbn. tauto.
Qed.

Lemma entry_of_entry_json e : entry_of_json (entry_json e) = Some e.
Proof. destruct e; reflexivity. Qed.

Lemma entries_of_json_map h : entries_of_json (map entry_json h) = Some h.
Proof.
  induction h as [|e h IH]; [reflexivity|].
  cbn [map entries_of_json]. now rewrite entry_of_entry_json, IH.
Qed.

Lemma loads_persist h : Json.loads (persist h) = Some (history_json h).
Proof. apply JsonFacts.loads_dumps, wf_history. Qed.

Lemma reload_persist h : reload (persist h) = Some h.
Proof. unfold reload. rewrite loads_persist. apply entries_of_json_map. Qed.

Lemma entry_of_json_inv v e : entry_of_json v = Some e -> v = entry_json e.
Proof.
  unfold entry_of_json. intros H.
  repeat match type of H with
         | (if ?b then _ else _) = _ => destruct b eqn:?; try discriminate H
         | match ?x with _ => _ end = _ => destruct x; try discriminate H
         end.
  injection H as <-.
  repeat match goal with
         | E : (_ && _)%bool = true |- _ => apply andb_prop in E; destruct E
         | E : String.eqb _ _ = true |- _ => apply String.eqb_eq in E; subst
         end.
  reflexivity.
Qed.

Lemma entries_of_json_inv l h : entries_of_json l = Some h -> l = map entry_json h.
Proof.
  revert h. induction l as [|v l IH]; intros h H; cbn [entries_of_json] in H.
  - now injection H as <-.
  - destruct (entry_of_json v) eqn:Ev; [|discriminate H].
    destruct (entries_of_json l) eqn:El; [|discriminate H].
    injection H as <-. cbn [map]. now rewrite (entry_of_json_inv _ _ Ev), (IH _ eq_refl).
Qed.

Lemma reload_inv text h : reload text = Some h -> Json.loads text = Some (history_json h).
Proof.
  unfold reload. destruct (Json.loads text) as [[]|]; try discriminate.
  intros H. unfold history_json. now rewrite (entries_of_json_inv _ _ H).
Qed.

(** ** [save_to_history] *)

Ltac break_match :=
  match goal with
  | |- context [match ?x with _ => _ end] => destruct x eqn:?
  | H : context [match ?x with _ => _ end] |- _ => destruct x eqn:?
  end.

Lemma read_history_frame w r w' : read_history w = (r, w') -> w' = w.
Proof. unfold read_history. intros H. repeat break_match; now inversion H. Qed.

Lemma read_history_raises w e w' :
  read_history w = (Raise e, w') -> is_exception e = true.
Proof. unfold read_history. intros H. repeat break_match; now inversion H. Qed.

Lemma write_history_raises obj w e w' :
  write_history obj w = (Raise e, w') ->
  is_exception e = true
  /\ same_but_file_and_log w w' /\ error_log w' = error_log w
  /\ (write_fault (faults w) = None -> w' = w)
  /\ (w' = w
      \/ exists k, write_fault (faults w) = Some k
                   /\ (k < String.length (Json.dumps obj))%nat
                   /\ history_text w' = Some (substring 0 k (Json.dumps obj))).
Proof.
  unfold write_history. intros H.
  repeat break_match; inversion H; subst; clear H;
    (split; [reflexivity|]); (split; [now repeat split|]); (split; [reflexivity|]);
    (split; [try discriminate; try reflexivity|]); auto.
  right. eexists. split; [reflexivity|]. split; [|reflexivity].
  now apply Nat.ltb_lt.
Qed.

Lemma write_history_returns obj w w' :
  write_history obj w = (Return tt, w') ->
  w' = set_history_text (Some (Json.dumps obj)) w.
Proof. unfold write_history. intros H. repeat break_match; now inversion H. Qed.

Lemma save_body_raises input_text task output_text w e w' :
  save_to_history_body input_text task output_text w = (Raise e, w') ->
  is_exception e = true
  /\ same_but_file_and_log w w' /\ error_log w' = error_log w
  /\ (write_fault (faults w) = None -> history_text w' = history_text w).
Proof.
  unfold save_to_history_body. intros H.
  destruct (history_text w) eqn:Ht.
  - destruct (read_history w) as [[v|e0] w1] eqn:Er.
    + apply read_history_frame in Er. subst w1.
      destruct v; try (inversion H; subst; now repeat split).
      destruct output_text; try (inversion H; subst; now repeat split).
      apply write_history_raises in H. destruct H as (H1 & H2 & H3 & H4 & _).
      split; [exact H1|]. split; [exact H2|]. split; [exact H3|].
      intros Hn. now rewrite (H4 Hn).
    + pose proof (read_history_raises _ _ _ Er). apply read_history_frame in Er.
      inversion H; subst. now repeat split.
  - destruct output_text; try (inversion H; subst; now repeat split).
    apply write_history_raises in H. destruct H as (H1 & H2 & H3 & H4 & _).
    split; [exact H1|]. split; [exact H2|]. split; [exact H3|].
    intros Hn. now rewrite (H4 Hn).
Qed.

Lemma save_body_returns input_text task output_text w u w' :
  save_to_history_body input_text task output_text w = (Return u, w') ->
  same_but_file_and_log w w' /\ error_log w' = error_log w.
Proof.
  unfold save_to_history_body. intros H.
  assert (Hw : forall obj, write_history obj w = (Return u, w') ->
                 same_but_file_and_log w w' /\ error_log w' = error_log w).
  { intros obj Ho. destruct u. apply write_history_returns in Ho. subst w'.
    now repeat split. }
  destruct (history_text w) eqn:Ht.
  - destruct (read_history w) as [[v|e0] w1] eqn:Er; [|discriminate H].
    apply read_history_frame in Er. subst w1.
    destruct v; try discriminate H.
    destruct output_text; try discriminate H. eapply Hw, H.
  - destruct output_text; try discriminate H. eapply Hw, H.
Qed.

Lemma save_to_history_returns input_text task output_text w :
  exists w', save_to_history input_text task output_text w = (Return tt, w')
             /\ same_but_file_and_log w w'.
Proof.
  unfold save_to_history, try_except_Exception.
  destruct (save_to_history_body input_text task output_text w) as [[[]|e] w1] eqn:E.
  - exists w1. split; [reflexivity|]. now apply save_body_returns in E.
  - apply save_body_raises in E. destruct E as (He & Hf & _).
    rewrite He. eexists. split; [reflexivity|]. exact Hf.
Qed.

Lemma write_history_no_faults obj w :
  faults w = no_faults ->
  write_history obj w = (Return tt, set_history_text (Some (Json.dumps obj)) w).
Proof. intros Hf. unfold write_history. now rewrite Hf. Qed.

Lemma read_history_no_faults w text v :
  faults w = no_faults -> history_text w = Some text -> Json.loads text = Some v ->
  read_history w = (Return v, w).
Proof. intros Hf Ht Hl. unfold read_history. now rewrite Ht, Hf, Hl. Qed.

Lemma save_body_appends input_text task out w h :
  prior_history w h -> faults w = no_faults ->
  save_to_history_body input_text task (Some out) w
  = (Return tt,
     set_history_text (Some (persist (h ++ [new_entry w input_text task out]))) w).
Proof.
  intros Hp Hf. unfold save_to_history_body.
  assert (Hd : forall l, l = map entry_json h ->
            Json.dumps (Json.JList (l ++ [history_entry (strftime w (clock w)) task
                                             (PyStr.len input_text) (PyStr.len out)]))
            = persist (h ++ [new_entry w input_text task out])).
  { intros l ->. unfold persist, history_json. now rewrite map_app. }
  destruct Hp as [[Hn ->]|(text & Ht & Hr)].
  - rewrite Hn. rewrite (write_history_no_faults _ _ Hf). now rewrite (Hd [] eq_refl).
  - rewrite Ht. rewrite (read_history_no_faults _ _ _ Hf Ht (reload_inv _ _ Hr)).
    unfold history_json. rewrite (write_history_no_faults _ _ Hf).
    now rewrite (Hd _ eq_refl).
Qed.

(** ** [format_text] *)

Lemma truthy_nonempty s : s <> EmptyString -> PyStr.truthy s = true.
Proof. destruct s; [congruence | reflexivity]. Qed.

Lemma range_max_retries : range max_retries = [0; 1; 2].
Proof. reflexivity. Qed.

Lemma format_text_ready c input_text task task_config w :
  PyStr.strip input_text <> EmptyString ->
  dict_get (tasks init) task = Some task_config ->
  format_text (configured c) input_text task w
  = attempt_loop (configured c) c task_config input_text task [0; 1; 2] 1 w.
Proof.
  intros Hn Ht. unfold format_text. rewrite (truthy_nonempty _ Hn).
  cbn [negb client configured tasks]. now rewrite Ht.
Qed.

Lemma attempt_body_raise self c task_config input_text task w e :
  create c (length (requests w)) (build_request self task_config input_text) = Raise e ->
  attempt_body self c task_config input_text task w
  = (Raise e, record_request (build_request self task_config input_text) w).
Proof. intros H. unfold attempt_body. now rewrite H. Qed.

Lemma attempt_body_empty self c task_config input_text task w resp :
  create c (length (requests w)) (build_request self task_config input_text) = Return resp ->
  choices resp = [] ->
  attempt_body self c task_config input_text task w
  = (Raise (Exn IndexError "list index out of range" None),
     record_request (build_request self task_config input_text) w).
Proof. intros H H0. unfold attempt_body. now rewrite H, H0. Qed.

Lemma attempt_body_return self c task_config input_text task w resp text others :
  create c (length (requests w)) (build_request self task_config input_text) = Return resp ->
  choices resp = text :: others ->
  exists w',
    attempt_body self c task_config input_text task w = (Return text, w')
    /\ save_to_history input_text task text
         (record_request (build_request self task_config input_text) w) = (Return tt, w')
    /\ same_but_file_and_log
         (record_request (build_request self task_config input_text) w) w'.
Proof.
  intros H H0. unfold attempt_body. rewrite H, H0.
  destruct (save_to_history_returns input_text task text
              (record_request (build_request self task_config input_text) w))
    as (w' & E & F).
  exists w'. now rewrite E.
Qed.

(** One failed attempt that is retried. *)
Lemma attempt_loop_retry self c task_config input_text task attempt rest d w e :
  create c (length (requests w)) (build_request self task_config input_text) = Raise e ->
  is_api_error e = true -> attempt < max_retries - 1 ->
  attempt_loop self c task_config input_text task (attempt :: rest) d w
  = attempt_loop self c task_config input_text task rest (d * 2)
      (time_sleep d
         (logging_error (LogApiError (attempt + 1) max_retries e)
            (record_request (build_request self task_config input_text) w))).
Proof.
  intros H Ha Hlt. cbn [attempt_loop]. rewrite (attempt_body_raise _ _ _ _ _ _ _ H), Ha.
  apply Z.ltb_lt in Hlt. now rewrite Hlt.
Qed.

(** The last attempt fails. *)
Lemma attempt_loop_exhausted self c task_config input_text task attempt rest d w e :
  create c (length (requests w)) (build_request self task_config input_text) = Raise e ->
  is_api_error e = true -> ~ attempt < max_retries - 1 ->
  attempt_loop self c task_config input_text task (attempt :: rest) d w
  = (Raise (Exn PlainException "Failed to format text after multiple attempts" (Some e)),
     logging_error (LogApiError (attempt + 1) max_retries e)
       (record_request (build_request self task_config input_text) w)).
Proof.
  intros H Ha Hlt. cbn [attempt_loop]. rewrite (attempt_body_raise _ _ _ _ _ _ _ H), Ha.
  apply Z.ltb_nlt in Hlt. now rewrite Hlt.
Qed.

Lemma attempt_loop_success self c task_config input_text task attempt rest d w resp text others :
  create c (length (requests w)) (build_request self task_config input_text) = Return resp ->
  choices resp = text :: others ->
  exists w',
    attempt_loop self c task_config input_text task (attempt :: rest) d w = (Return text, w')
    /\ save_to_history input_text task text
         (record_request (build_request self task_config input_text) w) = (Return tt, w')
    /\ same_but_file_and_log
         (record_request (build_request self task_config input_text) w) w'.
Proof.
  intros H H0.
  destruct (attempt_body_return self c task_config input_text task w resp text others H H0)
    as (w' & E & S & F).
  exists w'. cbn [attempt_loop]. now rewrite E.
Qed.

Lemma length_requests_retry d r req w :
  length (requests (time_sleep d (logging_error r (record_request req w))))
  = S (length (requests w)).
Proof. cbn. rewrite length_app. cbn. lia. Qed.

(** Claim C1.  For a non-empty input and a known task, when the remote
    client raises an API error on the first and on the second attempt and
    answers the third, [format_text] returns the first completion of the
    third answer, has called the client exactly three times with the same
    request, and has slept 1 and then 2 time-units, the delay doubling after
    each failed attempt. *)
Theorem format_text_third_attempt_succeeds
  (c : Client) (input_text task : string) (task_config : TaskConfig) (w : World)
  (e1 e2 : exn) (resp : ChatCompletion) (text : option string) (others : list (option string)) :
  PyStr.strip input_text <> EmptyString ->
  dict_get (tasks init) task = Some task_config ->
  let req := build_request (configured c) task_config input_text in
  let n := length (requests w) in
  create c n req = Raise e1 -> is_api_error e1 = true ->
  create c (S n) req = Raise e2 -> is_api_error e2 = true ->
  create c (S (S n)) req = Return resp -> choices resp = text :: others ->
  exists w',
    format_text (configured c) input_text task w = (Return text, w')
    /\ requests w' = (requests w ++ [req; req; req])%list
    /\ sleeps w' = (sleeps w ++ [1; 2])%list.
Proof.
  intros Hn Ht req n H1 A1 H2 A2 H3 Hc.
  rewrite (format_text_ready _ _ _ _ _ Hn Ht).
  rewrite (attempt_loop_retry _ _ _ _ _ _ _ _ _ e1 H1 A1) by (unfold max_retries; lia).
  rewrite (attempt_loop_retry _ _ _ _ _ _ _ _ _ e2) by
    (rewrite ?length_requests_retry; unfold max_retries; first [assumption | lia]).
  set (w1 := time_sleep 1 (logging_error (LogApiError (0 + 1) max_retries e1)
                             (record_request req w))).
  set (w2 := time_sleep (1 * 2) (logging_error (LogApiError (1 + 1) max_retries e2)
                                   (record_request req w1))).
  assert (L2 : length (requests w2) = S (S n)) by (cbn; rewrite !length_app; cbn; lia).
  destruct (attempt_loop_success (configured c) c task_config input_text task 2 []
              (1 * 2 * 2) w2 resp text others) as (w' & E & _ & F);
    [ rewrite L2; exact H3 | exact Hc | ].
  exists w'. split; [exact E|].
  destruct F as (_ & _ & _ & Fs & Fr & _).
  split.
  - rewrite Fr. cbn. rewrite <- !app_assoc. reflexivity.
  - rewrite Fs. cbn. rewrite <- !app_assoc. reflexivity.
Qed.

Lemma stripped_hi_there : PyStr.strip "hi there" <> EmptyString.
Proof. discriminate. Qed.

Lemma format_text_third_attempt_succeeds_witness :
  exists w',
    format_text (configured Sample.flaky) "hi there" "summarize" Sample.fresh
    = (Return (Some "Hello."), w')
    /\ requests w'
       = (requests Sample.fresh
          ++ [build_request (configured Sample.flaky) summarize_config "hi there";
              build_request (configured Sample.flaky) summarize_config "hi there";
              build_request (configured Sample.flaky) summarize_config "hi there"])%list
    /\ sleeps w' = (sleeps Sample.fresh ++ [1; 2])%list.
Proof.
  apply (format_text_third_attempt_succeeds Sample.flaky "hi there" "summarize"
           summarize_config Sample.fresh Sample.rate_limit Sample.rate_limit
           Sample.hello (Some "Hello.") []);
    first [discriminate | reflexivity].
Defined.

(** Claim C2.  For a non-empty input and a known task, when the remote
    client raises an API error on all three attempts, [format_text] raises
    the exception "Failed to format text after multiple attempts" whose
    [__context__] is the error of the last attempt, and the history file is
    what it was. *)
Theorem format_text_all_attempts_fail
  (c : Client) (input_text task : string) (task_config : TaskConfig) (w : World)
  (e1 e2 e3 : exn) :
  PyStr.strip input_text <> EmptyString ->
  dict_get (tasks init) task = Some task_config ->
  let req := build_request (configured c) task_config input_text in
  let n := length (requests w) in
  create c n req = Raise e1 -> is_api_error e1 = true ->
  create c (S n) req = Raise e2 -> is_api_error e2 = true ->
  create c (S (S n)) req = Raise e3 -> is_api_error e3 = true ->
  exists w',
    format_text (configured c) input_text task w
    = (Raise (Exn PlainException "Failed to format text after multiple attempts" (Some e3)),
       w')
    /\ history_text w' = history_text w
    /\ requests w' = (requests w ++ [req; req; req])%list
    /\ sleeps w' = (sleeps w ++ [1; 2])%list.
Proof.
  intros Hn Ht req n H1 A1 H2 A2 H3 A3.
  rewrite (format_text_ready _ _ _ _ _ Hn Ht).
  rewrite (attempt_loop_retry _ _ _ _ _ _ _ _ _ e1 H1 A1) by (unfold max_retries; lia).
  rewrite (attempt_loop_retry _ _ _ _ _ _ _ _ _ e2) by
    (rewrite ?length_requests_retry; unfold max_retries; first [assumption | lia]).
  set (w1 := time_sleep 1 (logging_error (LogApiError (0 + 1) max_retries e1)
                             (record_request req w))).
  set (w2 := time_sleep (1 * 2) (logging_error (LogApiError (1 + 1) max_retries e2)
                                   (record_request req w1))).
  assert (L2 : length (requests w2) = S (S n)) by (cbn; rewrite !length_app; cbn; lia).
  rewrite (attempt_loop_exhausted _ _ _ _ _ _ _ _ _ e3) by
    (rewrite ?L2, ?length_requests_retry; unfold max_retries; first [assumption | lia]).
  eexists. split; [reflexivity|]. split; [reflexivity|]. split.
  - cbn. rewrite <- !app_assoc. reflexivity.
  - cbn. rewrite <- !app_assoc. reflexivity.
Qed.

Lemma format_text_all_attempts_fail_witness :
  exists w',
    format_text (configured Sample.down) "hi there" "formal" (Sample.holding Sample.one_entry)
    = (Raise (Exn PlainException "Failed to format text after multiple attempts"
                (Some Sample.rate_limit)), w')
    /\ history_text w' = history_text (Sample.holding Sample.one_entry)
    /\ requests w'
       = (requests (Sample.holding Sample.one_entry)
          ++ [build_request (configured Sample.down) formal_config "hi there";
              build_request (configured Sample.down) formal_config "hi there";
              build_request (configured Sample.down) formal_config "hi there"])%list
    /\ sleeps w' = (sleeps (Sample.holding Sample.one_entry) ++ [1; 2])%list.
Proof.
  apply (format_text_all_attempts_fail Sample.down "hi there" "formal" formal_config
           (Sample.holding Sample.one_entry)
           Sample.rate_limit Sample.rate_limit Sample.rate_limit);
    first [discriminate | reflexivity].
Defined.

(** Every call that returns has sent the same request once per attempt, all
    attempts but the last having failed with an API error. *)
Lemma attempt_loop_returns self c task_config input_text task attempts :
  forall d w r w',
    attempt_loop self c task_config input_text task attempts d w = (Return r, w') ->
    let req := build_request self task_config input_text in
    (exists n resp others,
        (n < length attempts)%nat
        /\ requests w' = (requests w ++ repeat req (S n))%list
        /\ create c (length (requests w) + n) req = Return resp
        /\ choices resp = r :: others
        /\ forall k, (k < n)%nat ->
             exists e, create c (length (requests w) + k) req = Raise e
                       /\ is_api_error e = true)
    \/ (r = None /\ Forall (fun a => a < max_retries - 1) attempts).
Proof.
  induction attempts as [|a rest IH]; intros d w r w' H req.
  - right. cbn in H. inversion H. now split.
  - cbn [attempt_loop] in H.
    destruct (create c (length (requests w)) req) as [resp|e] eqn:Ec.
    + destruct (choices resp) as [|text others] eqn:Eo.
      * rewrite (attempt_body_empty _ _ _ _ _ _ _ Ec Eo) in H. cbn in H. discriminate H.
      * destruct (attempt_body_return _ _ _ _ task _ _ _ _ Ec Eo) as (w2 & E & _ & F).
        rewrite E in H. inversion H; subst. left.
        exists 0%nat, resp, others. split; [cbn; lia|].
        destruct F as (_ & _ & _ & _ & Fr & _).
        split; [now rewrite Fr|]. rewrite Nat.add_0_r.
        split; [exact Ec|]. split; [exact Eo|]. intros k Hk. lia.
    + rewrite (attempt_body_raise _ _ _ _ _ _ _ Ec) in H.
      destruct (is_api_error e) eqn:Ea.
      * destruct (a <? max_retries - 1) eqn:Elt; [|discriminate H].
        apply IH in H. cbn zeta in H.
        assert (L : forall k, (length (requests w) + S k = 
                     length (requests (time_sleep d
                       (logging_error (LogApiError (a + 1) max_retries e)
                         (record_request req w)))) + k)%nat).
        { intros k. rewrite length_requests_retry. lia. }
        destruct H as [(n & resp & others & Hn & Hr & Hc & Ho & Hk)|[Hr Hf]].
        -- left. exists (S n), resp, others. split; [cbn; lia|].
           split.
           { rewrite Hr. cbn [requests time_sleep logging_error record_request].
             rewrite <- app_assoc. reflexivity. }
           split; [now rewrite L|]. split; [exact Ho|].
           intros [|k] Hlt.
           ++ exists e. rewrite Nat.add_0_r. now split.
           ++ rewrite L. apply Hk. lia.
        -- right. split; [exact Hr|]. constructor; [now apply Z.ltb_lt | exact Hf].
      * destruct (is_exception e); discriminate H.
Qed.

Lemma known_task_config task :
  In task ["formal"; "bullet"; "summarize"] ->
  exists task_config,
    dict_get (tasks init) task = Some task_config
    /\ name task_config = task
    /\ max_tokens task_config = (if String.eqb task "summarize" then 300 else 500)
    /\ temperature task_config = 7 # 10.
Proof.
  intros [<-|[<-|[<-|[]]]]; eexists; (split; [reflexivity | now repeat split]).
Qed.

(** Claim C3, amended.  For a non-empty input and each of the tasks formal,
    bullet and summarize, a call of [format_text] that returns has sent one
    request per attempt, [n + 1] of them with [n < 3], all equal: the model
    name, the task's instruction as the system message, the input as the user
    message, [max_tokens] 500 (300 for summarize) and temperature 0.7.  The
    attempts before the last raised API errors, the value returned is the
    first completion of the last answer, and a call whose first attempt is
    answered has sent exactly one request. *)
Theorem format_text_requests
  (c : Client) (input_text task : string) (w w' : World) (r : option string) :
  PyStr.strip input_text <> EmptyString ->
  In task ["formal"; "bullet"; "summarize"] ->
  format_text (configured c) input_text task w = (Return r, w') ->
  exists task_config n resp others,
    dict_get (tasks init) task = Some task_config
    /\ let req := mkRequest "gpt-4-1106-preview"
                    [mkMessage "system" (instruction task_config);
                     mkMessage "user" input_text]
                    (if String.eqb task "summarize" then 300 else 500) (7 # 10) in
       (n < 3)%nat
       /\ requests w' = (requests w ++ repeat req (S n))%list
       /\ create c (length (requests w) + n) req = Return resp
       /\ choices resp = r :: others
       /\ (forall k, (k < n)%nat ->
             exists e, create c (length (requests w) + k) req = Raise e
                       /\ is_api_error e = true)
       /\ ((exists first, create c (length (requests w)) req = Return first) -> n = 0%nat).
Proof.
  intros Hn Hk H.
  destruct (known_task_config task Hk) as (cfg & Hd & _ & Hm & Ht).
  rewrite (format_text_ready _ _ _ _ _ Hn Hd) in H.
  apply attempt_loop_returns in H. cbn zeta in H.
  assert (Er : build_request (configured c) cfg input_text
               = mkRequest "gpt-4-1106-preview"
                   [mkMessage "system" (instruction cfg); mkMessage "user" input_text]
                   (if String.eqb task "summarize" then 300 else 500) (7 # 10)).
  { unfold build_request. now rewrite Hm, Ht. }
  rewrite Er in H.
  destruct H as [(n & resp & others & Hlt & Hr & Hc & Ho & Hf)|[_ Hf]].
  - exists cfg, n, resp, others. split; [exact Hd|]. cbn zeta.
    split; [exact Hlt|]. split; [exact Hr|]. split; [exact Hc|]. split; [exact Ho|].
    split; [exact Hf|].
    intros [first Hfirst]. destruct n as [|n]; [reflexivity|].
    destruct (Hf 0%nat) as (e & He & _); [lia|].
    rewrite Nat.add_0_r in He. congruence.
  - exfalso. inversion Hf as [|? ? _ Hf1]; subst.
    inversion Hf1 as [|? ? _ Hf2]; subst.
    inversion Hf2 as [|? ? Hbad _]; subst.
    unfold max_retries in Hbad. lia.
Qed.

Lemma format_text_requests_witness :
  exists task_config n resp others,
    dict_get (tasks init) "bullet" = Some task_config
    /\ let req := mkRequest "gpt-4-1106-preview"
                    [mkMessage "system" (instruction task_config);
                     mkMessage "user" "hi there"]
                    (if String.eqb "bullet" "summarize" then 300 else 500) (7 # 10) in
       (n < 3)%nat
       /\ requests (snd (format_text (configured Sample.steady) "hi there" "bullet" Sample.fresh))
          = (requests Sample.fresh ++ repeat req (S n))%list
       /\ create Sample.steady (length (requests Sample.fresh) + n) req = Return resp
       /\ choices resp = Some "Hello." :: others
       /\ (forall k, (k < n)%nat ->
             exists e, create Sample.steady (length (requests Sample.fresh) + k) req = Raise e
                       /\ is_api_error e = true)
       /\ ((exists first, create Sample.steady (length (requests Sample.fresh)) req
                          = Return first) -> n = 0%nat).
Proof.
  apply (format_text_requests Sample.steady "hi there" "bullet" Sample.fresh
           (snd (format_text (configured Sample.steady) "hi there" "bullet" Sample.fresh))
           (Some "Hello.")).
  - discriminate.
  - cbn. tauto.
  - reflexivity.
Defined.

(** C3, as stated, fails: a call that succeeds on its second attempt has sent
    two requests. *)
Lemma format_text_retry_sends_two_requests :
  exists w',
    format_text (configured Sample.hiccup) "hi there" "formal" Sample.fresh
    = (Return (Some "Hello."), w')
    /\ length (requests Sample.fresh) = 0%nat
    /\ length (requests w') = 2%nat.
Proof. eexists. split; [reflexivity|]. split; reflexivity. Qed.

(** Claim C4, amended.  An input that is empty once stripped makes
    [format_text] raise "Input text cannot be empty"; a non-empty input with
    a task that is not in the registry makes it raise [KeyError], provided a
    client is configured.  In both cases the world is untouched: no call of
    the remote client, no sleep, no retry. *)
Theorem format_text_validation
  (self : TextFormatterBot) (input_text task : string) (w : World) :
  (PyStr.strip input_text = EmptyString ->
   format_text self input_text task w
   = (Raise (Exn ValueError "Input text cannot be empty" None), w))
  /\ (PyStr.strip input_text <> EmptyString ->
      forall c, client self = Some c ->
      dict_get (tasks self) task = None ->
      format_text self input_text task w = (Raise (Exn KeyError task None), w)).
Proof.
  split.
  - intros H. unfold format_text. now rewrite H.
  - intros H c Hc Ht. unfold format_text.
    rewrite (truthy_nonempty _ H). cbn [negb]. now rewrite Hc, Ht.
Qed.

Lemma format_text_validation_witness :
  format_text (configured Sample.steady) "   " "bullet" Sample.fresh
  = (Raise (Exn ValueError "Input text cannot be empty" None), Sample.fresh)
  /\ format_text (configured Sample.steady) "text" "nonexistent" Sample.fresh
     = (Raise (Exn KeyError "nonexistent" None), Sample.fresh).
Proof.
  split.
  - apply (proj1 (format_text_validation (configured Sample.steady) "   " "bullet"
                    Sample.fresh)).
    reflexivity.
  - apply (proj2 (format_text_validation (configured Sample.steady) "text" "nonexistent"
                    Sample.fresh)) with (c := Sample.steady).
    + discriminate.
    + reflexivity.
    + reflexivity.
Defined.

(** C4, as stated, fails: with no client configured an unknown task is not
    reported; the missing client is. *)
Lemma format_text_unknown_task_without_client :
  PyStr.strip "text" <> EmptyString
  /\ dict_get (tasks init) "nonexistent" = None
  /\ format_text init "text" "nonexistent" Sample.fresh
     = (Raise (Exn ValueError "OpenAI client not initialized" None), Sample.fresh)
  /\ format_text init "text" "nonexistent" Sample.fresh
     <> (Raise (Exn KeyError "nonexistent" None), Sample.fresh).
Proof. repeat split; try reflexivity; discriminate. Qed.

(** Claim C10.  The checks of [format_text] run in this order: empty input,
    then missing client, then unknown task.  In particular a non-empty input
    with no client configured raises "OpenAI client not initialized" whatever
    the task, known or not. *)
Theorem format_text_error_precedence
  (self : TextFormatterBot) (input_text task : string) (w : World) :
  (PyStr.strip input_text = EmptyString ->
   format_text self input_text task w
   = (Raise (Exn ValueError "Input text cannot be empty" None), w))
  /\ (PyStr.strip input_text <> EmptyString -> client self = None ->
      format_text self input_text task w
      = (Raise (Exn ValueError "OpenAI client not initialized" None), w))
  /\ (PyStr.strip input_text <> EmptyString ->
      forall c, client self = Some c -> dict_get (tasks self) task = None ->
      format_text self input_text task w = (Raise (Exn KeyError task None), w)).
Proof.
  split; [|split].
  - intros H. unfold format_text. now rewrite H.
  - intros H Hc. unfold format_text.
    rewrite (truthy_nonempty _ H). cbn [negb]. now rewrite Hc.
  - intros H c Hc Ht. unfold format_text.
    rewrite (truthy_nonempty _ H). cbn [negb]. now rewrite Hc, Ht.
Qed.

Lemma format_text_error_precedence_witness :
  dict_get (tasks init) "nonexistent" = None
  /\ format_text init "text" "nonexistent" Sample.fresh
     = (Raise (Exn ValueError "OpenAI client not initialized" None), Sample.fresh)
  /\ format_text init "  " "nonexistent" Sample.fresh
     = (Raise (Exn ValueError "Input text cannot be empty" None), Sample.fresh).
Proof.
  split; [reflexivity|]. split.
  - apply (proj1 (proj2 (format_text_error_precedence init "text" "nonexistent"
                           Sample.fresh))).
    + discriminate.
    + reflexivity.
  - apply (proj1 (format_text_error_precedence init "  " "nonexistent" Sample.fresh)).
    reflexivity.
Defined.

(** ** The history file *)

(** Claim C6.  Writing a sequence of history entries to the history file and
    reading the file back yields the same document, and decoding it yields the
    same entries in the same order, field for field. *)
Theorem history_roundtrip (h : list HistoryEntry) (w : World) :
  open_write_fault (faults w) = false ->
  write_fault (faults w) = None ->
  read_fault (faults w) = false ->
  exists w1,
    write_history (history_json h) w = (Return tt, w1)
    /\ history_text w1 = Some (persist h)
    /\ read_history w1 = (Return (history_json h), w1)
    /\ reload (persist h) = Some h.
Proof.
  intros Ho Hw Hr. exists (set_history_text (Some (persist h)) w).
  split; [|split; [|split]].
  - unfold write_history. now rewrite Ho, Hw.
  - reflexivity.
  - unfold read_history. cbn [history_text set_history_text faults].
    now rewrite Hr, loads_persist.
  - apply reload_persist.
Qed.

Lemma history_roundtrip_witness :
  exists w1,
    write_history (history_json Sample.three_entries) Sample.fresh = (Return tt, w1)
    /\ history_text w1 = Some (persist Sample.three_entries)
    /\ read_history w1 = (Return (history_json Sample.three_entries), w1)
    /\ reload (persist Sample.three_entries) = Some Sample.three_entries.
Proof.
  apply (history_roundtrip Sample.three_entries Sample.fresh); reflexivity.
Defined.

(** Claim C5.  When the history file holds the entries [h] (a missing file
    holds none) and no fault strikes, [save_to_history] leaves the file
    holding [h] followed by exactly one new entry: the current timestamp, the
    given task, the character count of the input and the character count of
    the output. *)
Theorem save_to_history_appends
  (input_text task out : string) (w : World) (h : list HistoryEntry) :
  prior_history w h -> faults w = no_faults ->
  let entry := mkEntry (strftime w (clock w)) task
                       (Z.of_nat (String.length input_text))
                       (Z.of_nat (String.length out)) in
  exists w',
    save_to_history input_text task (Some out) w = (Return tt, w')
    /\ history_text w' = Some (persist (h ++ [entry]))
    /\ reload (persist (h ++ [entry])) = Some (h ++ [entry])%list
    /\ error_log w' = error_log w.
Proof.
  intros Hp Hf entry.
  exists (set_history_text (Some (persist (h ++ [entry]))) w).
  split; [|split; [reflexivity|split; [apply reload_persist|reflexivity]]].
  unfold save_to_history, try_except_Exception.
  now rewrite (save_body_appends input_text task out w h Hp Hf).
Qed.

Lemma save_to_history_appends_witness :
  exists w',
    save_to_history "hi there" "bullet" (Some "Hello.") (Sample.holding Sample.one_entry)
    = (Return tt, w')
    /\ history_text w'
       = Some (persist (Sample.one_entry ++ [mkEntry "2024-01-01 10:00:00" "bullet" 8 6]))
    /\ reload (persist (Sample.one_entry ++ [mkEntry "2024-01-01 10:00:00" "bullet" 8 6]))
       = Some (Sample.one_entry ++ [mkEntry "2024-01-01 10:00:00" "bullet" 8 6])%list
    /\ error_log w' = error_log (Sample.holding Sample.one_entry).
Proof.
  apply (save_to_history_appends "hi there" "bullet" "Hello."
           (Sample.holding Sample.one_entry) Sample.one_entry).
  - right. exists (persist Sample.one_entry). split; [reflexivity | apply reload_persist].
  - reflexivity.
Defined.




(** ** Statistics *)

Module StatsFacts.
Import Json Stats StatsAux.

Lemma add_divisions_nil w : add_divisions [] w = w.
Proof. destruct w. unfold add_divisions. cbn. now rewrite List.app_nil_r. Qed.

Lemma add_divisions_app ds1 ds2 w :
  add_divisions ds2 (add_divisions ds1 w) = add_divisions (ds1 ++ ds2) w.
Proof. unfold add_divisions. cbn. now rewrite <- List.app_assoc. Qed.

Lemma truediv_nonzero a b w :
  b <> 0 ->
  truediv a b w = (Return (PyFloat.int_truediv a b), add_divisions [(a, b)] w).
Proof. intros H. unfold truediv. apply Z.eqb_neq in H. now rewrite H. Qed.

Lemma task_usage_of_nonzero counts total w :
  total <> 0 ->
  task_usage_of counts total w
  = (Return (map (usage_line total) counts),
     add_divisions (map (fun kc => (snd kc, total)) counts) w).
Proof.
  intros H. revert w. induction counts as [|[k n] rest IH]; intros w.
  - cbn. now rewrite add_divisions_nil.
  - cbn [task_usage_of]. unfold bind. rewrite (truediv_nonzero _ _ _ H), IH.
    unfold ret. now rewrite add_divisions_app.
Qed.

Lemma tally_entry_json t e :
  tally_entry t (entry_json e)
  = Return (mkTally (counts_incr (task_counts t) (JStr (task e)))
                    (total_input_length t + input_length e)
                    (total_output_length t + output_length e)).
Proof. destruct e; reflexivity. Qed.

Lemma tally_history h : forall t,
  tally t (map entry_json h)
  = Return (mkTally (fold_left counts_incr (map (fun e => JStr (task e)) h) (task_counts t))
                    (total_input_length t + sum_input h)
                    (total_output_length t + sum_output h)).
Proof.
  induction h as [|e h IH]; intros t.
  - cbn. destruct t. cbn. now rewrite !Z.add_0_r.
  - cbn [map tally]. rewrite tally_entry_json, IH.
    cbn [fold_left map task_counts total_input_length total_output_length
         sum_input sum_output fold_right].
    now rewrite !Z.add_assoc.
Qed.

Lemma counts_total_cons kc rest : counts_total (kc :: rest) = snd kc + counts_total rest.
Proof. reflexivity. Qed.

Lemma counts_total_incr counts k :
  counts_total (counts_incr counts k) = counts_total counts + 1.
Proof.
  induction counts as [|[k' n] rest IH]; [reflexivity|].
  cbn [counts_incr]. destruct (key_eq k' k); rewrite !counts_total_cons; cbn [snd]; lia.
Qed.

Lemma counts_total_fold keys : forall counts,
  counts_total (fold_left counts_incr keys counts)
  = counts_total counts + Z.of_nat (length keys).
Proof.
  induction keys as [|k keys IH]; intros counts; cbn [fold_left length].
  - lia.
  - rewrite IH, counts_total_incr. lia.
Qed.

Lemma sum_counts_usage total counts :
  sum_counts (map (usage_line total) counts) = counts_total counts.
Proof.
  induction counts as [|kc rest IH]; [reflexivity|].
  rewrite counts_total_cons, <- IH. reflexivity.
Qed.

Lemma read_history_loaded w text v :
  history_text w = Some text -> read_fault (faults w) = false ->
  loads text = Some v -> read_history w = (Return v, w).
Proof. intros Ht Hr Hl. unfold read_history. now rewrite Ht, Hr, Hl. Qed.

(** The whole computation on a file that holds the entries [h]. *)
Lemma display_statistics_history h w text :
  h <> [] -> history_text w = Some text -> reload text = Some h ->
  read_fault (faults w) = false ->
  let total := Z.of_nat (length h) in
  let counts := fold_left counts_incr (map (fun e => JStr (task e)) h) [] in
  display_statistics w
  = (Return (Shown (mkStatistics total (map (usage_line total) counts)
                      (PyFloat.int_truediv (sum_input h) total)
                      (PyFloat.int_truediv (sum_output h) total))),
     add_divisions (map (fun kc => (snd kc, total)) counts
                    ++ [(sum_input h, total); (sum_output h, total)]) w).
Proof.
  intros Hne Ht Hr Hf total counts.
  assert (Hz : total <> 0) by (destruct h; [congruence | subst total; cbn; lia]).
  unfold display_statistics. rewrite Ht.
  unfold try_except_Exception, display_statistics_body, bind.
  rewrite (read_history_loaded w text _ Ht Hf (reload_inv _ _ Hr)).
  assert (Htr : py_truthy (history_json h) = true) by (destruct h; [congruence | reflexivity]).
  rewrite Htr. cbn [negb]. unfold lift, history_json.
  cbn [py_len py_iter]. rewrite length_map, tally_history.
  cbn [task_counts total_input_length total_output_length Z.add].
  rewrite (task_usage_of_nonzero _ _ _ Hz).
  rewrite !(truediv_nonzero _ _ _ Hz). unfold ret.
  rewrite ?add_divisions_app. reflexivity.
Qed.

End StatsFacts.

Module DivisionFacts.
Import Json Stats StatsAux.

Lemma py_len_truthy v n : py_truthy v = true -> py_len v = Return n -> 0 < n.
Proof.
  destruct v as [| | |s|l|d]; cbn; intros Ht Hl; try discriminate Hl;
    inversion Hl; subst.
  - destruct s; [discriminate Ht|]. unfold PyStr.len. cbn. lia.
  - destruct l; [discriminate Ht|]. cbn. lia.
  - destruct d; [discriminate Ht|]. cbn. lia.
Qed.

Lemma py_len_raises v e : py_len v = Raise e -> benign e.
Proof. destruct v; cbn; intros H; inversion H; now split. Qed.

Lemma py_iter_raises v e : py_iter v = Raise e -> benign e.
Proof. destruct v; cbn; intros H; inversion H; now split. Qed.

Lemma getitem_raises v key e : getitem v key = Raise e -> benign e.
Proof.
  destruct v; cbn; intros H; try (inversion H; now split).
  destruct (dict_get d key); inversion H; now split.
Qed.

Lemma add_to_raises acc v e : add_to acc v = Raise e -> benign e.
Proof. unfold add_to. destruct (as_int v); intros H; inversion H; now split. Qed.

Lemma tally_entry_raises t x e : tally_entry t x = Raise e -> benign e.
Proof.
  unfold tally_entry. intros H.
  destruct (getitem x "task") eqn:E1; [|inversion H; subst; eapply getitem_raises, E1].
  destruct (hashable a); cbn [negb] in H; [|inversion H; now split].
  destruct (getitem x "input_length") eqn:E2;
    [|inversion H; subst; eapply getitem_raises, E2].
  destruct (add_to (total_input_length t) a0) eqn:E3;
    [|inversion H; subst; eapply add_to_raises, E3].
  destruct (getitem x "output_length") eqn:E4;
    [|inversion H; subst; eapply getitem_raises, E4].
  destruct (add_to (total_output_length t) a2) eqn:E5;
    [discriminate H|inversion H; subst; eapply add_to_raises, E5].
Qed.

Lemma tally_raises l : forall t e, tally t l = Raise e -> benign e.
Proof.
  induction l as [|x l IH]; intros t e H; cbn [tally] in H; [discriminate H|].
  destruct (tally_entry t x) eqn:E; [eapply IH, H|].
  inversion H; subst. eapply tally_entry_raises, E.
Qed.

Lemma read_history_benign w e w' : read_history w = (Raise e, w') -> benign e.
Proof.
  unfold read_history. intros H.
  destruct (history_text w); [|inversion H; now split].
  destruct (read_fault (faults w)); [inversion H; now split|].
  destruct (loads s); inversion H; now split.
Qed.

Lemma read_history_value w v w' :
  read_history w = (Return v, w') ->
  w' = w /\ exists text, history_text w = Some text /\ loads text = Some v.
Proof.
  unfold read_history. intros H.
  destruct (history_text w) as [text|]; [|discriminate H].
  destruct (read_fault (faults w)); [discriminate H|].
  destruct (loads text) eqn:E; inversion H; subst. split; [reflexivity|].
  now exists text.
Qed.

(** What the body of [display_statistics] divides by. *)
Lemma display_statistics_body_divisions w r w' :
  display_statistics_body w = (r, w') ->
  exists ds,
    w' = add_divisions ds w
    /\ (forall a b, In (a, b) ds ->
          0 < b /\ exists text v, history_text w = Some text
                                  /\ loads text = Some v /\ py_len v = Return b)
    /\ (forall e, r = Raise e -> benign e)
    /\ (forall e, r <> Return (LoadError e)).
Proof.
  unfold display_statistics_body, bind. intros H.
  assert (Hnil : forall (x : result Display),
            (forall e, x = Raise e -> benign e) ->
            (forall e, x <> Return (LoadError e)) ->
            (x, w) = (r, w') ->
            exists ds,
              w' = add_divisions ds w
              /\ (forall a b, In (a, b) ds ->
                    0 < b /\ exists text v, history_text w = Some text
                                            /\ loads text = Some v /\ py_len v = Return b)
              /\ (forall e, r = Raise e -> benign e)
              /\ (forall e, r <> Return (LoadError e))).
  { intros x Hx Hy E. inversion E; subst. exists []. rewrite StatsFacts.add_divisions_nil.
    split; [reflexivity|]. split; [intros a b []|]. split; [exact Hx|exact Hy]. }
  destruct (read_history w) as [[history|e0] w0] eqn:Er.
  2:{ pose proof (read_history_frame _ _ _ Er); subst w0.
      apply (Hnil (Raise e0)); [|discriminate|exact H].
      intros e [= <-]. eapply read_history_benign, Er. }
  apply read_history_value in Er. destruct Er as (-> & text & Ht & Hl).
  destruct (py_truthy history) eqn:Etr; cbn [negb] in H.
  2:{ apply (Hnil (Return NoHistory)); [discriminate | discriminate | exact H]. }
  unfold lift in H.
  destruct (py_len history) as [total|e1] eqn:El.
  2:{ apply (Hnil (Raise e1)); [|discriminate|exact H].
      intros e [= <-]. eapply py_len_raises, El. }
  pose proof (py_len_truthy _ _ Etr El) as Hpos.
  destruct (py_iter history) as [entries|e2] eqn:Ei.
  2:{ apply (Hnil (Raise e2)); [|discriminate|exact H].
      intros e [= <-]. eapply py_iter_raises, Ei. }
  destruct (tally (mkTally [] 0 0) entries) as [t|e3] eqn:Et.
  2:{ apply (Hnil (Raise e3)); [|discriminate|exact H].
      intros e [= <-]. eapply tally_raises, Et. }
  assert (Hz : total <> 0) by lia.
  rewrite (StatsFacts.task_usage_of_nonzero _ _ _ Hz) in H.
  rewrite !(StatsFacts.truediv_nonzero _ _ _ Hz) in H. unfold ret in H.
  rewrite !StatsFacts.add_divisions_app in H. inversion H; subst. clear H.
  eexists. split; [reflexivity|]. split; [|split; [discriminate|discriminate]].
  intros a b Hin.
  assert (b = total).
  { apply in_app_or in Hin. destruct Hin as [Hin|Hin].
    - apply in_map_iff in Hin. destruct Hin as (kc & [= _ <-] & _). reflexivity.
    - destruct Hin as [[= _ <-]|[[= _ <-]|[]]]; reflexivity. }
  subst b. split; [exact Hpos|]. now exists text, history.
Qed.

End DivisionFacts.

(** Claim C8.  With no history file, or a file holding an empty sequence,
    [display_statistics] reports that there is no history and leaves the world
    as it is, so it has divided nothing.  Whatever the file holds, every
    division performed has the length of the loaded document as divisor, which
    is positive there, and the failure reported is never a division by zero. *)
Theorem statistics_never_divide_by_zero (w : World) :
  (history_text w = None ->
   Stats.display_statistics w = (Return Stats.NoHistory, w))
  /\ (forall text,
        history_text w = Some text -> read_fault (faults w) = false ->
        Json.loads text = Some (Json.JList []) ->
        Stats.display_statistics w = (Return Stats.NoHistory, w))
  /\ (exists ds,
        divisions (snd (Stats.display_statistics w)) = (divisions w ++ ds)%list
        /\ forall a b, In (a, b) ds ->
             0 < b
             /\ exists text v, history_text w = Some text
                               /\ Json.loads text = Some v
                               /\ Stats.py_len v = Return b)
  /\ (forall e, fst (Stats.display_statistics w) = Return (Stats.LoadError e) ->
        exn_cls e <> ZeroDivisionError).
Proof.
  split; [|split; [|split]].
  - intros H. unfold Stats.display_statistics. now rewrite H.
  - intros text Ht Hf Hl. unfold Stats.display_statistics. rewrite Ht.
    unfold try_except_Exception, Stats.display_statistics_body, bind.
    now rewrite (StatsFacts.read_history_loaded w text _ Ht Hf Hl).
  - unfold Stats.display_statistics.
    destruct (history_text w) eqn:Ht.
    2:{ exists []. cbn. rewrite List.app_nil_r. split; [reflexivity | intros a b []]. }
    unfold try_except_Exception.
    destruct (Stats.display_statistics_body w) as [r w'] eqn:E.
    apply DivisionFacts.display_statistics_body_divisions in E.
    destruct E as (ds & -> & Hd & Hb & _). rewrite <- Ht in *.
    exists ds. split; [|exact Hd].
    destruct r as [d|e]; [reflexivity|].
    destruct (Hb e eq_refl) as [_ He]. rewrite He. reflexivity.
  - unfold Stats.display_statistics.
    destruct (history_text w) eqn:Ht; [|discriminate].
    unfold try_except_Exception.
    destruct (Stats.display_statistics_body w) as [r w'] eqn:E.
    apply DivisionFacts.display_statistics_body_divisions in E.
    destruct E as (ds & -> & _ & Hb & Hn).
    destruct r as [d|e0].
    + cbn [fst]. intros e [= ->]. destruct (Hn e eq_refl).
    + destruct (Hb e0 eq_refl) as [Hc He]. rewrite He. cbn [fst].
      intros e [= <-]. exact Hc.
Qed.

Lemma statistics_never_divide_by_zero_witness :
  Stats.display_statistics Sample.fresh = (Return Stats.NoHistory, Sample.fresh)
  /\ Stats.display_statistics (Sample.holding [])
     = (Return Stats.NoHistory, Sample.holding []).
Proof.
  split.
  - apply (proj1 (statistics_never_divide_by_zero Sample.fresh)). reflexivity.
  - apply (proj1 (proj2 (statistics_never_divide_by_zero (Sample.holding []))))
      with (text := "[]"); reflexivity.
Defined.

(* ================================================================== *)
(** ** The rounding of floats

    What [SpecFloat] computes for the division of two ints and for the
    multiplication by 100: a finite float within half a unit in the last
    place of the exact result. *)

Module FloatFacts.
Import FloatAux.


Lemma fexp_eq e : fexp e = Z.max (e - 53) (-1074).
Proof. reflexivity. Qed.

Lemma digits2_pos_spec p :
  2 ^ (Zpos (digits2_pos p) - 1) <= Zpos p < 2 ^ Zpos (digits2_pos p).
Proof.
  induction p as [p IH|p IH|]; cbn [digits2_pos].
  - rewrite Pos2Z.inj_succ. replace (Z.succ (Zpos (digits2_pos p)) - 1)
      with (Zpos (digits2_pos p)) by lia.
    rewrite Z.pow_succ_r by lia.
    assert (H : 2 ^ Zpos (digits2_pos p) = 2 * 2 ^ (Zpos (digits2_pos p) - 1)).
    { rewrite <- Z.pow_succ_r by lia. f_equal. lia. }
    lia.
  - rewrite Pos2Z.inj_succ. replace (Z.succ (Zpos (digits2_pos p)) - 1)
      with (Zpos (digits2_pos p)) by lia.
    rewrite Z.pow_succ_r by lia.
    assert (H : 2 ^ Zpos (digits2_pos p) = 2 * 2 ^ (Zpos (digits2_pos p) - 1)).
    { rewrite <- Z.pow_succ_r by lia. f_equal. lia. }
    lia.
  - cbn. lia.
Qed.

Lemma Zdigits2_nonneg m : 0 <= Zdigits2 m.
Proof. destruct m; cbn; lia. Qed.

Lemma Zdigits2_pos m : 0 < m -> 1 <= Zdigits2 m.
Proof. destruct m; cbn; lia. Qed.

Lemma Zdigits2_spec m :
  0 < m -> 2 ^ (Zdigits2 m - 1) <= m < 2 ^ Zdigits2 m.
Proof. destruct m as [|p|p]; try lia. intros _. apply digits2_pos_spec. Qed.

Lemma Zdigits2_le m k : 0 <= k -> 0 <= m < 2 ^ k -> Zdigits2 m <= k.
Proof.
  intros Hk [H0 H]. destruct (Z.eq_dec m 0) as [->|Hm]; [cbn; lia|].
  pose proof (Zdigits2_spec m ltac:(lia)) as [Hl _].
  destruct (Z_le_gt_dec (Zdigits2 m) k) as [|Hgt]; [assumption|exfalso].
  assert (2 ^ k <= 2 ^ (Zdigits2 m - 1)) by (apply Z.pow_le_mono_r; lia).
  lia.
Qed.

Lemma Zdigits2_ge m k : 0 <= k -> 2 ^ k <= m -> k + 1 <= Zdigits2 m.
Proof.
  intros Hk H. assert (0 < 2 ^ k) by (apply Z.pow_pos_nonneg; lia).
  pose proof (Zdigits2_spec m ltac:(lia)) as [_ Hu].
  pose proof (Zdigits2_nonneg m).
  destruct (Z_le_gt_dec (k + 1) (Zdigits2 m)) as [|Hgt]; [assumption|exfalso].
  assert (2 ^ Zdigits2 m <= 2 ^ k) by (apply Z.pow_le_mono_r; lia).
  lia.
Qed.

(** *** Shifting to the right *)

Lemma loc_of_shr_record_of_loc m l :
  loc_of_shr_record (shr_record_of_loc m l) = l.
Proof. now destruct l as [|[]]. Qed.

Lemma shr_m_shr_record_of_loc m l : shr_m (shr_record_of_loc m l) = m.
Proof. now destruct l as [|[]]. Qed.

Lemma holds_start m r den :
  0 <= m -> 0 <= r < den ->
  holds (shr_record_of_loc m (loc_of r den)) (m * den + r) den.
Proof.
  intros Hm Hr. exists r. rewrite shr_m_shr_record_of_loc, loc_of_shr_record_of_loc.
  now repeat split.
Qed.

Ltac solve_loc :=
  cbn [loc_of_shr_record]; unfold loc_of;
  match goal with
  | |- _ = (if ?r =? 0 then _ else loc_Inexact (?a ?= ?b)) =>
      destruct (Z.eqb_spec r 0);
      [try reflexivity; lia
      |destruct (Z.compare_spec a b); try reflexivity; lia]
  end.

Lemma shr_1_holds mrs num den :
  holds mrs num den -> holds (shr_1 mrs) num (2 * den).
Proof.
  intros (r & Hn & Hr & Hm & Hl).
  destruct mrs as [m rb sb]. cbn [shr_m] in *.
  assert (Hs : (orb rb sb = false /\ r = 0) \/ (orb rb sb = true /\ r <> 0)).
  { unfold loc_of in Hl. destruct (Z.eqb_spec r 0); destruct rb, sb;
      cbn in Hl |- *; try discriminate; auto. }
  clear Hl. cbn [shr_1].
  destruct m as [|[p|p|]|p]; [| | | |lia];
    destruct Hs as [[-> Hr0]|[-> Hr0]].
  - exists r. cbn [shr_m]. repeat (split; [lia|]). solve_loc.
  - exists r. cbn [shr_m]. repeat (split; [lia|]). solve_loc.
  - exists (den + r). cbn [shr_m]. repeat (split; [lia|]). solve_loc.
  - exists (den + r). cbn [shr_m]. repeat (split; [lia|]). solve_loc.
  - exists r. cbn [shr_m]. repeat (split; [lia|]). solve_loc.
  - exists r. cbn [shr_m]. repeat (split; [lia|]). solve_loc.
  - exists (den + r). cbn [shr_m]. repeat (split; [lia|]). solve_loc.
  - exists (den + r). cbn [shr_m]. repeat (split; [lia|]). solve_loc.
Qed.

Lemma iter_shr_holds p : forall mrs num den,
  holds mrs num den -> holds (iter_pos shr_1 p mrs) num (2 ^ Zpos p * den).
Proof.
  induction p as [p IH|p IH|]; intros mrs num den H; cbn [iter_pos].
  - apply shr_1_holds in H. apply IH in H. apply IH in H.
    replace (2 ^ Zpos p~1 * den) with (2 ^ Zpos p * (2 ^ Zpos p * (2 * den))); [exact H|].
    assert (E : Zpos p~1 = Zpos p + Zpos p + 1) by lia. rewrite E.
    rewrite !Z.pow_add_r by lia. rewrite Z.pow_1_r. ring.
  - apply IH in H. apply IH in H.
    replace (2 ^ Zpos p~0 * den) with (2 ^ Zpos p * (2 ^ Zpos p * den)); [exact H|].
    assert (E : Zpos p~0 = Zpos p + Zpos p) by lia. rewrite E.
    rewrite Z.pow_add_r by lia. ring.
  - apply shr_1_holds in H. exact H.
Qed.

Lemma shr_fexp_holds mx ex r den :
  0 <= mx -> 0 <= r < den ->
  let E := fexp (Zdigits2 mx + ex) in
  ex <= E ->
  exists mrs,
    shr_fexp 53 1024 mx ex (loc_of r den) = (mrs, E)
    /\ holds mrs (mx * den + r) (2 ^ (E - ex) * den).
Proof.
  intros Hm Hr E HE. unfold shr_fexp. fold (fexp (Zdigits2 mx + ex)). fold E.
  pose proof (holds_start mx r den Hm Hr) as H0.
  unfold shr. destruct (E - ex) as [|p|p] eqn:En; [| |lia].
  - exists (shr_record_of_loc mx (loc_of r den)).
    split; [f_equal; lia|]. now rewrite Z.pow_0_r, Z.mul_1_l.
  - exists (iter_pos shr_1 p (shr_record_of_loc mx (loc_of r den))).
    split; [f_equal; lia|]. now apply iter_shr_holds.
Qed.

Lemma shr_fexp_exact z E :
  -1074 <= E -> 0 <= z <= 2 ^ 53 ->
  shr_fexp 53 1024 z E loc_Exact
  = if z <? 2 ^ 53 then (Build_shr_record z false false, E)
    else (Build_shr_record (2 ^ 52) false false, E + 1).
Proof.
  intros HE Hz. unfold shr_fexp. fold (fexp (Zdigits2 z + E)). rewrite fexp_eq.
  destruct (Z.ltb_spec z (2 ^ 53)) as [Hlt|Hge].
  - pose proof (Zdigits2_le z 53 ltac:(lia) ltac:(lia)) as Hd.
    cbn [shr_record_of_loc]. unfold shr.
    destruct (Z.max (Zdigits2 z + E - 53) (-1074) - E) eqn:En; try reflexivity. lia.
  - assert (z = 2 ^ 53) by lia. subst z.
    change (Zdigits2 (2 ^ 53)) with 54.
    replace (Z.max (54 + E - 53) (-1074) - E) with 1 by lia.
    reflexivity.
Qed.

Lemma binary_round_aux_spec sx mx ex r den :
  0 <= mx -> 0 <= r < den ->
  let E := fexp (Zdigits2 mx + ex) in
  ex <= E ->
  let D := 2 ^ (E - ex) * den in
  let num := mx * den + r in
  exists z,
    0 <= z <= 2 ^ 53
    /\ Z.abs (2 * (z * D) - 2 * num) <= D
    /\ num < (z + 1) * D
    /\ binary_round_aux 53 1024 sx mx ex (loc_of r den) = pack sx z E.
Proof.
  intros Hm Hr E HE D num.
  destruct (shr_fexp_holds mx ex r den Hm Hr HE) as (mrs & Hs & r1 & Hn & Hr1 & Hm1 & Hl).
  fold E in Hs, Hn, Hr1, Hl. fold D in Hn, Hr1, Hl. fold num in Hn.
  set (m1 := shr_m mrs) in *.
  set (z := round_nearest_even m1 (loc_of_shr_record mrs)).
  assert (HP : 0 < 2 ^ (E - ex)) by (apply Z.pow_pos_nonneg; lia).
  assert (Hz : (z = m1 /\ 2 * r1 <= D) \/ (z = m1 + 1 /\ D <= 2 * r1)).
  { unfold z. rewrite Hl. unfold loc_of, round_nearest_even.
    destruct (Z.eqb_spec r1 0); cbv iota; [left; lia|].
    destruct (Z.compare_spec (2 * r1) D); cbv iota; [|left; lia|right; lia].
    destruct (Z.even m1); [left; lia | right; lia]. }
  assert (Hm53 : m1 < 2 ^ 53).
  { assert (Hd : mx + 1 <= 2 ^ Zdigits2 mx).
    { destruct (Z.eq_dec mx 0) as [->|]; [cbn; lia|].
      pose proof (Zdigits2_spec mx ltac:(lia)). lia. }
    assert (Hk : 2 ^ Zdigits2 mx <= 2 ^ 53 * 2 ^ (E - ex)).
    { rewrite <- Z.pow_add_r by lia. apply Z.pow_le_mono_r; [lia|].
      unfold E. rewrite fexp_eq. lia. }
    unfold D in Hn. unfold num in Hn.
    set (P := 2 ^ (E - ex)) in *. set (T := 2 ^ Zdigits2 mx) in *.
    set (K := 2 ^ 53) in *. clearbody P T K. nia. }
  exists z. split; [destruct Hz as [[-> _]|[-> _]]; lia|].
  split; [destruct Hz as [[-> ?]|[-> ?]]; lia|].
  split; [destruct Hz as [[-> ?]|[-> ?]]; nia|].
  unfold binary_round_aux. rewrite Hs. fold m1. fold z.
  rewrite (shr_fexp_exact z E); [|unfold E; rewrite fexp_eq; lia
                                 |destruct Hz as [[-> _]|[-> _]]; lia].
  unfold pack. destruct (z <? 2 ^ 53); cbn [shr_m]; [|reflexivity].
  destruct z; reflexivity.
Qed.


(** *** Powers of two in [Q] *)

Lemma two_nonzero : ~ (2 == 0)%Q.
Proof. discriminate. Qed.

Lemma pow2_pos e : (0 < 2 ^ e)%Q.
Proof. now apply Qpower_0_lt. Qed.

Lemma pow2_add a b : (2 ^ (a + b) == 2 ^ a * 2 ^ b)%Q.
Proof. apply Qpower_plus, two_nonzero. Qed.

Lemma pow2_Z n : (0 <= n)%Z -> (inject_Z (2 ^ n) == 2 ^ n)%Q.
Proof. intros H. exact (Zpower_Qpower 2 n H). Qed.

Lemma pow2_le a b : (a <= b)%Z -> (2 ^ a <= 2 ^ b)%Q.
Proof. intros H. apply Qpower_le_compat_l; [exact H | discriminate]. Qed.

Lemma pow2_lt_inv a b : (2 ^ a < 2 ^ b)%Q -> (a < b)%Z.
Proof. intros H. apply (Qpower_lt_compat_l_inv 2); [exact H | reflexivity]. Qed.

Lemma inject_Z_pos z : (0 < z)%Z -> (0 < inject_Z z)%Q.
Proof. intros H. change 0%Q with (inject_Z 0). now rewrite <- Zlt_Qlt. Qed.

Lemma inject_Z_nonneg z : (0 <= z)%Z -> (0 <= inject_Z z)%Q.
Proof. intros H. change 0%Q with (inject_Z 0). now rewrite <- Zle_Qle. Qed.

Lemma sgn_cases s : sgn s = 1%Q \/ sgn s = (- 1)%Q.
Proof. destruct s; [now right | now left]. Qed.

(** *** The value of a rounded float *)

Lemma value_pack sx z E :
  (0 <= z <= 2 ^ 53)%Z -> (E <= 970)%Z ->
  PyFloat.is_finite (pack sx z E) = true
  /\ (PyFloat.value (pack sx z E) == sgn sx * (inject_Z z * 2 ^ E))%Q.
Proof.
  intros Hz HE. unfold pack.
  destruct (Z.ltb_spec z (2 ^ 53)) as [Hlt|Hge].
  - destruct z as [|m|m]; [| |lia].
    + split; [reflexivity|]. cbn [PyFloat.value]. change (inject_Z 0) with 0%Q. ring.
    + destruct (Z.leb_spec E 971); [|lia]. split; [reflexivity|].
      cbn [PyFloat.value]. unfold sgn. destruct sx; ring.
  - assert (z = 2 ^ 53)%Z by lia. subst z.
    destruct (Z.leb_spec (E + 1) 971); [|lia]. split; [reflexivity|].
    cbn [PyFloat.value]. rewrite pow2_add.
    change (2 ^ 1)%Q with 2%Q.
    change (inject_Z (2 ^ 53)) with (inject_Z 4503599627370496 * 2)%Q.
    unfold sgn. destruct sx; ring.
Qed.

Lemma round_error mx ex r den z E :
  (0 < den)%Z -> (ex <= E)%Z ->
  (Z.abs (2 * (z * (2 ^ (E - ex) * den)) - 2 * (mx * den + r)) <= 2 ^ (E - ex) * den)%Z ->
  (Qabs (inject_Z z * 2 ^ E - inject_Z (mx * den + r) / inject_Z den * 2 ^ ex)
   <= 2 ^ E * (1 # 2))%Q.
Proof.
  intros Hden HE Habs.
  assert (HP : (0 < 2 ^ (E - ex))%Z) by (apply Z.pow_pos_nonneg; lia).
  assert (HE2 : (2 ^ E == 2 ^ ex * inject_Z (2 ^ (E - ex)))%Q).
  { rewrite pow2_Z by lia. rewrite <- pow2_add. now replace (ex + (E - ex))%Z with E by lia. }
  set (P := (2 ^ (E - ex))%Z) in *. set (num := (mx * den + r)%Z) in *.
  apply Z.abs_le in Habs. destruct Habs as [Hlo Hhi].
  rewrite Zle_Qle in Hlo, Hhi.
  unfold Z.sub in Hlo, Hhi.
  repeat (rewrite inject_Z_plus in Hlo || rewrite inject_Z_opp in Hlo
          || rewrite inject_Z_mult in Hlo).
  repeat (rewrite inject_Z_plus in Hhi || rewrite inject_Z_opp in Hhi
          || rewrite inject_Z_mult in Hhi).
  rewrite Zlt_Qlt in Hden, HP.
  change (inject_Z 0) with 0%Q in *. change (inject_Z 2) with 2%Q in *.
  pose proof (pow2_pos ex) as Hpe.
  set (pe := (2 ^ ex)%Q) in *. set (Pq := inject_Z P) in *.
  set (dq := inject_Z den) in *. set (nq := inject_Z num) in *. set (zq := inject_Z z) in *.
  apply Qabs_Qle_condition. rewrite HE2.
  assert (En : (nq == (nq / dq) * dq)%Q) by (field; lra).
  set (t := (nq / dq)%Q) in *. clearbody t pe Pq dq nq zq.
  rewrite En in Hlo, Hhi.
  assert (H1 : (2 * zq * Pq - 2 * t <= Pq)%Q) by nra.
  assert (H2 : (- Pq <= 2 * zq * Pq - 2 * t)%Q) by nra.
  split; nra.
Qed.

(** What [binary_round_aux] returns for a mantissa [mx], an exponent [ex]
    and a remainder [r] out of [den], that is for the number
    [(mx + r / den) * 2 ^ ex], when the mantissa has 53 bits or more, or the
    exponent is the least one: a finite float within half a unit in the last
    place of that number. *)
Lemma round_spec sx mx ex r den :
  (0 <= mx)%Z -> (0 <= r < den)%Z ->
  (2 ^ 52 <= mx \/ ex <= -1074)%Z ->
  let x := (inject_Z (mx * den + r) / inject_Z den * 2 ^ ex)%Q in
  (x < 2 ^ 1023)%Q ->
  let R := binary_round_aux 53 1024 sx mx ex (loc_of r den) in
  PyFloat.is_finite R = true
  /\ exists v : Q,
       (PyFloat.value R == sgn sx * v)%Q
       /\ (Qabs (v - x) <= x * 2 ^ (-53) + 2 ^ (-1075))%Q.
Proof.
  intros Hm Hr Hbig x Hx R.
  set (d := Zdigits2 mx). set (E := fexp (d + ex)).
  pose proof (Zdigits2_nonneg mx) as Hd0. fold d in Hd0.
  assert (Hd : (0 < mx -> 2 ^ (d - 1) <= mx)%Z) by (intros H; now apply Zdigits2_spec).
  assert (Hd1 : (0 < mx -> 1 <= d)%Z) by apply Zdigits2_pos.
  assert (HexE : (ex <= E)%Z).
  { unfold E. rewrite fexp_eq. destruct Hbig as [Hb|Hb]; [|lia].
    pose proof (Zdigits2_ge mx 52 ltac:(lia) Hb). fold d in H. lia. }
  assert (Hden : (0 < den)%Z) by lia.
  (* the number lies above its mantissa *)
  assert (Hxm : (inject_Z mx * 2 ^ ex <= x)%Q).
  { unfold x. pose proof (pow2_pos ex) as Hpe.
    assert (Hq : (inject_Z mx <= inject_Z (mx * den + r) / inject_Z den)%Q).
    { apply Qle_shift_div_l; [now apply inject_Z_pos|].
      rewrite <- inject_Z_mult, <- Zle_Qle. lia. }
    set (pe := (2 ^ ex)%Q) in *. clearbody pe. nra. }
  assert (HE970 : (E <= 970)%Z).
  { unfold E. rewrite fexp_eq. destruct (Z.eq_dec mx 0) as [E0|E0].
    - subst mx. change (Zdigits2 0) with 0%Z in d. unfold d. destruct Hbig; lia.
    - assert (H1 : (2 ^ (d - 1 + ex) < 2 ^ 1023)%Q).
      { eapply Qle_lt_trans; [|exact Hx]. eapply Qle_trans; [|exact Hxm].
        rewrite pow2_add.
        assert (H52 : (inject_Z (2 ^ (d - 1)) == 2 ^ (d - 1))%Q)
          by (apply pow2_Z; assert (0 < mx)%Z by lia; pose proof (Hd1 ltac:(lia)); lia).
        rewrite <- H52.
        apply Qmult_le_compat_r; [|apply Qlt_le_weak, pow2_pos].
        rewrite <- Zle_Qle. apply Hd. lia. }
      apply pow2_lt_inv in H1. lia. }
  destruct (binary_round_aux_spec sx mx ex r den Hm Hr) as (z & Hz & Habs & _ & Hp);
    [exact HexE|].
  fold d in Hp, Habs. fold E in Hp, Habs. fold R in Hp. rewrite Hp.
  destruct (value_pack sx z E Hz HE970) as [Hfin Hval].
  split; [exact Hfin|].
  exists (inject_Z z * 2 ^ E)%Q. split; [exact Hval|].
  pose proof (round_error mx ex r den z E Hden HexE Habs) as Herr. fold x in Herr.
  eapply Qle_trans; [exact Herr|].
  assert (Hx0 : (0 <= x)%Q).
  { eapply Qle_trans; [|exact Hxm]. apply Qmult_le_0_compat;
      [now apply inject_Z_nonneg | apply Qlt_le_weak, pow2_pos]. }
  assert (Hhalf : forall e, (2 ^ e * (1 # 2) == 2 ^ (e - 1))%Q).
  { intros e. replace (e - 1)%Z with (e + -1)%Z by lia. rewrite pow2_add. reflexivity. }
  rewrite Hhalf.
  destruct (Z.eq_dec E (-1074)) as [Emin|Enorm].
  - rewrite Emin. change (-1074 - 1)%Z with (-1075)%Z.
    pose proof (pow2_pos (-53)) as H53. set (p53 := (2 ^ (-53))%Q) in *.
    set (p := (2 ^ (-1075))%Q) in *. clearbody p53 p. nra.
  - assert (HEd : E = (d + ex - 53)%Z) by (unfold E in *; rewrite fexp_eq in *; lia).
    assert (Hmx : (0 < mx)%Z).
    { destruct (Z.eq_dec mx 0) as [E0|E0]; [|lia]. exfalso. subst mx.
      change (Zdigits2 0) with 0%Z in d. unfold d in *. unfold E in Enorm.
      rewrite fexp_eq in Enorm. destruct Hbig; lia. }
    assert (H2 : (2 ^ (E - 1) <= x * 2 ^ (-53))%Q).
    { replace (E - 1)%Z with ((d - 1 + ex) + -53)%Z by lia.
      rewrite (pow2_add (d - 1 + ex)).
      apply Qmult_le_compat_r; [|apply Qlt_le_weak, pow2_pos].
      eapply Qle_trans; [|exact Hxm].
      rewrite pow2_add.
      assert (H52 : (inject_Z (2 ^ (d - 1)) == 2 ^ (d - 1))%Q)
        by (apply pow2_Z; pose proof (Hd1 Hmx); lia).
      rewrite <- H52.
      apply Qmult_le_compat_r; [|apply Qlt_le_weak, pow2_pos].
      rewrite <- Zle_Qle. now apply Hd. }
    pose proof (pow2_pos (-1075)) as Hp2.
    set (p := (2 ^ (-1075))%Q) in *. clearbody p. lra.
Qed.


(** *** Division of two ints *)

Lemma new_location_loc_of nb r :
  (0 < nb)%Z -> (0 <= r)%Z -> new_location nb r = loc_of r nb.
Proof.
  intros Hn Hr. unfold new_location, new_location_even, new_location_odd, loc_of.
  destruct (Z.even nb) eqn:Ev; [reflexivity|].
  destruct (Z.eqb_spec r 0); [reflexivity|]. f_equal.
  assert (Ho : Z.odd nb = true) by (rewrite <- Z.negb_even, Ev; reflexivity).
  apply Z.odd_spec in Ho. destruct Ho as [j Hj].
  change (Z.pos 2 * r)%Z with (2 * r)%Z. change (Zpos 1) with 1%Z.
  destruct (Z.compare_spec (2 * r + 1) nb); destruct (Z.compare_spec (2 * r) nb);
    try reflexivity; lia.
Qed.

Lemma SFdiv_core_spec ma mb :
  exists q r e',
    SFdiv_core_binary 53 1024 (Zpos ma) 0 (Zpos mb) 0 = (q, e', loc_of r (Zpos mb))
    /\ (e' <= 0)%Z
    /\ (Zpos ma * 2 ^ (- e') = q * Zpos mb + r)%Z
    /\ (0 <= r < Zpos mb)%Z /\ (0 <= q)%Z
    /\ (2 ^ 52 <= q \/ e' <= -1074)%Z.
Proof.
  unfold SFdiv_core_binary.
  fold (fexp (Zdigits2 (Zpos ma) + 0 - (Zdigits2 (Zpos mb) + 0))). rewrite fexp_eq.
  set (d1 := Zdigits2 (Zpos ma)). set (d2 := Zdigits2 (Zpos mb)).
  set (e' := Z.min (Z.max (d1 + 0 - (d2 + 0) - 53) (-1074)) (0 - 0)).
  assert (He : (e' <= 0)%Z) by (unfold e'; lia).
  set (m' := match (0 - 0 - e')%Z with
             | Zpos _ => Z.shiftl (Zpos ma) (0 - 0 - e')
             | Z0 => Zpos ma
             | Zneg _ => 0%Z
             end).
  assert (Hm' : m' = (Zpos ma * 2 ^ (- e'))%Z).
  { unfold m'. replace (0 - 0 - e')%Z with (- e')%Z by lia.
    destruct (- e')%Z eqn:En; [now rewrite Z.mul_1_r | | lia].
    rewrite <- En. apply Z.shiftl_mul_pow2. lia. }
  pose proof (Z_div_mod m' (Zpos mb) ltac:(lia)) as Hdm.
  destruct (Z.div_eucl m' (Zpos mb)) as [q r]. destruct Hdm as [Hq Hr].
  assert (HS : (0 < 2 ^ (- e'))%Z) by (apply Z.pow_pos_nonneg; lia).
  assert (Hq0 : (0 <= q)%Z) by nia.
  exists q, r, e'. rewrite new_location_loc_of by lia.
  split; [reflexivity|]. split; [exact He|]. split; [lia|]. split; [exact Hr|].
  split; [exact Hq0|].
  destruct (Z_le_gt_dec e' (-1074)) as [|Hgt]; [now right | left].
  pose proof (Zdigits2_spec (Zpos ma) ltac:(lia)) as [H1 _]. fold d1 in H1.
  pose proof (Zdigits2_spec (Zpos mb) ltac:(lia)) as [_ H2]. fold d2 in H2.
  pose proof (Zdigits2_pos (Zpos ma) ltac:(lia)) as Hd1. fold d1 in Hd1.
  pose proof (Zdigits2_pos (Zpos mb) ltac:(lia)) as Hd2. fold d2 in Hd2.
  assert (Hk : (2 ^ 52 * 2 ^ d2 <= 2 ^ (d1 - 1) * 2 ^ (- e'))%Z).
  { rewrite <- !Z.pow_add_r by lia. apply Z.pow_le_mono_r; [lia|]. unfold e' in *. lia. }
  assert (H52 : (0 < 2 ^ 52)%Z) by reflexivity.
  set (A := (2 ^ (d1 - 1))%Z) in *. set (S := (2 ^ (- e'))%Z) in *.
  set (B := (2 ^ d2)%Z) in *. set (K := (2 ^ 52)%Z) in *.
  clearbody A S B K m'. subst m'.
  destruct (Z_le_gt_dec K q) as [|Hlt]; [assumption|exfalso].
  assert (Zpos mb * (q + 1) <= Zpos mb * K)%Z by (apply Z.mul_le_mono_nonneg_l; lia).
  assert (Zpos mb * K < B * K)%Z by (apply Z.mul_lt_mono_pos_r; lia).
  assert (A * S <= Zpos ma * S)%Z by (apply Z.mul_le_mono_nonneg_r; lia).
  lia.
Qed.

Lemma Qabs_sgn s y : (Qabs (sgn s * y) == Qabs y)%Q.
Proof.
  destruct s; unfold sgn.
  - rewrite <- (Qabs_opp y). apply Qabs_wd. ring.
  - apply Qabs_wd. ring.
Qed.

(** The quotient of a non-zero magnitude, with the sign [s]. *)
Lemma SFdiv_spec s ma mb :
  let x := (inject_Z (Zpos ma) / inject_Z (Zpos mb))%Q in
  (x < 2 ^ 1023)%Q ->
  let q := SFdiv 53 1024 (S754_finite s ma 0) (S754_finite false mb 0) in
  PyFloat.is_finite q = true
  /\ exists v : Q, (PyFloat.value q == sgn s * v)%Q
                   /\ (Qabs (v - x) <= x * 2 ^ (-53) + 2 ^ (-1075))%Q.
Proof.
  intros x Hx q. unfold q, SFdiv.
  destruct (SFdiv_core_spec ma mb) as (mz & r & e' & -> & He & Hm & Hr & Hq & Hbig).
  replace (xorb s false) with s by now destruct s.
  assert (Ex : (inject_Z (mz * Zpos mb + r) / inject_Z (Zpos mb) * 2 ^ e' == x)%Q).
  { rewrite <- Hm, inject_Z_mult, pow2_Z by lia. unfold x.
    assert (H1 : (2 ^ (- e') * 2 ^ e' == 1)%Q).
    { rewrite <- pow2_add. now replace (- e' + e')%Z with 0%Z by lia. }
    pose proof (inject_Z_pos (Zpos mb) ltac:(lia)) as Hb.
    set (u := (2 ^ (- e'))%Q) in *. set (t := (2 ^ e')%Q) in *.
    set (bq := inject_Z (Zpos mb)) in *. set (aq := inject_Z (Zpos ma)) in *.
    clearbody u t bq aq.
    transitivity (aq / bq * (u * t))%Q; [field; lra|]. rewrite H1. ring. }
  destruct (round_spec s mz e' r (Zpos mb) Hq Hr Hbig) as [Hfin (v & Hv & Herr)].
  { cbv zeta. now rewrite Ex. }
  cbv zeta in Herr. split; [exact Hfin|]. exists v. split; [exact Hv|].
  now rewrite Ex in Herr.
Qed.

(** [a / b]: a finite float, within one part in [2 ^ 53] of the quotient,
    or within [2 ^ (-1075)] of it. *)
Lemma int_truediv_spec a b :
  (0 < b)%Z ->
  let x := (inject_Z a / inject_Z b)%Q in
  (Qabs x < 2 ^ 1023)%Q ->
  let q := PyFloat.int_truediv a b in
  PyFloat.is_finite q = true
  /\ (Qabs (PyFloat.value q - x) <= Qabs x * 2 ^ (-53) + 2 ^ (-1075))%Q.
Proof.
  intros Hb x Hx q. destruct b as [|mb|mb]; try lia.
  assert (Hs : forall s ma, (x == sgn s * (inject_Z (Zpos ma) / inject_Z (Zpos mb)))%Q ->
            let q := SFdiv 53 1024 (S754_finite s ma 0) (S754_finite false mb 0) in
            PyFloat.is_finite q = true
            /\ (Qabs (PyFloat.value q - x) <= Qabs x * 2 ^ (-53) + 2 ^ (-1075))%Q).
  { intros s ma Exs q0.
    set (X := (inject_Z (Zpos ma) / inject_Z (Zpos mb))%Q) in *.
    assert (HX : (0 <= X)%Q).
    { unfold X. apply Qle_shift_div_l; [now apply inject_Z_pos|].
      rewrite Qmult_0_l. now apply inject_Z_nonneg. }
    assert (Hax : (Qabs x == X)%Q).
    { rewrite Exs, Qabs_sgn. now apply Qabs_pos. }
    destruct (SFdiv_spec s ma mb) as [Hfin (v & Hv & Herr)].
    { cbv zeta. fold X. now rewrite <- Hax. }
    cbv zeta in Herr. fold X in Herr. fold q0 in Hfin, Hv.
    split; [exact Hfin|].
    rewrite Hax. eapply Qle_trans; [|exact Herr].
    apply Qle_lteq. right. rewrite <- (Qabs_sgn s (v - X)). apply Qabs_wd.
    rewrite Hv, Exs. ring. }
  destruct a as [|ma|ma].
  - split; [reflexivity|]. unfold q, PyFloat.int_truediv, x. cbn [PyFloat.operand SFdiv].
    cbn [xorb PyFloat.value].
    assert (E0 : (0 - inject_Z 0 / inject_Z (Zpos mb) == 0)%Q) by now unfold Qeq.
    rewrite E0. cbn [Qabs Z.abs Qnum Qden].
    pose proof (pow2_pos (-1075)). pose proof (pow2_pos (-53)).
    pose proof (Qabs_nonneg (inject_Z 0 / inject_Z (Z.pos mb))).
    set (t := Qabs _) in *. set (u := (2 ^ (-53))%Q) in *. set (w := (2 ^ (-1075))%Q) in *.
    clearbody t u w. change (Qabs 0) with 0%Q. nra.
  - apply (Hs false ma). unfold x, sgn. ring.
  - apply (Hs true ma). unfold x, sgn.
    change (inject_Z (Zneg ma)) with (- inject_Z (Zpos ma))%Q. field.
    pose proof (inject_Z_pos (Zpos mb) ltac:(lia)). lra.
Qed.

(** *** Multiplication by 100 *)

Lemma mul_hundred_spec y :
  PyFloat.is_finite y = true ->
  let x := (PyFloat.value y * 100)%Q in
  (Qabs x < 2 ^ 1023)%Q ->
  let p := PyFloat.mul y (PyFloat.of_int 100) in
  PyFloat.is_finite p = true
  /\ (Qabs (PyFloat.value p - x) <= Qabs x * 2 ^ (-53) + 2 ^ (-1075))%Q.
Proof.
  intros Hy x Hx p.
  change (PyFloat.of_int 100) with (S754_finite false 7036874417766400 (-46)) in p.
  destruct y as [sy|sy| |sy my ey]; try discriminate Hy.
  - split; [reflexivity|]. unfold p, x. cbn [PyFloat.mul SFmul PyFloat.value].
    assert (E0 : (0 - 0 * 100 == 0)%Q) by reflexivity. rewrite E0.
    pose proof (pow2_pos (-1075)). pose proof (pow2_pos (-53)).
    pose proof (Qabs_nonneg (0 * 100)).
    set (t := Qabs (0 * 100)) in *. set (u := (2 ^ (-53))%Q) in *.
    set (w := (2 ^ (-1075))%Q) in *. clearbody t u w. change (Qabs 0) with 0%Q. nra.
  - unfold p, PyFloat.mul, SFmul. replace (xorb sy false) with sy by now destruct sy.
    change loc_Exact with (loc_of 0 1).
    set (X := (inject_Z (Zpos my) * 2 ^ ey * 100)%Q).
    assert (HX : (0 <= X)%Q).
    { unfold X. pose proof (pow2_pos ey). pose proof (inject_Z_pos (Zpos my) ltac:(lia)).
      set (a := inject_Z _) in *. set (b := (2 ^ ey)%Q) in *. clearbody a b. nra. }
    assert (Exs : (x == sgn sy * X)%Q).
    { unfold x, X, sgn. cbn [PyFloat.value]. destruct sy; ring. }
    assert (Hax : (Qabs x == X)%Q) by (rewrite Exs, Qabs_sgn; now apply Qabs_pos).
    assert (Ex : (inject_Z (Zpos (my * 7036874417766400) * 1 + 0) / inject_Z 1
                  * 2 ^ (ey + -46) == X)%Q).
    { rewrite Z.add_0_r, Z.mul_1_r, Pos2Z.inj_mul, inject_Z_mult, pow2_add. unfold X.
      assert (E100 : (inject_Z 7036874417766400 * 2 ^ (-46) == 100)%Q) by reflexivity.
      set (a := inject_Z (Zpos my)) in *. set (b := (2 ^ ey)%Q) in *.
      set (c := inject_Z 7036874417766400) in *. set (d := (2 ^ (-46))%Q) in *.
      clearbody a b c d.
      transitivity (a * b * (c * d))%Q; [change (inject_Z 1) with 1%Q; field|].
      rewrite E100. ring. }
    destruct (round_spec sy (Zpos (my * 7036874417766400)) (ey + -46) 0 1)
      as [Hfin (v & Hv & Herr)]; [lia | lia | left; lia | |].
    { cbv zeta. rewrite Ex, <- Hax. exact Hx. }
    cbv zeta in Herr. rewrite Ex in Herr.
    split; [exact Hfin|].
    rewrite Hax. eapply Qle_trans; [|exact Herr].
    apply Qle_lteq. right. rewrite <- (Qabs_sgn sy (v - X)). apply Qabs_wd.
    rewrite Hv, Exs. ring.
Qed.

End FloatFacts.

(* ================================================================== *)
(** ** Further properties of the history file *)

Module DecoderFacts.
Import Json JsonAux.

Lemma dict_set_keys d key v :
  map fst (dict_set d key v)
  = if existsb (String.eqb key) (map fst d) then map fst d
    else (map fst d ++ [key])%list.
Proof.
  induction d as [|[k x] d IH]; [reflexivity|].
  cbn [dict_set map fst existsb].
  destruct (String.eqb_spec k key) as [->|Hne].
  - now rewrite String.eqb_refl.
  - rewrite (proj2 (String.eqb_neq key k)) by congruence.
    cbn [orb map fst]. rewrite IH. now destruct (existsb (String.eqb key) (map fst d)).
Qed.

Lemma dict_set_nodup d key v :
  NoDup (map fst d) -> NoDup (map fst (dict_set d key v)).
Proof.
  intros H. rewrite dict_set_keys.
  destruct (existsb (String.eqb key) (map fst d)) eqn:E; [exact H|].
  apply NoDup_app; [exact H | repeat constructor; intros [] | ].
  intros a Ha [<-|[]].
  assert (existsb (String.eqb key) (map fst d) = true); [|congruence].
  apply existsb_exists. exists key. split; [exact Ha | apply String.eqb_refl].
Qed.

Lemma dict_set_wf d key v : dict_wf d -> wf v -> dict_wf (dict_set d key v).
Proof.
  induction d as [|[k x] d IH]; intros Hd Hv.
  - cbn. now split.
  - cbn [dict_set]. destruct Hd as [Hx Hd].
    destruct (String.eqb k key); cbn [dict_wf]; split; auto.
Qed.

Lemma dict_of_pairs_wf pairs :
  dict_wf pairs ->
  NoDup (map fst (dict_of_pairs pairs)) /\ dict_wf (dict_of_pairs pairs).
Proof.
  unfold dict_of_pairs.
  assert (H : forall acc, NoDup (map fst acc) -> dict_wf acc -> dict_wf pairs ->
            NoDup (map fst (fold_left (fun d kv => dict_set d (fst kv) (snd kv)) pairs acc))
            /\ dict_wf (fold_left (fun d kv => dict_set d (fst kv) (snd kv)) pairs acc)).
  { induction pairs as [|[k x] pairs IH]; intros acc Hn Ha Hp; [now split|].
    cbn [fold_left fst snd]. destruct Hp as [Hx Hp].
    apply IH; [now apply dict_set_nodup | now apply dict_set_wf | exact Hp]. }
  intros Hp. apply H; [constructor | exact I | exact Hp].
Qed.

Lemma decodes_wf_all fuel : decodes_wf fuel.
Proof.
  induction fuel as [|f (A & B & C)].
  - repeat split; intros; discriminate.
  - repeat split.
    + intros s v rest H. cbn [scan_once] in H.
      destruct s as [|c r]; [discriminate H|].
      destruct (PyStr.code c =? 34)%N.
      { destruct (scanstring r) as [[t rest']|]; inversion H; exact I. }
      destruct (PyStr.code c =? 123)%N.
      { destruct (skip_ws r) as [|c1 r1]; [discriminate H|].
        destruct (PyStr.code c1 =? 125)%N.
        { inversion H; subst. apply JsonFacts.wf_dict. split; [constructor | exact I]. }
        destruct (PyStr.code c1 =? 34)%N; [|discriminate H].
        destruct (object_items f r1) as [[pairs rest']|] eqn:E; inversion H; subst.
        apply JsonFacts.wf_dict. apply dict_of_pairs_wf. eapply C, E. }
      destruct (PyStr.code c =? 91)%N.
      { destruct (skip_ws r) as [|c1 r1]; [discriminate H|].
        destruct (PyStr.code c1 =? 93)%N.
        { inversion H; subst. exact I. }
        destruct (array_items f (String c1 r1)) as [[values rest']|] eqn:E;
          inversion H; subst.
        apply JsonFacts.wf_list. eapply B, E. }
      destruct (strip_prefix "null" (String c r)); [inversion H; exact I|].
      destruct (strip_prefix "true" (String c r)); [inversion H; exact I|].
      destruct (strip_prefix "false" (String c r)); [inversion H; exact I|].
      destruct (match_number (String c r)) as [[z rest']|]; inversion H; exact I.
    + intros s l rest H. cbn [array_items] in H.
      destruct (scan_once f s) as [[value s1]|] eqn:E; [|discriminate H].
      apply A in E.
      destruct (skip_ws s1) as [|c r]; [discriminate H|].
      destruct (PyStr.code c =? 93)%N; [inversion H; subst; now split|].
      destruct (PyStr.code c =? 44)%N; [|discriminate H].
      destruct (array_items f (skip_ws r)) as [[values rest']|] eqn:E2;
        inversion H; subst.
      split; [exact E | eapply B, E2].
    + intros s d rest H. cbn [object_items] in H.
      destruct (scanstring s) as [[key s1]|]; [|discriminate H].
      destruct (skip_ws s1) as [|c r]; [discriminate H|].
      destruct (PyStr.code c =? 58)%N; [|discriminate H].
      destruct (scan_once f (skip_ws r)) as [[value s2]|] eqn:E; [|discriminate H].
      apply A in E.
      destruct (skip_ws s2) as [|c2 r2]; [discriminate H|].
      destruct (PyStr.code c2 =? 125)%N; [inversion H; subst; now split|].
      destruct (PyStr.code c2 =? 44)%N; [|discriminate H].
      destruct (skip_ws r2) as [|c3 r3]; [discriminate H|].
      destruct (PyStr.code c3 =? 34)%N; [|discriminate H].
      destruct (object_items f r3) as [[pairs rest']|] eqn:E2; inversion H; subst.
      split; [exact E | eapply C, E2].
Qed.

(** Whatever text is decoded, the document obtained has dicts with pairwise
    distinct keys. *)
Lemma loads_wf text v : loads text = Some v -> wf v.
Proof.
  unfold loads. intros H.
  destruct (scan_once (S (String.length text)) (skip_ws text)) as [[v0 rest]|] eqn:E;
    [|discriminate H].
  destruct (skip_ws rest); inversion H; subst.
  eapply (proj1 (decodes_wf_all _)), E.
Qed.

(** A text that decodes is re-encoded into a text that decodes to the same
    document. *)
Lemma loads_dumps_loads text v :
  loads text = Some v -> loads (dumps v) = Some v.
Proof. intros H. apply JsonFacts.loads_dumps. eapply loads_wf, H. Qed.

End DecoderFacts.

(** ** Further properties of [format_text] *)

(** What a run of the retry loop does to the world, however the client
    behaves. *)
Lemma attempt_loop_effects self c task_config input_text task attempts :
  forall d w r w',
    attempt_loop self c task_config input_text task attempts d w = (r, w') ->
    let req := build_request self task_config input_text in
    exists k,
      (k <= length attempts)%nat
      /\ sleeps w' = (sleeps w ++ backoff d k)%list
      /\ clock w' = clock w + total (backoff d k)
      /\ faults w' = faults w /\ strftime w' = strftime w
      /\ ((k < length attempts)%nat /\ requests w' = (requests w ++ repeat req (S k))%list
          \/ k = length attempts /\ r = Return None
             /\ requests w' = (requests w ++ repeat req k)%list
             /\ history_text w' = history_text w
             /\ Forall (fun a => a < max_retries - 1) attempts)
      /\ (forall e, r = Raise e -> history_text w' = history_text w)
      /\ (forall out h,
            r = Return (Some out) -> faults w = no_faults -> prior_history w h ->
            history_text w'
            = Some (persist (h ++ [mkEntry (strftime w (clock w')) task
                                           (PyStr.len input_text) (PyStr.len out)]))).
Proof.
  induction attempts as [|a rest IH]; intros d w r w' H req.
  - cbn in H. inversion H; subst. exists 0%nat. cbn [backoff total fold_right length repeat].
    rewrite !List.app_nil_r, Z.add_0_r.
    split; [lia|]. do 4 (split; [reflexivity|]).
    split; [right; split; [reflexivity|split; [reflexivity|split;
             [reflexivity|split; [reflexivity|constructor]]]]|].
    split; [intros e He; discriminate He | intros out h Ho; discriminate Ho].
  - cbn [attempt_loop] in H. fold req in H.
    unfold attempt_body in H. fold req in H.
    destruct (create c (length (requests w)) req) as [resp|e] eqn:Ec.
    + (* the client answered *)
      destruct (choices resp) as [|text others] eqn:Eo.
      * cbn [is_api_error exn_cls is_exception] in H. inversion H; subst.
        exists 0%nat. cbn [backoff total fold_right length repeat].
        rewrite !List.app_nil_r, Z.add_0_r.
        split; [lia|]. do 4 (split; [reflexivity|]).
        split; [left; split; [lia | reflexivity]|].
        split; [intros e He; reflexivity | intros out h Ho; discriminate Ho].
      * destruct (save_to_history input_text task text (record_request req w))
          as [[[]|e] w2] eqn:Es.
        2:{ destruct (save_to_history_returns input_text task text (record_request req w))
              as (w3 & E3 & _). rewrite E3 in Es. discriminate Es. }
        inversion H; subst. clear H.
        destruct (save_to_history_returns input_text task text (record_request req w))
          as (w3 & E3 & F). rewrite E3 in Es. inversion Es; subst w3. clear Es.
        destruct F as (Ff & Fc & Ft & Fs & Fr & _).
        exists 0%nat. cbn [backoff total fold_right length repeat].
        rewrite !List.app_nil_r, Z.add_0_r.
        split; [lia|]. split; [exact Fs|]. split; [exact Fc|].
        split; [exact Ff|]. split; [exact Ft|].
        split; [left; split; [lia | exact Fr]|].
        split; [intros e He; discriminate He|].
        intros out h [= ->] Hf Hp.
        unfold save_to_history, try_except_Exception in E3.
        rewrite (save_body_appends input_text task out (record_request req w) h) in E3;
          [|exact Hp|exact Hf].
        inversion E3; subst. reflexivity.
    + (* the client raised *)
      destruct (is_api_error e) eqn:Ea.
      * destruct (a <? max_retries - 1) eqn:Elt.
        -- apply IH in H. cbn zeta in H. fold req in H.
           destruct H as (k & Hk & Hs & Hc & Hf & Ht & Hr & He & Ho).
           exists (S k). cbn [length backoff total fold_right].
           split; [lia|].
           split; [rewrite Hs; cbn; now rewrite <- List.app_assoc|].
           split; [rewrite Hc; cbn; fold (total (backoff (d * 2) k)); lia|].
           split; [exact Hf|]. split; [exact Ht|].
           split.
           { destruct Hr as [[Hlt Hr]|(-> & Hn & Hr & Hh & Hall)].
             - left. split; [lia|]. rewrite Hr. cbn [requests time_sleep logging_error
                 record_request repeat]. now rewrite <- List.app_assoc.
             - right. split; [reflexivity|]. split; [exact Hn|].
               split; [|split; [exact Hh|constructor; [now apply Z.ltb_lt|exact Hall]]].
               rewrite Hr. cbn [requests time_sleep logging_error record_request repeat].
               rewrite <- List.app_assoc. reflexivity. }
           split; [exact He|].
           intros out h Hout Hnf Hp. rewrite (Ho out h Hout Hnf Hp). reflexivity.
        -- inversion H; subst. exists 0%nat. cbn [backoff total fold_right length repeat].
           rewrite !List.app_nil_r, Z.add_0_r.
           split; [lia|]. do 4 (split; [reflexivity|]).
           split; [left; split; [lia | reflexivity]|].
           split; [intros e0 He; reflexivity | intros out h Ho; discriminate Ho].
      * assert (Hx : (r, w') = (Raise e, if is_exception e
                                         then logging_error (LogUnexpected e)
                                                (record_request req w)
                                         else record_request req w)).
        { destruct (is_exception e); now inversion H. }
        inversion Hx; subst. exists 0%nat. cbn [backoff total fold_right length repeat].
        rewrite !List.app_nil_r, Z.add_0_r.
        split; [lia|]. do 4 (split; [destruct (is_exception e); reflexivity|]).
        split; [left; split; [lia | destruct (is_exception e); reflexivity]|].
        split; [intros e0 He; destruct (is_exception e); reflexivity
               | intros out h Ho; discriminate Ho].
Qed.

(** Extra X1.  Whatever the remote client does, a call of [format_text] that
    passes its checks calls the client between one and three times, always
    with the same request, sleeps only between attempts (1, then 2,
    time-units: never after the last attempt, never 4) and, when it raises,
    leaves the history file as it was. *)
Theorem format_text_effort
  (c : Client) (input_text task : string) (task_config : TaskConfig)
  (w w' : World) (r : result (option string)) :
  PyStr.strip input_text <> EmptyString ->
  dict_get (tasks init) task = Some task_config ->
  format_text (configured c) input_text task w = (r, w') ->
  let req := build_request (configured c) task_config input_text in
  exists n,
    (1 <= n <= 3)%nat
    /\ requests w' = (requests w ++ repeat req n)%list
    /\ sleeps w' = (sleeps w ++ firstn (n - 1) [1; 2])%list
    /\ clock w' = clock w + total (firstn (n - 1) [1; 2])
    /\ (forall e, r = Raise e -> history_text w' = history_text w).
Proof.
  intros Hn Ht H req. rewrite (format_text_ready _ _ _ _ _ Hn Ht) in H.
  apply attempt_loop_effects in H. cbn zeta in H. fold req in H.
  destruct H as (k & Hk & Hs & Hc & _ & _ & Hr & He & _).
  cbn [length] in Hk, Hr.
  destruct Hr as [[Hlt Hr]|(_ & _ & _ & _ & Hall)].
  - exists (S k). split; [lia|]. split; [exact Hr|].
    replace (S k - 1)%nat with k by lia.
    assert (Hb : backoff 1 k = firstn k [1; 2])
      by (destruct k as [|[|[|k]]]; try reflexivity; lia).
    rewrite <- Hb. split; [exact Hs|]. split; [exact Hc|exact He].
  - exfalso. inversion Hall as [|? ? _ H1]; subst.
    inversion H1 as [|? ? _ H2]; subst. inversion H2 as [|? ? Hbad _]; subst.
    unfold max_retries in Hbad. lia.
Qed.

Lemma format_text_effort_witness :
  exists n,
    (1 <= n <= 3)%nat
    /\ requests (snd (format_text (configured Sample.hiccup) "hi there" "formal" Sample.fresh))
       = (requests Sample.fresh
          ++ repeat (build_request (configured Sample.hiccup) formal_config "hi there") n)%list
    /\ sleeps (snd (format_text (configured Sample.hiccup) "hi there" "formal" Sample.fresh))
       = (sleeps Sample.fresh ++ firstn (n - 1) [1; 2])%list
    /\ clock (snd (format_text (configured Sample.hiccup) "hi there" "formal" Sample.fresh))
       = clock Sample.fresh + total (firstn (n - 1) [1; 2])
    /\ (forall e,
          fst (format_text (configured Sample.hiccup) "hi there" "formal" Sample.fresh)
          = Raise e ->
          history_text (snd (format_text (configured Sample.hiccup) "hi there" "formal"
                               Sample.fresh))
          = history_text Sample.fresh).
Proof.
  apply (format_text_effort Sample.hiccup "hi there" "formal" formal_config Sample.fresh
           (snd (format_text (configured Sample.hiccup) "hi there" "formal" Sample.fresh))
           (fst (format_text (configured Sample.hiccup) "hi there" "formal" Sample.fresh))).
  - discriminate.
  - reflexivity.
  - reflexivity.
Defined.

(** Extra X2.  When no fault strikes and the history file holds the entries
    [h] (a missing file holds none), a call of [format_text] that returns a
    text has appended exactly one entry to them, after however many retries:
    the task asked for, the character counts of the input and of the text
    returned, and the time at the moment of the answer. *)
Theorem format_text_records_once
  (c : Client) (input_text task out : string) (task_config : TaskConfig)
  (w w' : World) (h : list HistoryEntry) :
  PyStr.strip input_text <> EmptyString ->
  dict_get (tasks init) task = Some task_config ->
  faults w = no_faults -> prior_history w h ->
  format_text (configured c) input_text task w = (Return (Some out), w') ->
  let entry := mkEntry (strftime w (clock w')) task
                       (Z.of_nat (String.length input_text))
                       (Z.of_nat (String.length out)) in
  history_text w' = Some (persist (h ++ [entry]))
  /\ reload (persist (h ++ [entry])) = Some (h ++ [entry])%list.
Proof.
  intros Hn Ht Hf Hp H entry. rewrite (format_text_ready _ _ _ _ _ Hn Ht) in H.
  apply attempt_loop_effects in H. cbn zeta in H.
  destruct H as (k & _ & _ & _ & _ & _ & _ & _ & Ho).
  split; [exact (Ho out h eq_refl Hf Hp) | apply reload_persist].
Qed.

Lemma format_text_records_once_witness :
  history_text (snd (format_text (configured Sample.flaky) "hi there" "summarize"
                       (Sample.holding Sample.one_entry)))
  = Some (persist (Sample.one_entry
                   ++ [mkEntry "2024-01-01 10:00:00" "summarize" 8 6]))
  /\ reload (persist (Sample.one_entry
                      ++ [mkEntry "2024-01-01 10:00:00" "summarize" 8 6]))
     = Some (Sample.one_entry ++ [mkEntry "2024-01-01 10:00:00" "summarize" 8 6])%list.
Proof.
  apply (format_text_records_once Sample.flaky "hi there" "summarize" "Hello."
           summarize_config (Sample.holding Sample.one_entry)
           (snd (format_text (configured Sample.flaky) "hi there" "summarize"
                   (Sample.holding Sample.one_entry)))
           Sample.one_entry).
  - discriminate.
  - reflexivity.
  - reflexivity.
  - right. exists (persist Sample.one_entry). split; [reflexivity | apply reload_persist].
  - vm_compute. reflexivity.
Defined.

(** Extra X3.  An error of the remote client that is not an API error is not
    retried: [format_text] raises it as it is after a single call, without
    sleeping and without touching the history file; it is logged when it is
    an [Exception]. *)
Theorem format_text_other_error_not_retried
  (c : Client) (input_text task : string) (task_config : TaskConfig) (w : World) (e : exn) :
  PyStr.strip input_text <> EmptyString ->
  dict_get (tasks init) task = Some task_config ->
  let req := build_request (configured c) task_config input_text in
  create c (length (requests w)) req = Raise e ->
  is_api_error e = false ->
  exists w',
    format_text (configured c) input_text task w = (Raise e, w')
    /\ requests w' = (requests w ++ [req])%list
    /\ sleeps w' = sleeps w
    /\ history_text w' = history_text w
    /\ error_log w' = (if is_exception e then error_log w ++ [LogUnexpected e]
                       else error_log w)%list.
Proof.
  intros Hn Ht req Hc Ha.
  rewrite (format_text_ready _ _ _ _ _ Hn Ht). cbn [attempt_loop].
  rewrite (attempt_body_raise _ _ _ _ _ _ _ Hc), Ha.
  destruct (is_exception e); eexists; (split; [reflexivity|]); now repeat split.
Qed.

Lemma format_text_other_error_not_retried_witness :
  exists w',
    format_text (configured (mkClient (fun _ _ => Raise (Exn TypeError "bad argument" None))))
                "hi there" "formal" Sample.fresh
    = (Raise (Exn TypeError "bad argument" None), w')
    /\ requests w'
       = (requests Sample.fresh
          ++ [build_request
                (configured (mkClient (fun _ _ => Raise (Exn TypeError "bad argument" None))))
                formal_config "hi there"])%list
    /\ sleeps w' = sleeps Sample.fresh
    /\ history_text w' = history_text Sample.fresh
    /\ error_log w'
       = (if is_exception (Exn TypeError "bad argument" None)
          then error_log Sample.fresh ++ [LogUnexpected (Exn TypeError "bad argument" None)]
          else error_log Sample.fresh)%list.
Proof.
  apply (format_text_other_error_not_retried
           (mkClient (fun _ _ => Raise (Exn TypeError "bad argument" None)))
           "hi there" "formal" formal_config Sample.fresh
           (Exn TypeError "bad argument" None));
    first [discriminate | reflexivity].
Defined.

(** Extra X4.  A completion without any choice makes [format_text] raise
    [IndexError] at once: one call, no retry, no sleep, nothing recorded in
    the history file, the error logged as unexpected. *)
Theorem format_text_no_choice
  (c : Client) (input_text task : string) (task_config : TaskConfig) (w : World)
  (resp : ChatCompletion) :
  PyStr.strip input_text <> EmptyString ->
  dict_get (tasks init) task = Some task_config ->
  let req := build_request (configured c) task_config input_text in
  create c (length (requests w)) req = Return resp ->
  choices resp = [] ->
  format_text (configured c) input_text task w
  = (Raise (Exn IndexError "list index out of range" None),
     logging_error (LogUnexpected (Exn IndexError "list index out of range" None))
       (record_request req w)).
Proof.
  intros Hn Ht req Hc Ho.
  rewrite (format_text_ready _ _ _ _ _ Hn Ht). cbn [attempt_loop].
  now rewrite (attempt_body_empty _ _ _ _ _ _ _ Hc Ho).
Qed.

Lemma format_text_no_choice_witness :
  format_text (configured (mkClient (fun _ _ => Return (mkChatCompletion []))))
              "hi there" "formal" Sample.fresh
  = (Raise (Exn IndexError "list index out of range" None),
     logging_error (LogUnexpected (Exn IndexError "list index out of range" None))
       (record_request
          (build_request (configured (mkClient (fun _ _ => Return (mkChatCompletion []))))
                         formal_config "hi there")
          Sample.fresh)).
Proof.
  apply (format_text_no_choice (mkClient (fun _ _ => Return (mkChatCompletion [])))
           "hi there" "formal" formal_config Sample.fresh (mkChatCompletion []));
    first [discriminate | reflexivity].
Defined.

(** Extra X5.  When the first choice of the completion carries no content
    ([None]), [format_text] returns [None]; the attempt to record it fails on
    [len(None)] or earlier, so the history file is left as it was and one
    failure to save is logged. *)
Theorem format_text_none_content
  (c : Client) (input_text task : string) (task_config : TaskConfig) (w : World)
  (resp : ChatCompletion) (others : list (option string)) :
  PyStr.strip input_text <> EmptyString ->
  dict_get (tasks init) task = Some task_config ->
  let req := build_request (configured c) task_config input_text in
  create c (length (requests w)) req = Return resp ->
  choices resp = None :: others ->
  exists w' e,
    format_text (configured c) input_text task w = (Return None, w')
    /\ history_text w' = history_text w
    /\ error_log w' = (error_log w ++ [LogSaveFailed e])%list
    /\ requests w' = (requests w ++ [req])%list
    /\ (faults w = no_faults ->
        (forall text, history_text w = Some text ->
                      exists l, Json.loads text = Some (Json.JList l)) ->
        exn_cls e = TypeError).
Proof.
  intros Hn Ht req Hc Ho.
  rewrite (format_text_ready _ _ _ _ _ Hn Ht).
  destruct (attempt_loop_success (configured c) c task_config input_text task 0 [1; 2] 1
              w resp None others Hc Ho) as (w' & E & S & _).
  fold req in S. rewrite E.
  unfold save_to_history, try_except_Exception in S.
  destruct (save_to_history_body input_text task None (record_request req w))
    as [[u|e] w1] eqn:Eb.
  - exfalso. revert Eb. unfold save_to_history_body.
    destruct (history_text (record_request req w)).
    + destruct (read_history (record_request req w)) as [[[]|e0] w2]; discriminate.
    + discriminate.
  - pose proof (save_body_raises _ _ _ _ _ _ Eb) as (He & _ & Hl & _).
    rewrite He in S. inversion S; subst w'. clear S.
    exists (logging_error (LogSaveFailed e) w1), e.
    split; [reflexivity|].
    assert (Hw1 : w1 = record_request req w).
    { revert Eb. unfold save_to_history_body.
      destruct (history_text (record_request req w)).
      - destruct (read_history (record_request req w)) as [[v|e0] w2] eqn:Er.
        + apply read_history_frame in Er. subst w2.
          destruct v; intros H; now inversion H.
        + apply read_history_frame in Er. subst w2. intros H; now inversion H.
      - intros H; now inversion H. }
    subst w1. split; [reflexivity|]. split; [reflexivity|]. split; [reflexivity|].
    intros Hf Hl0. revert Eb. unfold save_to_history_body.
    cbn [history_text record_request].
    destruct (history_text w) as [text|] eqn:Etext.
    + destruct (Hl0 text eq_refl) as [l El].
      rewrite (read_history_no_faults (record_request req w) text (Json.JList l));
        [|exact Hf|exact Etext|exact El].
      intros H; inversion H; reflexivity.
    + intros H; inversion H; reflexivity.
Qed.

Lemma format_text_none_content_witness :
  exists w' e,
    format_text (configured (mkClient (fun _ _ => Return (mkChatCompletion [None]))))
                "hi there" "formal" (Sample.holding Sample.one_entry)
    = (Return None, w')
    /\ history_text w' = history_text (Sample.holding Sample.one_entry)
    /\ error_log w' = (error_log (Sample.holding Sample.one_entry) ++ [LogSaveFailed e])%list
    /\ requests w'
       = (requests (Sample.holding Sample.one_entry)
          ++ [build_request
                (configured (mkClient (fun _ _ => Return (mkChatCompletion [None]))))
                formal_config "hi there"])%list
    /\ (faults (Sample.holding Sample.one_entry) = no_faults ->
        (forall text, history_text (Sample.holding Sample.one_entry) = Some text ->
                      exists l, Json.loads text = Some (Json.JList l)) ->
        exn_cls e = TypeError).
Proof.
  apply (format_text_none_content
           (mkClient (fun _ _ => Return (mkChatCompletion [None])))
           "hi there" "formal" formal_config (Sample.holding Sample.one_entry)
           (mkChatCompletion [None]) []);
    first [discriminate | reflexivity].
Defined.

(** ** Further properties of [save_to_history] *)

(** Extra X6.  [save_to_history] keeps whatever list the history file holds,
    entries of its own making or not: when the file decodes to a list and no
    fault strikes, the new file decodes to that list followed by the new
    entry. *)
Theorem save_to_history_keeps_items
  (input_text task out text : string) (w : World) (l : list Json.json) :
  history_text w = Some text ->
  Json.loads text = Some (Json.JList l) ->
  faults w = no_faults ->
  let entry := history_entry (strftime w (clock w)) task
                 (Z.of_nat (String.length input_text)) (Z.of_nat (String.length out)) in
  exists w' text',
    save_to_history input_text task (Some out) w = (Return tt, w')
    /\ history_text w' = Some text'
    /\ Json.loads text' = Some (Json.JList (l ++ [entry]))
    /\ error_log w' = error_log w.
Proof.
  intros Ht Hl Hf entry.
  exists (set_history_text (Some (Json.dumps (Json.JList (l ++ [entry])))) w),
         (Json.dumps (Json.JList (l ++ [entry]))).
  split; [|split; [reflexivity|split; [|reflexivity]]].
  - unfold save_to_history, try_except_Exception, save_to_history_body.
    rewrite Ht, (read_history_no_faults w text _ Hf Ht Hl).
    now rewrite (write_history_no_faults _ _ Hf).
  - apply JsonFacts.loads_dumps. apply JsonFacts.wf_list.
    pose proof (DecoderFacts.loads_wf _ _ Hl) as Hw. apply JsonFacts.wf_list in Hw.
    clear -Hw. induction l as [|x l IH]; cbn [app JsonAux.list_wf].
    + split; [|exact I]. apply JsonFacts.wf_dict. split; [|cbn; tauto].
      cbn. repeat constructor; cbn; intuition discriminate.
    + destruct Hw as [Hx Hw]. split; [exact Hx | exact (IH Hw)].
Qed.

Lemma save_to_history_keeps_items_witness :
  exists w' text',
    save_to_history "hi there" "formal" (Some "Hello.")
      (mkWorld (Some "[1, {}]") no_faults 0 Sample.stamp [] [] [] [])
    = (Return tt, w')
    /\ history_text w' = Some text'
    /\ Json.loads text'
       = Some (Json.JList ([Json.JInt 1; Json.JDict []]
                           ++ [history_entry "2024-01-01 10:00:00" "formal" 8 6]))
    /\ error_log w' = [].
Proof.
  apply (save_to_history_keeps_items "hi there" "formal" "Hello." "[1, {}]"
           (mkWorld (Some "[1, {}]") no_faults 0 Sample.stamp [] [] [] [])
           [Json.JInt 1; Json.JDict []]);
    reflexivity.
Defined.

(** *** Texts that are not JSON documents *)

Module AcceptFacts.
Import Json.









End AcceptFacts.



(** ** Further properties of [display_statistics] *)

Module CountFacts.
Import Json Stats StatsAux.

Lemma existsb_eqb_in t keys : existsb (String.eqb t) keys = true <-> In t keys.
Proof.
  rewrite existsb_exists. split.
  - intros (x & Hx & E). apply String.eqb_eq in E. now subst.
  - intros H. exists t. split; [exact H | apply String.eqb_refl].
Qed.

Lemma counts_incr_table keys c t :
  NoDup keys -> (~ In t keys -> c t = 0) ->
  counts_incr (table keys c) (JStr t)
  = table (if existsb (String.eqb t) keys then keys else (keys ++ [t])%list)
          (fun x => c x + (if String.eqb t x then 1 else 0)).
Proof.
  induction keys as [|k keys IH]; intros Hn Hz.
  - cbn. rewrite String.eqb_refl, Hz by tauto. reflexivity.
  - inversion Hn as [|? ? Hk Hn']; subst.
    cbn [table map counts_incr key_eq existsb].
    destruct (String.eqb_spec k t) as [->|Hne].
    + rewrite String.eqb_refl. cbn [orb table map]. rewrite String.eqb_refl. f_equal.
      apply map_ext_in. intros x Hx.
      destruct (String.eqb_spec t x) as [->|_]; [contradiction|]. now rewrite Z.add_0_r.
    + rewrite (proj2 (String.eqb_neq t k)) by congruence. cbn [orb].
      fold (table keys c). rewrite IH; [|exact Hn'|intros H; apply Hz; cbn; tauto].
      destruct (existsb (String.eqb t) keys); cbn [table map app];
        rewrite (proj2 (String.eqb_neq t k)) by congruence;
        now rewrite Z.add_0_r.
Qed.

Lemma nodup_snoc (keys : list string) t : NoDup keys -> ~ In t keys -> NoDup (keys ++ [t]).
Proof.
  intros Hn Ht. apply NoDup_app; [exact Hn | repeat constructor; intros [] |].
  intros a Ha [<-|[]]. contradiction.
Qed.

(** The table of counts the loop builds. *)
Lemma fold_counts_table h : forall keys c,
  NoDup keys -> (forall x, ~ In x keys -> c x = 0) ->
  fold_left counts_incr (map (fun e => JStr (task e)) h) (table keys c)
  = table (keys ++ first_seen keys (map task h))
          (fun x => c x + uses_of x h).
Proof.
  induction h as [|e h IH]; intros keys c Hn Hz.
  - cbn [map fold_left first_seen]. rewrite List.app_nil_r. unfold table.
    apply map_ext. intros x. unfold uses_of. cbn [filter length Z.of_nat].
    now rewrite Z.add_0_r.
  - cbn [map fold_left first_seen].
    rewrite counts_incr_table; [|exact Hn|intros H; now apply Hz].
    assert (Hu : forall x, c x + (if String.eqb (task e) x then 1 else 0) + uses_of x h
                           = c x + uses_of x (e :: h)).
    { intros x. unfold uses_of. cbn [filter].
      destruct (String.eqb (task e) x); cbn [length]; lia. }
    destruct (existsb (String.eqb (task e)) keys) eqn:E.
    + rewrite IH; [|exact Hn|].
      * unfold table. apply map_ext. intros x. now rewrite Hu.
      * intros x Hx. rewrite (Hz x Hx).
        destruct (String.eqb_spec (task e) x) as [<-|_]; [|reflexivity].
        apply existsb_eqb_in in E. contradiction.
    + assert (Hnot : ~ In (task e) keys).
      { intros H. apply existsb_eqb_in in H. congruence. }
      rewrite IH; [| now apply nodup_snoc |].
      * rewrite <- List.app_assoc. cbn [app]. unfold table. apply map_ext. intros x.
        now rewrite Hu.
      * intros x Hx. rewrite (Hz x) by (intros H; apply Hx; apply in_or_app; now left).
        destruct (String.eqb_spec (task e) x) as [<-|_]; [|reflexivity].
        exfalso. apply Hx. apply in_or_app. right. now left.
Qed.

Lemma first_seen_in seen l t :
  In t (first_seen seen l) <-> In t l /\ ~ In t seen.
Proof.
  revert seen. induction l as [|a l IH]; intros seen; cbn [first_seen].
  - cbn. tauto.
  - destruct (existsb (String.eqb a) seen) eqn:E.
    + apply existsb_eqb_in in E. rewrite IH. cbn [In]. split.
      * tauto.
      * intros [[<-|H] Hn]; [contradiction | tauto].
    + assert (Ha : ~ In a seen) by (intros H; apply existsb_eqb_in in H; congruence).
      cbn [In]. rewrite IH. rewrite in_app_iff. cbn [In]. split.
      * intros [<-|[H Hn]]; [tauto|]. split; [tauto|]. tauto.
      * intros [[<-|H] Hn]; [tauto|].
        destruct (string_dec a t) as [->|Hne]; [tauto|]. right. tauto.
Qed.

Lemma first_seen_nodup l : forall seen, NoDup (first_seen seen l).
Proof.
  induction l as [|a l IH]; intros seen; cbn [first_seen]; [constructor|].
  destruct (existsb (String.eqb a) seen); [apply IH|].
  constructor; [|apply IH].
  rewrite first_seen_in, in_app_iff. cbn. tauto.
Qed.

End CountFacts.




(** ** The emptiness check *)

Lemma lstrip_cases s :
  (PyStr.lstrip s = EmptyString /\ PyStr.all_space s = true)
  \/ (exists c r, PyStr.lstrip s = String c r /\ PyStr.isspace c = false
                  /\ PyStr.all_space s = false).
Proof.
  induction s as [|c s IH]; [now left|].
  cbn [PyStr.lstrip PyStr.all_space].
  destruct (PyStr.isspace c) eqn:E; cbn [andb]; [exact IH|].
  right. now exists c, s.
Qed.

Lemma rstrip_keeps_head c r :
  PyStr.isspace c = false -> PyStr.rstrip (String c r) <> EmptyString.
Proof.
  intros H. cbn [PyStr.rstrip]. rewrite H. now destruct (PyStr.rstrip r).
Qed.

Lemma strip_empty_iff s : PyStr.strip s = EmptyString <-> PyStr.all_space s = true.
Proof.
  unfold PyStr.strip.
  destruct (lstrip_cases s) as [[-> Ha]|(c & r & -> & Hc & Ha)].
  - now split.
  - split; [intros H; now destruct (rstrip_keeps_head c r Hc) | congruence].
Qed.

Lemma format_text_stops_on_blank self input_text task w :
  PyStr.all_space input_text = true ->
  format_text self input_text task w
  = (Raise (Exn ValueError "Input text cannot be empty" None), w).
Proof.
  intros H. apply strip_empty_iff in H. unfold format_text. now rewrite H.
Qed.

Lemma isspace_codes c :
  PyStr.isspace c = true
  <-> In (PyStr.code c) [9; 10; 11; 12; 13; 28; 29; 30; 31; 32; 133; 160]%N.
Proof.
  unfold PyStr.isspace. cbn [In]. set (n := PyStr.code c).
  rewrite !Bool.orb_true_iff, !Bool.andb_true_iff, !N.leb_le, !N.eqb_eq. lia.
Qed.

Lemma all_space_codes s :
  PyStr.all_space s = true
  <-> Forall (fun c => In (PyStr.code c) [9; 10; 11; 12; 13; 28; 29; 30; 31; 32; 133; 160]%N)
             (list_ascii_of_string s).
Proof.
  induction s as [|c s IH]; cbn [PyStr.all_space list_ascii_of_string].
  - split; [constructor | reflexivity].
  - rewrite Bool.andb_true_iff, isspace_codes, IH. split.
    + intros [H1 H2]. now constructor.
    + intros H. inversion H; subst. now split.
Qed.

(** Extra X10.  For an input made of code points below 256, [format_text]
    stops at its first check, raising "Input text cannot be empty" with the
    world untouched, exactly when every character of the input is one that
    [str.strip] removes in that range: a tab, a line break, a vertical tab, a
    form feed, a carriage return, one of the separators FS to US, a space,
    NEL or a no-break space. *)
Theorem format_text_rejects_blank
  (self : TextFormatterBot) (input_text task : string) (w : World) :
  format_text self input_text task w
  = (Raise (Exn ValueError "Input text cannot be empty" None), w)
  <-> Forall (fun c => In (PyStr.code c) [9; 10; 11; 12; 13; 28; 29; 30; 31; 32; 133; 160]%N)
             (list_ascii_of_string input_text).
Proof.
  rewrite <- all_space_codes, <- strip_empty_iff. split.
  - intros H. destruct (string_dec (PyStr.strip input_text) EmptyString) as [E|E];
      [exact E|exfalso].
    unfold format_text in H. rewrite (truthy_nonempty _ E) in H. cbn [negb] in H.
    destruct (client self) as [c|]; [|discriminate H].
    destruct (dict_get (tasks self) task) as [cfg|]; [|discriminate H].
    apply attempt_loop_effects in H. cbn zeta in H.
    destruct H as (k & _ & _ & _ & _ & _ & Hr & _).
    assert (Hlen : length (requests w) <> length (requests w)); [|congruence].
    destruct Hr as [[_ Hr]|(_ & Hnone & _)]; [|discriminate Hnone].
    intros Heq. rewrite Hr, length_app in Heq at 1. cbn [repeat length] in Heq. lia.
  - intros H. apply strip_empty_iff in H. now apply format_text_stops_on_blank.
Qed.

(* ================================================================== *)
(** ** The figures of the statistics *)

Module PercentFacts.
Import Json Stats StatsAux FloatAux.

Lemma ratio_bounds c n :
  (0 < c <= n)%Z -> (0 < inject_Z c / inject_Z n <= 1)%Q.
Proof.
  intros [Hc Hn].
  pose proof (FloatFacts.inject_Z_pos n ltac:(lia)) as Hnq.
  pose proof (FloatFacts.inject_Z_pos c Hc) as Hcq.
  split.
  - apply Qlt_shift_div_l; [exact Hnq|]. now rewrite Qmult_0_l.
  - apply Qle_shift_div_r; [exact Hnq|]. rewrite Qmult_1_l. now rewrite <- Zle_Qle.
Qed.

(** The percentage the program holds for a count [c] out of [n] is a finite
    float within [2 ^ (-45)] of [c / n * 100]. *)
Lemma percentage_spec c n :
  (0 < c <= n)%Z ->
  PyFloat.is_finite (percentage c n) = true
  /\ (Qabs (PyFloat.value (percentage c n) - inject_Z c / inject_Z n * 100)
      <= 2 ^ (-45))%Q.
Proof.
  intros Hcn. pose proof (ratio_bounds c n Hcn) as [Hx0 Hx1]. unfold percentage.
  set (x := (inject_Z c / inject_Z n)%Q) in *.
  assert (Ha : (2 ^ (-53) == 1 # 9007199254740992)%Q) by reflexivity.
  assert (Hb : (0 < 2 ^ (-1075) <= 1 # 1267650600228229401496703205376)%Q).
  { split; [apply FloatFacts.pow2_pos|].
    eapply Qle_trans; [apply (FloatFacts.pow2_le (-1075) (-100)); lia|].
    apply Qle_lteq. right. reflexivity. }
  assert (Hbig : (200 < 2 ^ 1023)%Q) by reflexivity.
  destruct (FloatFacts.int_truediv_spec c n ltac:(lia)) as [Hf1 He1].
  { cbv zeta. fold x. rewrite Qabs_pos by lra. lra. }
  cbv zeta in He1. fold x in He1. rewrite (Qabs_pos x) in He1 by lra.
  rewrite Ha in He1. apply Qabs_Qle_condition in He1.
  set (y := PyFloat.int_truediv c n) in *. set (vy := PyFloat.value y) in *.
  set (b := (2 ^ (-1075))%Q) in *.
  assert (Hw : (Qabs (vy * 100) <= 100 * (x + x * (1 # 9007199254740992) + b))%Q).
  { apply Qabs_Qle_condition. clearbody b vy. lra. }
  destruct (FloatFacts.mul_hundred_spec y Hf1) as [Hf2 He2].
  { cbv zeta. fold vy. eapply Qle_lt_trans; [exact Hw|].
    eapply Qle_lt_trans; [|exact Hbig]. clearbody b vy. lra. }
  cbv zeta in He2. fold vy in He2. fold b in He2.
  rewrite Ha in He2.
  split; [exact Hf2|].
  set (vp := PyFloat.value (PyFloat.mul y (PyFloat.of_int 100))) in *.
  set (w := Qabs (vy * 100)) in *.
  apply Qabs_Qle_condition in He2.
  assert (H45 : (2 ^ (-45) == 1 # 35184372088832)%Q) by reflexivity.
  rewrite H45. apply Qabs_Qle_condition.
  clearbody vy vp w b. lra.
Qed.

Lemma sum_percentages_cons u usage :
  sum_percentages (u :: usage) = (PyFloat.value (snd u) + sum_percentages usage)%Q.
Proof. reflexivity. Qed.

(** The percentages add up to the percentage of the sum of the counts, within
    [2 ^ (-45)] for every task. *)
Lemma sum_percentages_bound n counts :
  (0 < n)%Z -> Forall (fun kc => (0 < snd kc <= n)%Z) counts ->
  (Qabs (sum_percentages (map (usage_line n) counts)
         - inject_Z (counts_total counts) / inject_Z n * 100)
   <= inject_Z (Z.of_nat (length counts)) * 2 ^ (-45))%Q.
Proof.
  intros Hn Hc. pose proof (FloatFacts.inject_Z_pos n Hn) as Hnq.
  induction Hc as [|[k c] rest Hk Hrest IH].
  - cbn. apply Qle_lteq. right. reflexivity.
  - cbn [map]. rewrite sum_percentages_cons, StatsFacts.counts_total_cons.
    cbn [usage_line snd fst length] in *.
    rewrite Nat2Z.inj_succ. unfold Z.succ. rewrite !inject_Z_plus.
    destruct (percentage_spec c n Hk) as [_ He]. fold (percentage c n).
    apply Qabs_Qle_condition in He. apply Qabs_Qle_condition in IH.
    apply Qabs_Qle_condition.
    assert (E : ((inject_Z c + inject_Z (counts_total rest)) / inject_Z n * 100
                 == inject_Z c / inject_Z n * 100
                    + inject_Z (counts_total rest) / inject_Z n * 100)%Q)
      by (field; lra).
    rewrite E. change (inject_Z 1) with 1%Q.
    set (v := PyFloat.value (percentage c n)) in *.
    set (s := sum_percentages (map (usage_line n) rest)) in *.
    set (xc := (inject_Z c / inject_Z n * 100)%Q) in *.
    set (xr := (inject_Z (counts_total rest) / inject_Z n * 100)%Q) in *.
    set (m := inject_Z (Z.of_nat (length rest))) in *.
    set (e := (2 ^ (-45))%Q) in *. clearbody v s xc xr m e. lra.
Qed.

Lemma uses_of_bounds t h :
  (exists e, In e h /\ task e = t) ->
  (0 < uses_of t h <= Z.of_nat (length h))%Z.
Proof.
  intros (e & He & Ht). unfold uses_of. split.
  - assert (Hin : In e (filter (fun e0 => String.eqb (task e0) t) h)).
    { apply filter_In. split; [exact He|]. rewrite Ht. apply String.eqb_refl. }
    destruct (filter _ h); [destruct Hin | cbn [length]; lia].
  - apply inj_le. apply filter_length_le.
Qed.

Lemma sum_input_bound h :
  Forall in_float_range h ->
  (Z.abs (sum_input h) <= Z.of_nat (length h) * (2 ^ 1023 - 1))%Z
  /\ (Z.abs (sum_output h) <= Z.of_nat (length h) * (2 ^ 1023 - 1))%Z.
Proof.
  induction 1 as [|e h [Hi Ho] _ [IHi IHo]]; [cbn; lia|].
  cbn [sum_input sum_output fold_right length]. rewrite Nat2Z.inj_succ.
  fold (sum_input h). fold (sum_output h).
  set (B := (2 ^ 1023)%Z) in *. clearbody B. lia.
Qed.

(** An average of lengths in the range of a float is in that range. *)
Lemma average_in_range s n :
  (0 < n)%Z -> (Z.abs s <= n * (2 ^ 1023 - 1))%Z ->
  (Qabs (inject_Z s / inject_Z n) < 2 ^ 1023)%Q.
Proof.
  intros Hn Hs. pose proof (FloatFacts.inject_Z_pos n Hn) as Hnq.
  assert (E : (2 ^ 1023 == inject_Z (2 ^ 1023))%Q) by (symmetry; now apply FloatFacts.pow2_Z).
  rewrite E. set (B := (2 ^ 1023)%Z) in *.
  assert (HB : (0 < B)%Z) by reflexivity. clearbody B.
  apply Qabs_Qlt_condition. split.
  - apply Qlt_shift_div_l; [exact Hnq|].
    rewrite <- inject_Z_opp, <- inject_Z_mult, <- Zlt_Qlt. nia.
  - apply Qlt_shift_div_r; [exact Hnq|].
    rewrite <- inject_Z_mult, <- Zlt_Qlt. nia.
Qed.

End PercentFacts.

(** Claim C7.  For a history file holding [N > 0] entries, with lengths in
    the range of a float, the statistics report a total of [N]; every task of
    the history exactly once, in the order of first use, with the number of
    entries that carry it, numbers that sum to [N]; for each task the float
    [(count / N) * 100], which is finite and within [2 ^ (-45)] of the exact
    percentage, so that the percentages held sum to 100 within [2 ^ (-45)]
    for every task listed; and as averages the floats [sum / N] for the sums
    of the input and of the output lengths, each finite and within one part
    in [2 ^ 53] of the exact quotient (or within [2 ^ (-1075)] of it). *)
Theorem statistics_of_history (h : list HistoryEntry) (w : World) (text : string) :
  h <> [] -> history_text w = Some text -> reload text = Some h ->
  read_fault (faults w) = false ->
  Forall StatsAux.in_float_range h ->
  let N := Z.of_nat (length h) in
  let avg_in := (inject_Z (StatsAux.sum_input h) / inject_Z N)%Q in
  let avg_out := (inject_Z (StatsAux.sum_output h) / inject_Z N)%Q in
  exists st w',
    Stats.display_statistics w = (Return (Stats.Shown st), w')
    /\ Stats.total_uses st = N
    /\ map fst (Stats.task_usage st)
       = table (distinct_tasks h) (fun t => StatsAux.uses_of t h)
    /\ NoDup (distinct_tasks h)
    /\ (forall t, In t (distinct_tasks h) <-> exists e, In e h /\ task e = t)
    /\ StatsAux.sum_counts (Stats.task_usage st) = N
    /\ Forall (fun u =>
                 snd u = PyFloat.mul (PyFloat.int_truediv (snd (fst u)) N)
                                     (PyFloat.of_int 100)
                 /\ PyFloat.is_finite (snd u) = true
                 /\ (Qabs (PyFloat.value (snd u)
                           - inject_Z (snd (fst u)) / inject_Z N * 100)
                     <= 2 ^ (-45))%Q)
              (Stats.task_usage st)
    /\ (Qabs (StatsAux.sum_percentages (Stats.task_usage st) - 100)
        <= inject_Z (Z.of_nat (length (Stats.task_usage st))) * 2 ^ (-45))%Q
    /\ Stats.avg_input_length st = PyFloat.int_truediv (StatsAux.sum_input h) N
    /\ PyFloat.is_finite (Stats.avg_input_length st) = true
    /\ (Qabs (PyFloat.value (Stats.avg_input_length st) - avg_in)
        <= Qabs avg_in * 2 ^ (-53) + 2 ^ (-1075))%Q
    /\ Stats.avg_output_length st = PyFloat.int_truediv (StatsAux.sum_output h) N
    /\ PyFloat.is_finite (Stats.avg_output_length st) = true
    /\ (Qabs (PyFloat.value (Stats.avg_output_length st) - avg_out)
        <= Qabs avg_out * 2 ^ (-53) + 2 ^ (-1075))%Q.
Proof.
  intros Hne Ht Hr Hf Hrange N avg_in avg_out.
  assert (Hz : (0 < N)%Z) by (destruct h; [congruence | subst N; cbn; lia]).
  eexists. eexists.
  split; [apply (StatsFacts.display_statistics_history h w text Hne Ht Hr Hf)|].
  cbn [Stats.total_uses Stats.task_usage Stats.avg_input_length Stats.avg_output_length].
  fold N.
  set (counts := fold_left Stats.counts_incr (map (fun e => Json.JStr (task e)) h) []).
  assert (Hcounts : counts = table (distinct_tasks h) (fun t => StatsAux.uses_of t h)).
  { unfold counts. change (@nil (Json.json * Z)) with (table [] (fun _ => 0%Z)).
    rewrite CountFacts.fold_counts_table; [|constructor|reflexivity]. reflexivity. }
  assert (Hin : forall t, In t (distinct_tasks h) <-> exists e, In e h /\ task e = t).
  { intros t. unfold distinct_tasks. rewrite CountFacts.first_seen_in, in_map_iff.
    cbn [In]. split.
    - intros [(e & E & He) _]. now exists e.
    - intros (e & He & E). split; [now exists e | tauto]. }
  assert (Hc : StatsAux.counts_total counts = N).
  { unfold counts. rewrite StatsFacts.counts_total_fold, length_map. reflexivity. }
  assert (Hpos : Forall (fun kc => (0 < snd kc <= N)%Z) counts).
  { rewrite Hcounts. apply Forall_forall. intros kc Hkc. unfold table in Hkc.
    apply in_map_iff in Hkc. destruct Hkc as (t & <- & Hi). cbn [snd].
    apply PercentFacts.uses_of_bounds. now apply Hin. }
  destruct (PercentFacts.sum_input_bound h Hrange) as [Hsi Hso]. fold N in Hsi, Hso.
  split; [reflexivity|].
  split.
  { rewrite map_map. rewrite <- Hcounts. erewrite map_ext; [apply map_id|].
    now intros [k c]. }
  split; [apply CountFacts.first_seen_nodup|].
  split; [exact Hin|].
  split; [now rewrite StatsFacts.sum_counts_usage|].
  split.
  { apply Forall_forall. intros u Hu. apply in_map_iff in Hu.
    destruct Hu as (kc & <- & Hkc). cbn [StatsAux.usage_line snd fst].
    split; [reflexivity|].
    apply (PercentFacts.percentage_spec (snd kc) N).
    exact (proj1 (Forall_forall _ _) Hpos kc Hkc). }
  split.
  { pose proof (PercentFacts.sum_percentages_bound N counts Hz Hpos) as Hs.
    rewrite Hc in Hs. rewrite length_map.
    assert (E : (inject_Z N / inject_Z N * 100 == 100)%Q).
    { field. pose proof (FloatFacts.inject_Z_pos N Hz). lra. }
    now rewrite E in Hs. }
  split; [reflexivity|].
  destruct (FloatFacts.int_truediv_spec (StatsAux.sum_input h) N Hz) as [Hfi Hei].
  { now apply PercentFacts.average_in_range. }
  split; [exact Hfi|]. split; [exact Hei|].
  split; [reflexivity|].
  destruct (FloatFacts.int_truediv_spec (StatsAux.sum_output h) N Hz) as [Hfo Heo].
  { now apply PercentFacts.average_in_range. }
  split; [exact Hfo | exact Heo].
Qed.

Lemma statistics_of_history_witness :
  exists st w',
    Stats.display_statistics (Sample.holding Sample.three_entries)
    = (Return (Stats.Shown st), w')
    /\ Stats.total_uses st = 3
    /\ map fst (Stats.task_usage st)
       = table (distinct_tasks Sample.three_entries)
               (fun t => StatsAux.uses_of t Sample.three_entries)
    /\ NoDup (distinct_tasks Sample.three_entries)
    /\ (forall t, In t (distinct_tasks Sample.three_entries)
                  <-> exists e, In e Sample.three_entries /\ task e = t)
    /\ StatsAux.sum_counts (Stats.task_usage st) = 3
    /\ Forall (fun u =>
                 snd u = PyFloat.mul (PyFloat.int_truediv (snd (fst u)) 3)
                                     (PyFloat.of_int 100)
                 /\ PyFloat.is_finite (snd u) = true
                 /\ (Qabs (PyFloat.value (snd u)
                           - inject_Z (snd (fst u)) / inject_Z 3 * 100)
                     <= 2 ^ (-45))%Q)
              (Stats.task_usage st)
    /\ (Qabs (StatsAux.sum_percentages (Stats.task_usage st) - 100)
        <= inject_Z (Z.of_nat (length (Stats.task_usage st))) * 2 ^ (-45))%Q
    /\ Stats.avg_input_length st
       = PyFloat.int_truediv (StatsAux.sum_input Sample.three_entries) 3
    /\ PyFloat.is_finite (Stats.avg_input_length st) = true
    /\ (Qabs (PyFloat.value (Stats.avg_input_length st)
              - inject_Z (StatsAux.sum_input Sample.three_entries) / inject_Z 3)
        <= Qabs (inject_Z (StatsAux.sum_input Sample.three_entries) / inject_Z 3)
           * 2 ^ (-53) + 2 ^ (-1075))%Q
    /\ Stats.avg_output_length st
       = PyFloat.int_truediv (StatsAux.sum_output Sample.three_entries) 3
    /\ PyFloat.is_finite (Stats.avg_output_length st) = true
    /\ (Qabs (PyFloat.value (Stats.avg_output_length st)
              - inject_Z (StatsAux.sum_output Sample.three_entries) / inject_Z 3)
        <= Qabs (inject_Z (StatsAux.sum_output Sample.three_entries) / inject_Z 3)
           * 2 ^ (-53) + 2 ^ (-1075))%Q.
Proof.
  apply (statistics_of_history Sample.three_entries
           (Sample.holding Sample.three_entries) (persist Sample.three_entries)).
  - discriminate.
  - reflexivity.
  - apply reload_persist.
  - reflexivity.
  - repeat (constructor; [split; reflexivity|]). constructor.
Defined.

(** The figures of a history of three entries, two of one task and one of
    another: the percentages held are 66.66666666666666 and
    33.33333333333333, and they sum to less than 100; the averages are
    7.333333333333333 and 6.0. *)
Lemma statistics_hold_rounded_figures :
  exists w',
    Stats.display_statistics (Sample.holding Sample.three_entries)
    = (Return (Stats.Shown
         (Stats.mkStatistics 3
            [(Json.JStr "formal", 2, S754_finite false 4691249611844266 (-46));
             (Json.JStr "bullet", 1, S754_finite false 4691249611844266 (-47))]
            (S754_finite false 8256599316845909 (-50))
            (S754_finite false 6755399441055744 (-50)))), w')
    /\ (StatsAux.sum_percentages
          [(Json.JStr "formal", 2%Z, S754_finite false 4691249611844266 (-46)%Z);
           (Json.JStr "bullet", 1%Z, S754_finite false 4691249611844266 (-47)%Z)]
        < 100)%Q.
Proof.
  eexists. split; [vm_compute; reflexivity|]. vm_compute. reflexivity.
Qed.

(* ================================================================== *)
(** ** The dialogue *)

Module StripFacts.

Lemma rstrip_empty_iff s : PyStr.rstrip s = EmptyString <-> PyStr.all_space s = true.
Proof.
  induction s as [|c s IH]; [now split|].
  cbn [PyStr.rstrip PyStr.all_space].
  destruct (PyStr.rstrip s) eqn:E.
  - destruct (PyStr.isspace c); cbn [andb]; [tauto|]. split; discriminate.
  - split; [discriminate|]. intros H. apply andb_prop in H. destruct H as [_ H].
    apply IH in H. discriminate H.
Qed.

Lemma rstrip_idempotent s : PyStr.rstrip (PyStr.rstrip s) = PyStr.rstrip s.
Proof.
  induction s as [|c s IH]; [reflexivity|].
  cbn [PyStr.rstrip]. destruct (PyStr.rstrip s) eqn:E.
  - destruct (PyStr.isspace c) eqn:Ec; [reflexivity|].
    cbn [PyStr.rstrip]. now rewrite Ec.
  - cbn [PyStr.rstrip]. cbn [PyStr.rstrip] in IH. rewrite IH. reflexivity.
Qed.

Lemma rstrip_head c r :
  PyStr.isspace c = false -> exists r', PyStr.rstrip (String c r) = String c r'.
Proof.
  intros H. cbn [PyStr.rstrip]. rewrite H.
  destruct (PyStr.rstrip r); eexists; reflexivity.
Qed.

(** Stripping twice is stripping once. *)
Lemma strip_idempotent s : PyStr.strip (PyStr.strip s) = PyStr.strip s.
Proof.
  unfold PyStr.strip.
  destruct (lstrip_cases s) as [[-> _]|(c & r & -> & Hc & _)]; [reflexivity|].
  destruct (rstrip_head c r Hc) as [r' E]. rewrite E.
  cbn [PyStr.lstrip]. rewrite Hc. rewrite <- E. apply rstrip_idempotent.
Qed.

End StripFacts.

Module ConsoleFacts.
Import Console.

Lemma dict_get_in_keys {A} (d : list (string * A)) k :
  In k (map fst d) -> exists x, dict_get d k = Some x.
Proof.
  induction d as [|[k' x] d IH]; [intros []|].
  cbn [map fst In dict_get]. intros H.
  destruct (String.eqb_spec k' k) as [_|Hne]; [now exists x|].
  apply IH. destruct H; [contradiction | assumption].
Qed.

Lemma numeric_choice_known self choice name :
  numeric_choice self choice = Some name -> In name (map fst (tasks self)).
Proof.
  unfold numeric_choice. intros H.
  destruct (isdigit choice); [|discriminate H].
  destruct (int_of_digit_string choice); [|discriminate H].
  destruct ((0 <=? z - 1) && (z - 1 <? Z.of_nat (length (tasks self))))%bool;
    [|discriminate H].
  eapply nth_error_In, H.
Qed.

End ConsoleFacts.

(** Extra X11.  The task [get_task_choice] returns is always a key of the
    registry, whether it was chosen by number or by name: [format_text] called
    with it finds its configuration. *)
Theorem get_task_choice_known
  (self : TextFormatterBot) (stdin rest : list Console.InputEvent)
  (out out' : list Console.Printed) (w w' : World) (name : string) :
  Console.get_task_choice self stdin out w = (Console.Got (Some name), rest, out', w') ->
  exists task_config, dict_get (tasks self) name = Some task_config.
Proof.
  revert out w. induction stdin as [|ev stdin IH]; intros out w H;
    cbn [Console.get_task_choice] in H; [discriminate H|].
  destruct ev as [raw|]; [|discriminate H].
  destruct (String.eqb (Console.lower (PyStr.strip raw)) "cancel"); [discriminate H|].
  destruct (Console.numeric_choice self (Console.lower (PyStr.strip raw))) as [n|] eqn:En.
  - inversion H; subst. apply ConsoleFacts.dict_get_in_keys.
    eapply ConsoleFacts.numeric_choice_known, En.
  - unfold Console.is_task in H.
    destruct (dict_get (tasks self) (Console.lower (PyStr.strip raw))) as [cfg|] eqn:Ed.
    + inversion H; subst. now exists cfg.
    + eapply IH, H.
Qed.

Lemma get_task_choice_known_witness :
  exists task_config, dict_get (tasks init) "bullet" = Some task_config.
Proof.
  apply (get_task_choice_known init
           [Console.Line "0"; Console.Line " 02 "; Console.Line "x"] [Console.Line "x"]
           [] (snd (fst (Console.get_task_choice init
                      [Console.Line "0"; Console.Line " 02 "; Console.Line "x"] []
                      Sample.fresh)))
           Sample.fresh
           (snd (Console.get_task_choice init
                   [Console.Line "0"; Console.Line " 02 "; Console.Line "x"] []
                   Sample.fresh))
           "bullet").
  reflexivity.
Defined.

(** Extra X12.  [get_task_choice] reads one line per pass.  Every line it
    rejects costs one sleep of 1 time-unit, and that is all it does to the
    world: the lines read are the rejected ones followed by the one that ended
    the dialogue (none when the input ended). *)
Theorem get_task_choice_cost
  (self : TextFormatterBot) (stdin rest : list Console.InputEvent)
  (out out' : list Console.Printed) (w w' : World)
  (r : Console.outcome (option string)) :
  Console.get_task_choice self stdin out w = (r, rest, out', w') ->
  exists invalid final,
    stdin = (map Console.Line invalid ++ final ++ rest)%list
    /\ sleeps w' = (sleeps w ++ repeat 1 (length invalid))%list
    /\ requests w' = requests w
    /\ history_text w' = history_text w
    /\ error_log w' = error_log w
    /\ match r with
       | Console.EOFErrorRaised => final = [] /\ rest = []
       | Console.KeyboardInterruptRaised => final = [Console.CtrlC]
       | Console.Got _ => exists raw, final = [Console.Line raw]
       end.
Proof.
  revert out w. induction stdin as [|ev stdin IH]; intros out w H;
    cbn [Console.get_task_choice] in H.
  - inversion H; subst. exists [], []. cbn. rewrite List.app_nil_r. now repeat split.
  - destruct ev as [raw|].
    2:{ inversion H; subst. exists [], [Console.CtrlC]. cbn. rewrite List.app_nil_r.
        now repeat split. }
    assert (Hdone : forall x, (Console.Got x, stdin, (out ++ [Console.TaskMenu (map fst (tasks self))])%list, w)
                              = (r, rest, out', w') ->
            exists invalid final,
              Console.Line raw :: stdin = (map Console.Line invalid ++ final ++ rest)%list
              /\ sleeps w' = (sleeps w ++ repeat 1 (length invalid))%list
              /\ requests w' = requests w
              /\ history_text w' = history_text w
              /\ error_log w' = error_log w
              /\ match r with
                 | Console.EOFErrorRaised => final = [] /\ rest = []
                 | Console.KeyboardInterruptRaised => final = [Console.CtrlC]
                 | Console.Got _ => exists raw, final = [Console.Line raw]
                 end).
    { intros x Hx. inversion Hx; subst. exists [], [Console.Line raw]. cbn.
      rewrite List.app_nil_r. split; [reflexivity|]. do 4 (split; [reflexivity|]).
      now exists raw. }
    destruct (String.eqb (Console.lower (PyStr.strip raw)) "cancel"); [eapply Hdone, H|].
    destruct (Console.numeric_choice self (Console.lower (PyStr.strip raw)));
      [eapply Hdone, H|].
    destruct (Console.is_task self (Console.lower (PyStr.strip raw))); [eapply Hdone, H|].
    apply IH in H. destruct H as (invalid & final & Hs & Hsl & Hr & Hh & He & Hm).
    exists (raw :: invalid), final. cbn [map app length repeat].
    split; [now rewrite Hs|].
    split; [rewrite Hsl; cbn [sleeps time_sleep]; now rewrite <- List.app_assoc|].
    split; [exact Hr|]. split; [exact Hh|]. split; [exact He | exact Hm].
Qed.

Lemma get_task_choice_cost_witness :
  exists invalid final,
    [Console.Line "4"; Console.Line "SUMMARIZE"; Console.CtrlC]
    = (map Console.Line invalid ++ final ++ [Console.CtrlC])%list
    /\ sleeps (time_sleep 1 Sample.fresh)
       = (sleeps Sample.fresh ++ repeat 1 (length invalid))%list
    /\ requests (time_sleep 1 Sample.fresh) = requests Sample.fresh
    /\ history_text (time_sleep 1 Sample.fresh) = history_text Sample.fresh
    /\ error_log (time_sleep 1 Sample.fresh) = error_log Sample.fresh
    /\ exists raw, final = [Console.Line raw].
Proof.
  apply (get_task_choice_cost init
           [Console.Line "4"; Console.Line "SUMMARIZE"; Console.CtrlC] [Console.CtrlC]
           []
           [Console.TaskMenu ["formal"; "bullet"; "summarize"]; Console.InvalidChoice;
            Console.TaskMenu ["formal"; "bullet"; "summarize"]]
           Sample.fresh (time_sleep 1 Sample.fresh)
           (Console.Got (Some "summarize"))).
  reflexivity.
Defined.

Module ChoiceFacts.
Import Console.

Lemma all_digits_isdigit s :
  all_chars Json.is_digit s = true -> all_chars isdigit_char s = true.
Proof.
  induction s as [|c s IH]; [reflexivity|].
  cbn [all_chars]. intros H. apply andb_prop in H. destruct H as [Hc Hs].
  rewrite (IH Hs), andb_true_r.
  unfold isdigit_char. unfold Json.is_digit in Hc. cbn zeta in *. now rewrite Hc.
Qed.

Lemma all_digits_not_cancel s :
  all_chars Json.is_digit s = true -> String.eqb s "cancel" = false.
Proof.
  intros H. apply String.eqb_neq. intros ->. discriminate H.
Qed.

End ChoiceFacts.

(** Extra X13.  A choice made of decimal digits selects by position: when
    the line typed, stripped, reads as the number [i + 1] (leading zeros
    allowed) and the registry has a task at position [i], that task is
    returned at once, without a sleep. *)
Theorem get_task_choice_by_number
  (self : TextFormatterBot) (raw : string) (rest : list Console.InputEvent)
  (out : list Console.Printed) (w : World) (i : nat) (name : string) :
  Console.all_chars Json.is_digit (Console.lower (PyStr.strip raw)) = true ->
  Json.int_of_digits (Console.lower (PyStr.strip raw)) = Some (Z.of_nat (S i)) ->
  nth_error (map fst (tasks self)) i = Some name ->
  Console.get_task_choice self (Console.Line raw :: rest) out w
  = (Console.Got (Some name), rest,
     (out ++ [Console.TaskMenu (map fst (tasks self))])%list, w).
Proof.
  intros Hd Hv Hn. cbn [Console.get_task_choice].
  rewrite (ChoiceFacts.all_digits_not_cancel _ Hd).
  assert (Hlt : (i < length (tasks self))%nat).
  { rewrite <- (length_map fst). apply nth_error_Some. congruence. }
  assert (Hne : PyStr.truthy (Console.lower (PyStr.strip raw)) = true).
  { destruct (Console.lower (PyStr.strip raw)); [discriminate Hv | reflexivity]. }
  unfold Console.numeric_choice, Console.isdigit, Console.int_of_digit_string.
  rewrite Hne, (ChoiceFacts.all_digits_isdigit _ Hd), Hd, Hv. cbn [andb].
  replace (Z.of_nat (S i) - 1) with (Z.of_nat i) by lia.
  rewrite Nat2Z.id, Hn.
  destruct (Z.leb_spec 0 (Z.of_nat i)); [|lia].
  destruct (Z.ltb_spec (Z.of_nat i) (Z.of_nat (length (tasks self)))); [|lia].
  reflexivity.
Qed.

Lemma get_task_choice_by_number_witness :
  Console.get_task_choice init (Console.Line " 003 " :: []) [] Sample.fresh
  = (Console.Got (Some "summarize"), [],
     ([] ++ [Console.TaskMenu (map fst (tasks init))])%list, Sample.fresh).
Proof.
  apply (get_task_choice_by_number init " 003 " [] [] Sample.fresh 2 "summarize");
    reflexivity.
Defined.

Module InputFacts.
Import Console.

Lemma not_command line :
  String.eqb (lower line) "/done" = false ->
  String.eqb (lower line) "/cancel" = false ->
  String.eqb (lower line) "/clear" = false ->
  String.eqb (lower line) "/preview" = false ->
  is_command line = false.
Proof. intros H1 H2 H3 H4. unfold is_command. now rewrite H1, H2, H3, H4. Qed.

(** The lines kept so far are kept lines, and stay so. *)
Lemma get_multiline_input_lines all stdin : forall lines out text rest out',
  (forall ev, In ev stdin -> In ev all) ->
  Forall (kept_line all) lines ->
  get_multiline_input lines stdin out = (Got (Some text), rest, out') ->
  exists lines',
    lines' <> [] /\ text = join_lines lines' /\ Forall (kept_line all) lines'.
Proof.
  induction stdin as [|ev stdin IH]; intros lines out text rest out' Hin Hl H;
    cbn [get_multiline_input] in H; [discriminate H|].
  assert (Hin' : forall ev', In ev' stdin -> In ev' all)
    by (intros ev' H'; apply Hin; now right).
  destruct ev as [raw|]; [|discriminate H].
  destruct (String.eqb (lower (PyStr.strip raw)) "/done") eqn:E1.
  { destruct lines as [|l lines]; [eapply IH; eauto|].
    inversion H; subst. exists (l :: lines). split; [discriminate|]. now split. }
  destruct (String.eqb (lower (PyStr.strip raw)) "/cancel") eqn:E2; [discriminate H|].
  destruct (String.eqb (lower (PyStr.strip raw)) "/clear") eqn:E3.
  { eapply IH; [exact Hin' | constructor | exact H]. }
  destruct (String.eqb (lower (PyStr.strip raw)) "/preview") eqn:E4.
  { destruct lines; eapply IH; eauto. }
  eapply IH; [exact Hin' | | exact H].
  apply Forall_app. split; [exact Hl|]. constructor; [|constructor].
  split; [apply StripFacts.strip_idempotent|].
  split; [now apply not_command|].
  exists raw. split; [apply Hin; now left | reflexivity].
Qed.

End InputFacts.

(** Extra X14.  The text [get_multiline_input] returns is made of at least
    one line, the lines joined by line breaks; every line is one the operator
    typed, stripped of the whitespace around it, and none is a command. *)
Theorem get_multiline_input_text
  (stdin rest : list Console.InputEvent) (out out' : list Console.Printed)
  (text : string) :
  Console.get_multiline_input [] stdin out = (Console.Got (Some text), rest, out') ->
  exists lines,
    lines <> [] /\ text = Console.join_lines lines /\ Forall (kept_line stdin) lines.
Proof.
  intros H. eapply InputFacts.get_multiline_input_lines; [|constructor|exact H]. auto.
Qed.

Lemma get_multiline_input_text_witness :
  exists lines,
    lines <> []
    /\ String "H" (String "i" (String Json.newline "there")) = Console.join_lines lines
    /\ Forall (kept_line [Console.Line " Hi "; Console.Line "/PREVIEW"; Console.Line "there";
                          Console.Line "/done"]) lines.
Proof.
  apply (get_multiline_input_text
           [Console.Line " Hi "; Console.Line "/PREVIEW"; Console.Line "there";
            Console.Line "/done"] [] [] [Console.CurrentInput "Hi"]
           (String "H" (String "i" (String Json.newline "there")))).
  reflexivity.
Defined.

Module BlankFacts.
Import Console.

Lemma join_blank_lines n : PyStr.all_space (join_lines (repeat EmptyString n)) = true.
Proof.
  induction n as [|[|n] IH]; try reflexivity.
  change (repeat EmptyString (S (S n))) with (EmptyString :: repeat EmptyString (S n)).
  cbn [join_lines repeat] in *. cbn [append PyStr.all_space].
  change (PyStr.isspace Json.newline) with true. exact IH.
Qed.

Lemma blank_lines_kept raws : forall m rest out,
  Forall (fun r => PyStr.all_space r = true) raws ->
  (0 < m + length raws)%nat ->
  get_multiline_input (repeat EmptyString m) (map Line raws ++ Line "/done" :: rest) out
  = (Got (Some (join_lines (repeat EmptyString (m + length raws)))), rest, out).
Proof.
  induction raws as [|raw raws IH]; intros m rest out Hall Hpos.
  - cbn [map app length] in *. rewrite Nat.add_0_r in *.
    destruct m as [|m]; [lia|].
    cbn [get_multiline_input]. 
    change (String.eqb (lower (PyStr.strip "/done")) "/done") with true.
    reflexivity.
  - inversion Hall as [|? ? Hraw Hall']; subst.
    cbn [map app get_multiline_input].
    rewrite (proj2 (strip_empty_iff raw) Hraw).
    change (String.eqb (lower EmptyString) "/done") with false.
    change (String.eqb (lower EmptyString) "/cancel") with false.
    change (String.eqb (lower EmptyString) "/clear") with false.
    change (String.eqb (lower EmptyString) "/preview") with false.
    cbv iota.
    rewrite <- repeat_cons.
    change (EmptyString :: repeat EmptyString m) with (repeat EmptyString (S m)).
    rewrite IH; [|exact Hall'|cbn [length] in *; lia].
    cbn [length]. now rewrite Nat.add_succ_r.
Qed.

End BlankFacts.

(** Extra X15.  [/done] is refused only while no line has been typed: lines
    of whitespace count as lines.  After one or more such lines [/done]
    returns a text made of line breaks only (empty after a single line), and
    [format_text] rejects that text at its emptiness check. *)
Theorem blank_lines_pass_done
  (self : TextFormatterBot) (raws : list string) (rest : list Console.InputEvent)
  (out : list Console.Printed) (task : string) (w : World) :
  raws <> [] ->
  Forall (fun r => PyStr.all_space r = true) raws ->
  exists text,
    Console.get_multiline_input []
      (map Console.Line raws ++ Console.Line "/done" :: rest) out
    = (Console.Got (Some text), rest, out)
    /\ text = Console.join_lines (repeat EmptyString (length raws))
    /\ format_text self text task w
       = (Raise (Exn ValueError "Input text cannot be empty" None), w).
Proof.
  intros Hne Hall.
  exists (Console.join_lines (repeat EmptyString (length raws))).
  split; [|split; [reflexivity|]].
  - apply (BlankFacts.blank_lines_kept raws 0 rest out Hall).
    destruct raws; [congruence | cbn; lia].
  - apply format_text_stops_on_blank, BlankFacts.join_blank_lines.
Qed.

Lemma blank_lines_pass_done_witness :
  exists text,
    Console.get_multiline_input []
      (map Console.Line ["  "; EmptyString] ++ Console.Line "/done" :: []) []
    = (Console.Got (Some text), [], [])
    /\ text = Console.join_lines (repeat EmptyString (length ["  "; EmptyString]))
    /\ format_text (configured Sample.steady) text "formal" Sample.fresh
       = (Raise (Exn ValueError "Input text cannot be empty" None), Sample.fresh).
Proof.
  apply (blank_lines_pass_done (configured Sample.steady) ["  "; EmptyString] [] []
           "formal" Sample.fresh).
  - discriminate.
  - repeat constructor.
Defined.

(** Extra X16.  [load_config] fails, with [ValueError], exactly when the API
    key is unset or empty; when it succeeds it installs the client built from
    the key and changes nothing else, so [format_text] no longer stops at its
    client check. *)
Theorem load_config_key
  (connect : string -> Client) (api_key : option string) (self : TextFormatterBot) :
  (forall key, api_key = Some key -> key <> EmptyString ->
     Console.load_config connect api_key self
     = Return (mkBot (model_name self) (tasks self) (Some (connect key))))
  /\ (api_key = None \/ api_key = Some EmptyString ->
      Console.load_config connect api_key self
      = Raise (Exn ValueError "OPENAI_API_KEY not found in environment variables" None))
  /\ (forall self' input_text task w,
        Console.load_config connect api_key self = Return self' ->
        format_text self' input_text task w
        <> (Raise (Exn ValueError "OpenAI client not initialized" None), w)).
Proof.
  split; [|split].
  - intros key -> Hk. unfold Console.load_config. now rewrite (truthy_nonempty _ Hk).
  - intros [->| ->]; reflexivity.
  - intros self' input_text task w H. unfold Console.load_config in H.
    destruct api_key as [key|]; [|discriminate H].
    destruct (PyStr.truthy key); [|discriminate H].
    inversion H; subst. clear H. unfold format_text. cbn [client tasks].
    destruct (negb (PyStr.truthy (PyStr.strip input_text))); [discriminate|].
    destruct (dict_get (tasks self) task) as [cfg|]; [|discriminate].
    intros H. apply attempt_loop_effects in H. cbn zeta in H.
    destruct H as (k & _ & _ & _ & _ & _ & Hr & _).
    destruct Hr as [[_ Hr]|(_ & Hnone & _)]; [|discriminate Hnone].
    assert (Hlen : length (requests w) = length (requests w)) by reflexivity.
    rewrite Hr, length_app in Hlen at 1. cbn [repeat length] in Hlen. lia.
Qed.

Lemma load_config_key_witness :
  Console.load_config (fun _ => Sample.steady) (Some "sk-test") init
  = Return (mkBot (model_name init) (tasks init) (Some Sample.steady))
  /\ Console.load_config (fun _ => Sample.steady) (Some EmptyString) init
     = Raise (Exn ValueError "OPENAI_API_KEY not found in environment variables" None).
Proof.
  split.
  - apply (proj1 (load_config_key (fun _ => Sample.steady) (Some "sk-test") init)
             "sk-test"); [reflexivity | discriminate].
  - apply (proj1 (proj2 (load_config_key (fun _ => Sample.steady) (Some EmptyString) init))).
    now right.
Defined.

(* ================================================================== *)
(** ** The main loop *)

Module RunFacts.
Import Console Run.

Lemma get_multiline_input_suffix stdin : forall lines out r rest out',
  get_multiline_input lines stdin out = (r, rest, out') ->
  exists consumed, stdin = (consumed ++ rest)%list.
Proof.
  induction stdin as [|ev stdin IH]; intros lines out r rest out' H;
    cbn [get_multiline_input] in H.
  - inversion H; subst. now exists [].
  - assert (Hstop : forall x (o : list Printed), (x, stdin, o) = (r, rest, out') ->
              exists consumed, ev :: stdin = (consumed ++ rest)%list).
    { intros x o Hx. inversion Hx; subst. now exists [ev]. }
    assert (Hgo : forall l o, get_multiline_input l stdin o = (r, rest, out') ->
              exists consumed, ev :: stdin = (consumed ++ rest)%list).
    { intros l o Hl. apply IH in Hl. destruct Hl as [consumed ->].
      now exists (ev :: consumed). }
    destruct ev as [raw|]; [|eapply Hstop, H].
    destruct (String.eqb (lower (PyStr.strip raw)) "/done").
    { destruct lines; [eapply Hgo, H | eapply Hstop, H]. }
    destruct (String.eqb (lower (PyStr.strip raw)) "/cancel"); [eapply Hstop, H|].
    destruct (String.eqb (lower (PyStr.strip raw)) "/clear"); [eapply Hgo, H|].
    destruct (String.eqb (lower (PyStr.strip raw)) "/preview").
    { destruct lines; eapply Hgo, H. }
    eapply Hgo, H.
Qed.

Lemma get_task_choice_frame self stdin : forall out w r rest out' w',
  get_task_choice self stdin out w = (r, rest, out', w') ->
  (exists consumed, stdin = (consumed ++ rest)%list)
  /\ requests w' = requests w.
Proof.
  induction stdin as [|ev stdin IH]; intros out w r rest out' w' H;
    cbn [get_task_choice] in H.
  - inversion H; subst. split; [now exists [] | reflexivity].
  - assert (Hstop : forall x (o : list Printed), (x, stdin, o, w) = (r, rest, out', w') ->
              (exists consumed, ev :: stdin = (consumed ++ rest)%list)
              /\ requests w' = requests w).
    { intros x o Hx. inversion Hx; subst. split; [now exists [ev] | reflexivity]. }
    destruct ev as [raw|]; [|eapply Hstop, H].
    destruct (String.eqb (lower (PyStr.strip raw)) "cancel"); [eapply Hstop, H|].
    destruct (numeric_choice self (lower (PyStr.strip raw))); [eapply Hstop, H|].
    destruct (is_task self (lower (PyStr.strip raw))); [eapply Hstop, H|].
    apply IH in H. destruct H as [[consumed ->] Hr].
    split; [now exists (Line raw :: consumed) | exact Hr].
Qed.

Lemma display_statistics_requests w r w' :
  Stats.display_statistics w = (r, w') -> requests w' = requests w.
Proof.
  unfold Stats.display_statistics. intros H.
  destruct (history_text w); [|now inversion H].
  unfold try_except_Exception in H.
  destruct (Stats.display_statistics_body w) as [r0 w0] eqn:E.
  apply DivisionFacts.display_statistics_body_divisions in E.
  destruct E as (ds & -> & _).
  destruct r0 as [d|e]; [now inversion H|].
  destruct (is_exception e); now inversion H.
Qed.

Lemma format_text_requests_proper self input_text task w r w' :
  format_text self input_text task w = (r, w') ->
  exists new,
    requests w' = (requests w ++ new)%list
    /\ Forall (proper_request self) new /\ (length new <= 3)%nat.
Proof.
  unfold format_text. intros H.
  assert (Hnil : forall x : result (option string), (x, w) = (r, w') ->
            exists new, requests w' = (requests w ++ new)%list
                        /\ Forall (proper_request self) new /\ (length new <= 3)%nat).
  { intros x Hx. inversion Hx; subst. exists []. rewrite List.app_nil_r.
    split; [reflexivity|]. split; [constructor | cbn; lia]. }
  destruct (PyStr.truthy (PyStr.strip input_text)) eqn:Et; cbn [negb] in H;
    [|eapply Hnil, H].
  destruct (client self) as [c|]; [|eapply Hnil, H].
  destruct (dict_get (tasks self) task) as [cfg|] eqn:Ed; [|eapply Hnil, H].
  apply attempt_loop_effects in H. cbn zeta in H.
  destruct H as (k & Hk & _ & _ & _ & _ & Hr & _).
  assert (Hp : proper_request self (build_request self cfg input_text)).
  { exists task, cfg, input_text. split; [exact Ed|]. split; [|reflexivity].
    intros E. rewrite E in Et. discriminate Et. }
  cbn [length range] in Hk, Hr. change (length (range max_retries)) with 3%nat in *.
  destruct Hr as [[Hlt Hr]|(-> & _ & Hr & _)]; eexists; (split; [exact Hr|]);
    (split; [apply Forall_forall; intros x Hx; apply repeat_spec in Hx; now subst
            | rewrite repeat_length; lia]).
Qed.

(** What one pass of the loop does to the input and to the requests. *)
Lemma iteration_frame self s b s' :
  iteration self s = (b, s') ->
  (exists consumed,
      stdin s = (consumed ++ stdin s')%list
      /\ (b = true -> exists raw, consumed = [Line raw]
                                  /\ lower (PyStr.strip raw) = "exit"))
  /\ exists new,
       requests (world s') = (requests (world s) ++ new)%list
       /\ Forall (proper_request self) new /\ (length new <= 3)%nat.
Proof.
  unfold iteration. intros H.
  assert (Hsame : forall (w0 : World) consumed rest0 o l,
            stdin s = (consumed ++ rest0)%list ->
            requests w0 = requests (world s) ->
            (false, mkSession w0 rest0 o l) = (b, s') ->
            (exists consumed,
                stdin s = (consumed ++ stdin s')%list
                /\ (b = true -> exists raw, consumed = [Line raw]
                                            /\ lower (PyStr.strip raw) = "exit"))
            /\ exists new,
                 requests (world s') = (requests (world s) ++ new)%list
                 /\ Forall (proper_request self) new /\ (length new <= 3)%nat).
  { intros w0 consumed rest0 o l Hs Hr Hx. inversion Hx; subst. cbn [stdin world].
    split; [exists consumed; split; [exact Hs | discriminate]|].
    exists []. rewrite List.app_nil_r. split; [exact Hr|]. split; [constructor | cbn; lia]. }
  assert (Hnew : forall (w0 : World) consumed rest0 o l new,
            stdin s = (consumed ++ rest0)%list ->
            requests w0 = (requests (world s) ++ new)%list ->
            Forall (proper_request self) new -> (length new <= 3)%nat ->
            (false, mkSession w0 rest0 o l) = (b, s') ->
            (exists consumed,
                stdin s = (consumed ++ stdin s')%list
                /\ (b = true -> exists raw, consumed = [Line raw]
                                            /\ lower (PyStr.strip raw) = "exit"))
            /\ exists new,
                 requests (world s') = (requests (world s) ++ new)%list
                 /\ Forall (proper_request self) new /\ (length new <= 3)%nat).
  { intros w0 consumed rest0 o l new Hs Hr Hf Hl Hx. inversion Hx; subst.
    cbn [stdin world]. split; [exists consumed; split; [exact Hs | discriminate]|].
    now exists new. }
  destruct (stdin s) as [|ev rest] eqn:Es.
  { unfold failed in H. eapply (Hsame _ [] []); [reflexivity | | exact H]. reflexivity. }
  destruct ev as [raw|].
  2:{ unfold cancelled in H. eapply (Hsame _ [CtrlC] rest); [reflexivity | | exact H].
      reflexivity. }
  destruct (String.eqb (lower (PyStr.strip raw)) "exit") eqn:Eexit.
  { inversion H; subst. cbn [stdin world].
    split.
    - exists [Line raw]. split; [reflexivity|]. intros _. exists raw.
      split; [reflexivity | now apply String.eqb_eq].
    - exists []. rewrite List.app_nil_r. split; [reflexivity|].
      split; [constructor | cbn; lia]. }
  destruct (String.eqb (lower (PyStr.strip raw)) "stats").
  { destruct (Stats.display_statistics (world s)) as [[d|e] w1] eqn:Ed;
      pose proof (display_statistics_requests _ _ _ Ed) as Hr.
    - eapply (Hsame _ [Line raw] rest); [reflexivity | exact Hr | exact H].
    - unfold handle, failed, cancelled in H.
      destruct (is_exception e);
        (eapply (Hsame _ [Line raw] rest); [reflexivity | | exact H]); exact Hr. }
  destruct (get_multiline_input [] rest (stdout s)) as [[r1 rest1] out1] eqn:Em.
  apply get_multiline_input_suffix in Em. destruct Em as [c1 ->].
  destruct r1 as [[user_input|]| |];
    try (unfold failed, cancelled in H;
         eapply (Hsame _ (Line raw :: c1) rest1); [reflexivity | | exact H]; reflexivity).
  destruct (negb (PyStr.truthy user_input));
    [eapply (Hsame _ (Line raw :: c1) rest1); [reflexivity | | exact H]; reflexivity|].
  destruct (get_task_choice self rest1 out1 (world s)) as [[[r2 rest2] out2] w2] eqn:Et.
  apply get_task_choice_frame in Et. destruct Et as [[c2 ->] Hr2].
  assert (Hs2 : Line raw :: (c1 ++ c2 ++ rest2)%list
                = ((Line raw :: c1 ++ c2) ++ rest2)%list).
  { cbn [app]. now rewrite <- List.app_assoc. }
  destruct r2 as [[task_type|]| |];
    try (unfold failed, cancelled in H;
         eapply (Hsame _ _ rest2); [exact Hs2 | | exact H]; exact Hr2).
  destruct (negb (PyStr.truthy task_type));
    [eapply (Hsame _ _ rest2); [exact Hs2 | | exact H]; exact Hr2|].
  destruct (format_text self user_input task_type w2) as [r3 w3] eqn:Ef.
  apply format_text_requests_proper in Ef.
  destruct Ef as (new & Hr3 & Hp & Hl). rewrite Hr2 in Hr3.
  destruct r3 as [[text|]|e]; unfold handle, failed, cancelled in H;
    try destruct (is_exception e);
    (eapply (Hnew _ _ rest2 _ _ new); [exact Hs2 | | exact Hp | exact Hl | exact H]);
    exact Hr3.
Qed.

(** What the passes of a loop that ends did: the last line read is an
    [exit] command, and every request sent was one [format_text] builds. *)
Lemma run_loop_frame fuel self : forall s s',
  run_loop fuel self s = Some s' ->
  (exists before raw,
      stdin s = (before ++ Line raw :: stdin s')%list
      /\ lower (PyStr.strip raw) = "exit")
  /\ exists new,
       requests (world s') = (requests (world s) ++ new)%list
       /\ Forall (proper_request self) new.
Proof.
  induction fuel as [|f IH]; intros s s' H; [discriminate H|].
  cbn [run_loop] in H.
  destruct (iteration self s) as [b s1] eqn:Ei.
  apply iteration_frame in Ei.
  destruct Ei as [(consumed & Hs & Hb) (new & Hr & Hp & _)].
  destruct b.
  - inversion H; subst s1. destruct (Hb eq_refl) as (raw & -> & He).
    split; [exists [], raw; now split | now exists new].
  - apply IH in H. destruct H as [(before & raw & Hs1 & He) (new1 & Hr1 & Hp1)].
    split.
    + exists (consumed ++ before)%list, raw. split; [|exact He].
      rewrite Hs, Hs1. now rewrite <- List.app_assoc.
    + exists (new ++ new1)%list. split.
      * rewrite Hr1, Hr. now rewrite <- List.app_assoc.
      * apply Forall_app. now split.
Qed.

End RunFacts.

(** Extra X17.  [run] returns 1 when the API key is unset or empty, before it
    reads anything and with the world as it was; with a key, a first command
    [exit] (in any letter case, blanks around it ignored) makes it return 0
    after that one line, with the world as it was. *)
Theorem run_exit_codes
  (fuel : nat) (connect : string -> Client) (api_key : option string) (s : Run.Session) :
  (api_key = None \/ api_key = Some EmptyString ->
   exists e,
     Run.run fuel connect api_key s
     = Some (1, Run.mkSession (Run.world s) (Run.stdin s)
                  (Run.stdout s ++ [Console.FatalError])
                  (Run.run_log s ++ [Run.Fatal e]))
     /\ exn_cls e = ValueError)
  /\ (forall key raw rest,
        api_key = Some key -> key <> EmptyString ->
        Run.stdin s = Console.Line raw :: rest ->
        Console.lower (PyStr.strip raw) = "exit" ->
        Run.run (S fuel) connect api_key s
        = Some (0, Run.mkSession (Run.world s) rest
                     (Run.stdout s ++ [Console.ThankYou]) (Run.run_log s))).
Proof.
  split.
  - intros [->| ->]; eexists; (split; [reflexivity|reflexivity]).
  - intros key raw rest -> Hk Hs He. unfold Run.run, Console.load_config.
    rewrite (truthy_nonempty _ Hk). cbn [Run.run_loop]. unfold Run.iteration.
    rewrite Hs, He. reflexivity.
Qed.

Lemma run_exit_codes_witness :
  (exists e,
     Run.run 0 (fun _ => Sample.steady) None
       (Run.mkSession Sample.fresh [Console.Line "exit"] [] [])
     = Some (1, Run.mkSession Sample.fresh [Console.Line "exit"]
                  ([] ++ [Console.FatalError]) ([] ++ [Run.Fatal e]))
     /\ exn_cls e = ValueError)
  /\ Run.run 1 (fun _ => Sample.steady) (Some "sk-test")
       (Run.mkSession Sample.fresh [Console.Line " EXIT "; Console.Line "x"] [] [])
     = Some (0, Run.mkSession Sample.fresh [Console.Line "x"]
                  ([] ++ [Console.ThankYou]) []).
Proof.
  split.
  - apply (proj1 (run_exit_codes 0 (fun _ => Sample.steady) None
                    (Run.mkSession Sample.fresh [Console.Line "exit"] [] []))).
    now left.
  - apply (proj2 (run_exit_codes 0 (fun _ => Sample.steady) (Some "sk-test")
                    (Run.mkSession Sample.fresh [Console.Line " EXIT "; Console.Line "x"]
                       [] []))
             "sk-test" " EXIT " [Console.Line "x"]);
      first [discriminate | reflexivity].
Defined.

(** Extra X18.  Once the input has ended, the main loop never ends: every
    pass logs the [EOFError], reports it, sleeps 2 time-units and starts
    again, so no number of passes makes [run] return. *)
Theorem run_spins_at_end_of_input
  (fuel : nat) (self : TextFormatterBot) (s : Run.Session) :
  Run.stdin s = [] ->
  Run.iteration self s
  = (false, Run.mkSession (time_sleep 2 (Run.world s)) []
              (Run.stdout s ++ [Console.ErrorMessage])
              (Run.run_log s ++ [Run.FormattingError Run.EndOfInput]))
  /\ Run.run_loop fuel self s = None
  /\ forall connect key,
       key <> EmptyString -> Run.run fuel connect (Some key) s = None.
Proof.
  intros Hs.
  assert (Hi : forall s0, Run.stdin s0 = [] ->
            Run.iteration self s0
            = (false, Run.mkSession (time_sleep 2 (Run.world s0)) []
                        (Run.stdout s0 ++ [Console.ErrorMessage])
                        (Run.run_log s0 ++ [Run.FormattingError Run.EndOfInput]))).
  { intros s0 H0. unfold Run.iteration. now rewrite H0. }
  assert (Hl : forall f s0 self0, Run.stdin s0 = [] -> Run.run_loop f self0 s0 = None).
  { intros f. induction f as [|f IH]; intros s0 self0 H0; [reflexivity|].
    cbn [Run.run_loop]. unfold Run.iteration. rewrite H0. apply IH. reflexivity. }
  split; [now apply Hi|]. split; [now apply Hl|].
  intros connect key Hk. unfold Run.run, Console.load_config.
  rewrite (truthy_nonempty _ Hk). now rewrite Hl.
Qed.

Lemma run_spins_at_end_of_input_witness :
  Run.iteration init (Run.mkSession Sample.fresh [] [] [])
  = (false, Run.mkSession (time_sleep 2 Sample.fresh) []
              ([] ++ [Console.ErrorMessage])
              ([] ++ [Run.FormattingError Run.EndOfInput]))
  /\ Run.run_loop 5 init (Run.mkSession Sample.fresh [] [] []) = None
  /\ forall connect key,
       key <> EmptyString ->
       Run.run 5 connect (Some key) (Run.mkSession Sample.fresh [] [] []) = None.
Proof.
  apply (run_spins_at_end_of_input 5 init (Run.mkSession Sample.fresh [] [] [])).
  reflexivity.
Defined.

(** Extra X19.  [run] returns 0 only after an [exit] command: when it
    returns 0 the API key was set, the last line read is an [exit] command,
    whatever failed on the way (remote errors, interrupts, refused choices),
    and every request sent meanwhile was built from a task of the registry
    and a text that is not blank. *)
Theorem run_returns_zero_after_exit
  (fuel : nat) (connect : string -> Client) (api_key : option string)
  (s s' : Run.Session) :
  Run.run fuel connect api_key s = Some (0, s') ->
  exists key before raw,
    api_key = Some key /\ key <> EmptyString
    /\ Run.stdin s = (before ++ Console.Line raw :: Run.stdin s')%list
    /\ Console.lower (PyStr.strip raw) = "exit"
    /\ exists new,
         requests (Run.world s') = (requests (Run.world s) ++ new)%list
         /\ Forall (proper_request (configured (connect key))) new.
Proof.
  unfold Run.run, Console.load_config. intros H.
  destruct api_key as [key|]; [|discriminate H].
  destruct key as [|c key]; [discriminate H|]. cbn [PyStr.truthy] in H.
  destruct (Run.run_loop fuel _ s) as [s1|] eqn:El; [|discriminate H].
  inversion H; subst s1. apply RunFacts.run_loop_frame in El.
  destruct El as [(before & raw & Hs & He) Hr].
  exists (String c key), before, raw.
  split; [reflexivity|]. split; [discriminate|]. split; [exact Hs|]. split; [exact He|].
  exact Hr.
Qed.

Lemma run_returns_zero_after_exit_witness :
  exists key before raw,
    Some "sk-test" = Some key /\ key <> EmptyString
    /\ [Console.Line "go"; Console.Line "hi there"; Console.Line "/done";
        Console.Line "2"; Console.Line "Exit"]
       = (before ++ Console.Line raw :: [])%list
    /\ Console.lower (PyStr.strip raw) = "exit"
    /\ exists new,
         requests (time_sleep 2 (snd (format_text (configured Sample.down) "hi there"
                                        "bullet" Sample.fresh)))
         = (requests Sample.fresh ++ new)%list
         /\ Forall (proper_request (configured ((fun _ => Sample.down) key))) new.
Proof.
  apply (run_returns_zero_after_exit 5 (fun _ => Sample.down) (Some "sk-test")
           (Run.mkSession Sample.fresh
              [Console.Line "go"; Console.Line "hi there"; Console.Line "/done";
               Console.Line "2"; Console.Line "Exit"] [] [])
           (Run.mkSession
              (time_sleep 2 (snd (format_text (configured Sample.down) "hi there" "bullet"
                                    Sample.fresh)))
              []
              [Console.TaskMenu ["formal"; "bullet"; "summarize"]; Console.ErrorMessage;
               Console.ThankYou]
              [Run.FormattingError
                 (Run.Failed (Exn PlainException
                                "Failed to format text after multiple attempts"
                                (Some Sample.rate_limit)))])).
  vm_compute. reflexivity.
Defined.


